(** * The data pipeline of the COVID-19 dashboard (src/app.py)

    A shallow embedding of the pieces of app.py that carry data semantics:
    [load_data] (lines 23-36), the country options and the date span of the
    sidebar (lines 45-48 and 65-68), and the filter with its headline
    metrics (lines 73-77 and 96-99).  pandas data frames are modelled row by
    row; every row keeps its index label and maps column names to cells. *)

From Stdlib Require Import ZArith Ascii Lia.
From stdpp Require Import base option list sorting gmap strings.

Local Open Scope Z_scope.

(** ** Cells, exceptions and the error monad *)

(** A cell of a data frame.  [NaN] is the missing value (NaN in a numeric or
    object column, NaT in a datetime64 column).  Numeric cells hold integers,
    as the counts of the dataset are; a [Timestamp] is an instant on the
    integer time line of datetime64. *)
Inductive value :=
  | NaN
  | Num (z : Z)
  | Str (s : string)
  | Timestamp (t : Z).

(** The Python exceptions the modelled lines can raise.  [OSError] stands
    for its subclasses other than FileNotFoundError (PermissionError,
    IsADirectoryError, ...). *)
Inductive exn :=
  | FileNotFoundError (path : string)
  | OSError
  | UnicodeDecodeError
  | ParserError
  | EmptyDataError
  | KeyError (key : string)
  | NameError (name : string)
  | IndexError
  | IndexingError
  | TypeError
  | ValueError.

Inductive result (A : Type) :=
  | Ok (a : A)
  | Raise (e : exn).
Arguments Ok {A} a.
Arguments Raise {A} e.

#[global] Instance result_ret : MRet result := λ A a, Ok a.
#[global] Instance result_bind : MBind result := λ A B f m,
  match m with Ok a => f a | Raise e => Raise e end.

#[global] Instance result_fmap : FMap result := λ A B f m,
  match m with Ok a => Ok (f a) | Raise e => Raise e end.

#[global] Instance value_eq_dec : EqDecision value.
Proof. solve_decision. Defined.

#[global] Instance value_countable : Countable value.
Proof.
  refine (inj_countable'
    (λ v, match v with
          | NaN => inl ()
          | Num z => inr (inl z)
          | Str s => inr (inr (inl s))
          | Timestamp t => inr (inr (inr t))
          end)
    (λ x, match x with
          | inl _ => NaN
          | inr (inl z) => Num z
          | inr (inr (inl s)) => Str s
          | inr (inr (inr t)) => Timestamp t
          end) _).
  by intros [].
Defined.

#[global] Instance exn_eq_dec : EqDecision exn.
Proof. solve_decision. Defined.

(** The cells a column of one dtype holds: a number or NaN in a numeric
    column, a timestamp or NaT in a datetime64 column; [text] is a string
    that is there. *)
Definition numeric (v : value) : Prop :=
  match v with
  | NaN | Num _ => True
  | Str _ | Timestamp _ => False
  end.

Definition datetime64 (v : value) : Prop :=
  match v with
  | NaN | Timestamp _ => True
  | Num _ | Str _ => False
  end.

Definition text (v : value) : Prop :=
  match v with Str _ => True | _ => False end.

#[global] Instance numeric_dec v : Decision (numeric v).
Proof. destruct v; apply _. Defined.

#[global] Instance datetime64_dec v : Decision (datetime64 v).
Proof. destruct v; apply _. Defined.

#[global] Instance text_dec v : Decision (text v).
Proof. destruct v; apply _. Defined.

Definition number_of (v : value) : option Z :=
  match v with Num z => Some z | _ => None end.

Definition timestamp_of (v : value) : option Z :=
  match v with Timestamp t => Some t | _ => None end.

Definition text_of (v : value) : option string :=
  match v with Str s => Some s | _ => None end.

(** ** Data frames and series *)

Record Row := mkRow { label : nat; cells : gmap string value }.

Record DataFrame := mkDataFrame { columns : list string; rows : list Row }.

(** A series: the cells of one column, each with its index label. *)
Definition Series (A : Type) : Type := list (nat * A).

#[global] Instance Row_eq_dec : EqDecision Row.
Proof. solve_decision. Defined.

#[global] Instance DataFrame_eq_dec : EqDecision DataFrame.
Proof. solve_decision. Defined.

(** The cell of row [r] in column [k]; a row holds NaN where it has no entry. *)
Definition cell (r : Row) (k : string) : value := default NaN (cells r !! k).

Definition index (df : DataFrame) : list nat := label <$> rows df.

Definition series_index {A} (s : Series A) : list nat := fst <$> s.

(** An elementwise operation on a series keeps the index; it fails as soon
    as it fails on one cell. *)
Definition series_map {A B} (f : A → B) (s : Series A) : Series B :=
  (λ p, (p.1, f p.2)) <$> s.

Definition series_mapM {A B} (f : A → result B) (s : Series A) : result (Series B) :=
  mapM (λ p, b ← f p.2; mret (p.1, b)) s.

(** [df[k]]: KeyError when [k] is no column. *)
Definition getitem (df : DataFrame) (k : string) : result (Series value) :=
  if decide (k ∈ columns df)
  then Ok ((λ r, (label r, cell r k)) <$> rows df)
  else Raise (KeyError k).

(** The entry of a series at a label. *)
Fixpoint at_label {A} (s : Series A) (l : nat) : option A :=
  match s with
  | [] => None
  | (l', v) :: s' => if decide (l' = l) then Some v else at_label s' l
  end.

(** The values a series assigns to the rows of a frame.  pandas takes them
    by position when the two indexes are equal; otherwise it reindexes by
    label, with NaN for a label the series does not have. *)
Definition align (idx : list nat) (s : Series value) : list value :=
  if decide (series_index s = idx) then s.*2
  else (λ l, default NaN (at_label s l)) <$> idx.

Definition set_cell (k : string) (r : Row) (v : value) : Row :=
  mkRow (label r) (<[k := v]> (cells r)).

Definition add_column (cols : list string) (k : string) : list string :=
  if decide (k ∈ cols) then cols else cols ++ [k].

(** [df[k] = s] for a series [s]: an existing column is overwritten, a new
    one is appended. *)
Definition setitem (df : DataFrame) (k : string) (s : Series value) : DataFrame :=
  mkDataFrame (add_column (columns df) k)
              (zip_with (set_cell k) (rows df) (align (index df) s)).

(** [df[k] = v] for a scalar [v], broadcast to every row. *)
Definition setitem_scalar (df : DataFrame) (k : string) (v : value) : DataFrame :=
  mkDataFrame (add_column (columns df) k) ((λ r, set_cell k r v) <$> rows df).

(** ** Reading the source file *)

(** A delimited text file after parsing and type inference: the header and
    one record per line.  The numbers of a column that has missing cells are
    float64 values, the parser having rounded them. *)
Record CsvFile := mkCsvFile { header : list string; records : list (gmap string value) }.

(** What [pd.read_csv] makes of a file that is there: the table it parses
    from it, or the exception that opening, decoding or tokenizing the file
    raises (OSError, UnicodeDecodeError, ParserError, EmptyDataError).  The
    parser of pandas is not part of the repository. *)
Inductive File :=
  | Parsed (f : CsvFile)
  | Unreadable (e : exn).

(** The frame of a file: the columns of the header, the lines as rows
    with the index 0, 1, 2, ... *)
Definition frame_of (f : CsvFile) : DataFrame :=
  mkDataFrame (header f) (imap mkRow (records f)).

(** [pd.read_csv(path)]: a file that is not there is a FileNotFoundError;
    a file in which the parser finds no column (an empty file) is an
    EmptyDataError, so that a parsed table has at least one column. *)
Definition read_csv (fs : gmap string File) (path : string) : result DataFrame :=
  match fs !! path with
  | None => Raise (FileNotFoundError path)
  | Some (Unreadable e) => Raise e
  | Some (Parsed f) =>
      match header f with
      | [] => Raise EmptyDataError
      | _ :: _ => Ok (frame_of f)
      end
  end.

Definition data_path : string := "data/covid_cleaned_features.csv".

(** ** pd.to_datetime *)

Section Datetime.

(** The date parser of pandas, which the repository does not contain:
    [None] when the text is no date. *)
Variable parse_datetime : string → option Z.

(** One cell under [pd.to_datetime] with its default [errors='raise']:
    missing stays missing (NaT), an integer is an offset from the epoch,
    text is parsed. *)
Definition to_datetime_scalar (v : value) : result value :=
  match v with
  | NaN => Ok NaN
  | Num z => Ok (Timestamp z)
  | Str s =>
      match parse_datetime s with
      | Some t => Ok (Timestamp t)
      | None => Raise ValueError
      end
  | Timestamp t => Ok (Timestamp t)
  end.

Definition to_datetime (s : Series value) : result (Series value) :=
  series_mapM to_datetime_scalar s.

End Datetime.

(** ** df.sort_values(by) *)

(** The order pandas sorts one key by: numbers before text, missing values
    last ([na_position='last']); text by code points. *)
Definition value_compare (a b : value) : comparison :=
  match a, b with
  | NaN, NaN => Eq
  | NaN, _ => Gt
  | _, NaN => Lt
  | Num x, Num y => x ?= y
  | Num _, _ => Lt
  | _, Num _ => Gt
  | Timestamp x, Timestamp y => x ?= y
  | Timestamp _, _ => Lt
  | _, Timestamp _ => Gt
  | Str x, Str y => String.compare x y
  end.

(** Several keys compare lexicographically, the first key first. *)
Fixpoint lex_compare (by_ : list string) (r1 r2 : Row) : comparison :=
  match by_ with
  | [] => Eq
  | k :: by' =>
      match value_compare (cell r1 k) (cell r2 k) with
      | Eq => lex_compare by' r1 r2
      | c => c
      end
  end.

Definition row_leb (by_ : list string) (r1 r2 : Row) : bool :=
  match lex_compare by_ r1 r2 with Gt => false | _ => true end.

(** A sort on several keys is stable in pandas: rows with equal keys keep
    their order.  Insertion from the right, each row going in front of the
    rows it does not exceed, is such a sort. *)
Fixpoint insert_sorted {A} (leb : A → A → bool) (x : A) (l : list A) : list A :=
  match l with
  | [] => [x]
  | y :: l' => if leb x y then x :: l else y :: insert_sorted leb x l'
  end.

Definition stable_sort {A} (leb : A → A → bool) (l : list A) : list A :=
  foldr (insert_sorted leb) [] l.

(** The first key that is no column, if any. *)
Definition missing_key (df : DataFrame) (by_ : list string) : option string :=
  snd <$> list_find (λ k, k ∉ columns df) by_.

(** A new frame with the rows reordered; every row keeps its label. *)
Definition sort_values (df : DataFrame) (by_ : list string) : result DataFrame :=
  match missing_key df by_ with
  | Some k => Raise (KeyError k)
  | None => Ok (mkDataFrame (columns df) (stable_sort (row_leb by_) (rows df)))
  end.

(** ** float64 arithmetic on integers *)

(** The integer nearest to [p / q], for [0 ≤ p] and [0 < q]; of two that
    are equally near, the even one. *)
Definition round_half_even (p q : Z) : Z :=
  let d := p `div` q in
  let r := p `mod` q in
  if 2 * r <? q then d
  else if q <? 2 * r then d + 1
  else if Z.even d then d else d + 1.

(** The float64 an integer converts to, and the float64 result of an
    operation whose exact result is this integer: an integer of at most 53
    bits is a float64; a longer one keeps 53 bits, rounded to nearest, ties
    to even.  (The integers of int64 are far from the overflow of
    float64.) *)
Definition float64 (n : Z) : Z :=
  let a := Z.abs n in
  let e := Z.log2 a - 52 in
  if e <=? 0 then n else Z.sgn n * (round_half_even a (2 ^ e) * 2 ^ e).

(** A float64 that need not be an integer: [mant * 2 ^ expo]. *)
Record binary64 := mkBinary64 { mant : Z; expo : Z }.

Definition scaled (x j : Z) : Z := if 0 <=? j then x * 2 ^ j else x.

(** The float64 quotient [s / n] of an integer by a positive integer: the
    quotient is scaled by the power of two that gives it 53 bits, and
    rounded there. *)
Definition float64_div (s n : Z) : binary64 :=
  let a := Z.abs s in
  if a =? 0 then mkBinary64 0 0
  else
    let j0 := 52 - (Z.log2 a - Z.log2 n) in
    let j := if scaled a j0 <? scaled n (- j0) * 2 ^ 52 then j0 + 1 else j0 in
    mkBinary64 (Z.sgn s * round_half_even (scaled a j) (scaled n (- j))) (- j).

(** [int(x)] on a float64: truncation towards zero. *)
Definition float64_trunc (x : binary64) : Z :=
  if 0 <=? expo x then mant x * 2 ^ expo x else Z.quot (mant x) (2 ^ (- expo x)).

(** The float64 sum of integer cells, each converted and added in turn.
    numpy adds in an order of its own (in blocks, pairwise); a sum whose
    partial sums are all float64 integers is the same in every order. *)
Definition float64_sum (l : list Z) : Z :=
  foldl (λ acc x, float64 (acc + float64 x)) 0 l.

(** ** df.groupby(key)[col].diff() and fillna *)

(** A numeric cell as a number; NaN is a legal float.  Text has no
    difference. *)
Definition as_number (v : value) : result (option Z) :=
  match v with
  | NaN => Ok None
  | Num z => Ok (Some z)
  | Str _ | Timestamp _ => Raise TypeError
  end.

(** The difference of a cell to its predecessor in the group: NaN when
    there is no predecessor or when one of the two is missing.  pandas
    subtracts the shifted column, which is float64 to hold NaN, from the
    column: both cells are converted and the subtraction is float64. *)
Definition diff_cell (prev : option (option Z)) (x : option Z) : value :=
  match prev, x with
  | Some (Some p), Some c => Num (float64 (float64 c - float64 p))
  | _, _ => NaN
  end.

(** One pass over the rows in frame order; [last] holds, per group key, the
    cell of the latest row of the group met so far.  groupby drops rows whose
    key is missing ([dropna=True]): they are in no group and get NaN. *)
Fixpoint grouped_diff (last : gmap value (option Z))
    (l : list (nat * value * option Z)) : Series value :=
  match l with
  | [] => []
  | (lbl, NaN, _) :: l' => (lbl, NaN) :: grouped_diff last l'
  | (lbl, k, x) :: l' =>
      (lbl, diff_cell (last !! k) x) :: grouped_diff (<[k := x]> last) l'
  end.

Definition groupby_diff (df : DataFrame) (key col : string) : result (Series value) :=
  if decide (key ∈ columns df) then
    if decide (col ∈ columns df) then
      xs ← mapM (λ r, x ← as_number (cell r col); mret (label r, cell r key, x)) (rows df);
      mret (grouped_diff ∅ xs)
    else Raise (KeyError col)
  else Raise (KeyError key).

(** [s.fillna(v)] *)
Definition fill (v x : value) : value :=
  match x with NaN => v | _ => x end.

Definition fillna (s : Series value) (v : value) : Series value :=
  series_map (fill v) s.

(** ** load_data (app.py, lines 23-36) *)

Section Loader.

Variable parse_datetime : string → option Z.

(** Lines 30-34: the New_Cases column computed from the frame. *)
Definition compute_new_cases (df : DataFrame) : result DataFrame :=
  if decide ("Confirmed" ∈ columns df) then
    df ← sort_values df ["Country"; "Date"];
    d ← groupby_diff df "Country" "Confirmed";
    mret (setitem df "New_Cases" (fillna d (Num 0)))
  else
    mret (setitem_scalar df "New_Cases" (Num 0)).

(** Lines 29-34: the computation runs only when the column is not there. *)
Definition ensure_new_cases (df : DataFrame) : result DataFrame :=
  if decide ("New_Cases" ∉ columns df) then compute_new_cases df else mret df.

Definition load_data (fs : gmap string File) : result DataFrame :=
  df ← read_csv fs data_path;
  d ← getitem df "Date";
  d ← to_datetime parse_datetime d;
  ensure_new_cases (setitem df "Date" d).

End Loader.

(** ** The filter (app.py, lines 73-77) *)

(** Elementwise [==]: a missing cell equals nothing. *)
Definition value_eqb (a b : value) : bool :=
  match a, b with
  | NaN, _ | _, NaN => false
  | _, _ => bool_decide (a = b)
  end.

(** Elementwise [>=] and [<=] of a datetime64 cell with a timestamp: NaT
    compares false; a cell outside datetime64 cannot be compared. *)
Definition ge_timestamp (v : value) (t : Z) : result bool :=
  match v with
  | Timestamp d => Ok (bool_decide (t ≤ d))
  | NaN => Ok false
  | Num _ | Str _ => Raise TypeError
  end.

Definition le_timestamp (v : value) (t : Z) : result bool :=
  match v with
  | Timestamp d => Ok (bool_decide (d ≤ t))
  | NaN => Ok false
  | Num _ | Str _ => Raise TypeError
  end.

(** Elementwise [&] of two boolean series over the same index. *)
Definition series_and (a b : Series bool) : Series bool :=
  zip_with (λ p q, (p.1, p.2 && q.2)) a b.

(** [seq[i]] on a Python sequence. *)
Definition py_index {A} (l : list A) (i : nat) : result A :=
  match l !! i with
  | Some x => Ok x
  | None => Raise IndexError
  end.

(** A boolean indexer is taken by position when it has the index of the
    frame; otherwise it is reindexed, and a label it lacks is an error. *)
Definition align_mask (idx : list nat) (mask : Series bool) : result (list bool) :=
  if decide (series_index mask = idx) then Ok (mask.*2)
  else mapM (λ l, match at_label mask l with
                  | Some b => Ok b
                  | None => Raise IndexingError
                  end) idx.

(** [df[mask]] for a boolean series: a new frame with the rows whose mask
    is true, in frame order. *)
Definition getitem_mask (df : DataFrame) (mask : Series bool) : result DataFrame :=
  bs ← align_mask (index df) mask;
  mret (mkDataFrame (columns df) ((filter (λ p, p.2 = true) (zip (rows df) bs)).*1)).

(** The right-hand side of lines 73-77, its operands evaluated from left to
    right.  [date_range] is what the date picker returned, already as
    timestamps ([pd.to_datetime] of a date is its midnight). *)
Definition view (df_all : DataFrame) (country : value) (date_range : list Z)
    : result DataFrame :=
  c ← getitem df_all "Country";
  let m1 := series_map (λ v, value_eqb v country) c in
  d ← getitem df_all "Date";
  lower ← py_index date_range 0;
  m2 ← series_mapM (λ v, ge_timestamp v lower) d;
  d ← getitem df_all "Date";
  upper ← py_index date_range 1;
  m3 ← series_mapM (λ v, le_timestamp v upper) d;
  getitem_mask df_all (series_and (series_and m1 m2) m3).

(** ** The script's objects and names *)

(** Python names are bound to objects, and two names may share one object.
    A data frame, a column taken from it and a boolean mask are objects of
    the store; an assignment to a column changes the frame object in place,
    for every name that holds it.  [globals] is the module namespace. *)
Inductive object :=
  | Frame (df : DataFrame)
  | Column (s : Series value)
  | Mask (s : Series bool).

Record Session := mkSession {
  objects : gmap nat object;
  globals : gmap string nat
}.

(** A piece of the script: it runs on a session and leaves a session, with
    the value it computed or the exception it raised. *)
Definition Script (A : Type) : Type := Session → result A * Session.

#[global] Instance script_ret : MRet Script := λ A a σ, (Ok a, σ).
#[global] Instance script_bind : MBind Script := λ A B k m σ,
  match m σ with
  | (Ok a, σ') => k a σ'
  | (Raise e, σ') => (Raise e, σ')
  end.

(** A computation that touches no object. *)
Definition lift {A} (r : result A) : Script A := λ σ, (r, σ).

(** A new object, at a reference no object has. *)
Definition new (o : object) : Script nat := λ σ,
  let l := fresh (dom (objects σ)) in
  (Ok l, mkSession (<[l := o]> (objects σ)) (globals σ)).

(** The object at a reference is replaced: a change in place. *)
Definition update (l : nat) (o : object) : Script () := λ σ,
  (Ok (), mkSession (<[l := o]> (objects σ)) (globals σ)).

(** Reading a global name, and [name = <object>]. *)
Definition load_name (x : string) : Script nat := λ σ,
  (match globals σ !! x with Some l => Ok l | None => Raise (NameError x) end, σ).

Definition store_name (x : string) (l : nat) : Script () := λ σ,
  (Ok (), mkSession (objects σ) (<[x := l]> (globals σ))).

Definition frame_at (l : nat) : Script DataFrame := λ σ,
  (match objects σ !! l with Some (Frame df) => Ok df | _ => Raise TypeError end, σ).

Definition column_at (l : nat) : Script (Series value) := λ σ,
  (match objects σ !! l with Some (Column s) => Ok s | _ => Raise TypeError end, σ).

Definition mask_at (l : nat) : Script (Series bool) := λ σ,
  (match objects σ !! l with Some (Mask s) => Ok s | _ => Raise TypeError end, σ).

(** The operations of pandas the script uses, on references.  All but the
    two assignments return a new object. *)
Definition frame_getitem (l : nat) (k : string) : Script nat :=
  df ← frame_at l; s ← lift (getitem df k); new (Column s).

Definition column_eq (l : nat) (v : value) : Script nat :=
  s ← column_at l; new (Mask (series_map (λ x, value_eqb x v) s)).

Definition column_ge (l : nat) (t : Z) : Script nat :=
  s ← column_at l; m ← lift (series_mapM (λ v, ge_timestamp v t) s); new (Mask m).

Definition column_le (l : nat) (t : Z) : Script nat :=
  s ← column_at l; m ← lift (series_mapM (λ v, le_timestamp v t) s); new (Mask m).

Definition mask_and (a b : nat) : Script nat :=
  x ← mask_at a; y ← mask_at b; new (Mask (series_and x y)).

Definition frame_getitem_mask (l m : nat) : Script nat :=
  df ← frame_at l; b ← mask_at m; v ← lift (getitem_mask df b); new (Frame v).

Definition frame_sort_values (l : nat) (by_ : list string) : Script nat :=
  df ← frame_at l; s ← lift (sort_values df by_); new (Frame s).

Definition frame_groupby_diff (l : nat) (key col : string) : Script nat :=
  df ← frame_at l; d ← lift (groupby_diff df key col); new (Column d).

Definition column_fillna (l : nat) (v : value) : Script nat :=
  s ← column_at l; new (Column (fillna s v)).

Definition frame_setitem (l : nat) (k : string) (c : nat) : Script () :=
  df ← frame_at l; s ← column_at c; update l (Frame (setitem df k s)).

Definition frame_setitem_scalar (l : nat) (k : string) (v : value) : Script () :=
  df ← frame_at l; update l (Frame (setitem_scalar df k v)).

Section Scripts.

Variable parse_datetime : string → option Z.

Definition column_to_datetime (l : nat) : Script nat :=
  s ← column_at l; d ← lift (to_datetime parse_datetime s); new (Column d).

(** Lines 25-36 statement by statement, [df] being a reference: lines 26,
    32 and 34 assign into the frame that [df] holds, line 31 makes [df]
    hold a new frame. *)
Definition load_data_script (fs : gmap string File) : Script nat :=
  t ← lift (read_csv fs data_path);
  df ← new (Frame t);
  d ← frame_getitem df "Date";
  d ← column_to_datetime d;
  frame_setitem df "Date" d;;
  t ← frame_at df;
  if decide ("New_Cases" ∉ columns t) then
    if decide ("Confirmed" ∈ columns t) then
      df ← frame_sort_values df ["Country"; "Date"];
      g ← frame_groupby_diff df "Country" "Confirmed";
      g ← column_fillna g (Num 0);
      frame_setitem df "New_Cases" g;;
      mret df
    else
      frame_setitem_scalar df "New_Cases" (Num 0);;
      mret df
  else mret df.

(** Line 38: [df_all = load_data()] *)
Definition run_load (fs : gmap string File) : Script () :=
  df ← load_data_script fs;
  store_name "df_all" df.

End Scripts.

(** Lines 73-77: [df = df_all[(...) & (...) & (...)]], the operands
    evaluated from left to right and [&] associating to the left. *)
Definition run_filter (country : value) (date_range : list Z) : Script () :=
  a ← load_name "df_all";
  b ← load_name "df_all";
  c ← frame_getitem b "Country";
  m1 ← column_eq c country;
  b ← load_name "df_all";
  d ← frame_getitem b "Date";
  lower ← lift (py_index date_range 0);
  m2 ← column_ge d lower;
  m12 ← mask_and m1 m2;
  b ← load_name "df_all";
  d ← frame_getitem b "Date";
  upper ← lift (py_index date_range 1);
  m3 ← column_le d upper;
  m ← mask_and m12 m3;
  v ← frame_getitem_mask a m;
  store_name "df" v.

(** The data frame a name is bound to. *)
Definition deref (σ : Session) (x : string) : result DataFrame :=
  match globals σ !! x with
  | Some l =>
      match objects σ !! l with
      | Some (Frame df) => Ok df
      | _ => Raise (NameError x)
      end
  | None => Raise (NameError x)
  end.

(** ** The headline metrics (app.py, lines 96-99) *)

(** The numbers of a numeric column that are present; a column with a cell
    that is no number has no sum. *)
Definition present (s : Series value) : result (list Z) :=
  omap id <$> mapM (λ p, as_number p.2) s.

Definition list_max (l : list Z) : option Z :=
  match l with
  | [] => None
  | x :: l' => Some (foldr Z.max x l')
  end.

(** The greatest of a list of strings, by code points. *)
Definition text_max (a b : string) : string :=
  match String.compare a b with Lt => b | _ => a end.

Definition greatest_text (l : list string) : option string :=
  match l with
  | [] => None
  | x :: l' => Some (foldr text_max x l')
  end.

(** [s.max()] goes by the dtype of the column.  In a numeric and in a
    datetime64 column missing cells are skipped, and the result is NaN (NaT)
    when nothing is left.  An object column that holds text only has its
    greatest string; where text stands beside a missing cell or a number
    the comparison of the two raises TypeError. *)
Definition series_max (s : Series value) : result value :=
  let vs := s.*2 in
  if decide (Forall numeric vs) then
    Ok (from_option Num NaN (list_max (omap number_of vs)))
  else if decide (Forall datetime64 vs) then
    Ok (from_option Timestamp NaN (list_max (omap timestamp_of vs)))
  else if decide (Forall text vs) then
    Ok (from_option Str NaN (greatest_text (omap text_of vs)))
  else Raise TypeError.

(** [s.mean()] of a numeric column: the float64 sum of the cells that are
    present, divided as float64 by their count (the count of the rows of a
    table in memory is itself a float64); NaN when no cell is present.
    Text has no mean. *)
Definition series_mean (s : Series value) : result (option binary64) :=
  xs ← present s;
  mret (match xs with
        | [] => None
        | _ => Some (float64_div (float64_sum xs) (Z.of_nat (length xs)))
        end).

(** [int(x)] on the float that [mean] returns; NaN has no integer. *)
Definition py_int_float (x : option binary64) : result Z :=
  match x with
  | Some x => Ok (float64_trunc x)
  | None => Raise ValueError
  end.

(** The maximum of a datetime64 column: NaT when no cell is present. *)
Definition timestamps (s : Series value) : result (list Z) :=
  omap id <$> mapM (λ p, match p.2 with
                         | Timestamp t => Ok (Some t)
                         | NaN => Ok None
                         | Num _ | Str _ => Raise TypeError
                         end) s.

Section Metrics.

(** [int] of Python on a string, which the repository does not contain:
    [None] when the string is no integer literal. *)
Variable int_of_str : string → option Z.

(** [Timestamp.strftime("%Y-%m-%d")], which the repository does not contain. *)
Variable strftime : Z → string.

(** [int(x)] on what [max] returns: a number is truncated (an integer is
    itself), NaN has no integer, a string is parsed. *)
Definition py_int (v : value) : result Z :=
  match v with
  | Num z => Ok z
  | NaN => Raise ValueError
  | Str s =>
      match int_of_str s with
      | Some z => Ok z
      | None => Raise ValueError
      end
  | Timestamp _ => Raise TypeError
  end.

Record Summary := mkSummary {
  total_cases : Z;
  max_daily : Z;
  avg_daily : Z;
  last_date : string
}.

Definition kpi_metrics (df : DataFrame) : result Summary :=
  total ← (if decide ("Confirmed" ∈ columns df)
           then c ← getitem df "Confirmed"; m ← series_max c; py_int m
           else mret 0);
  n ← getitem df "New_Cases";
  m ← series_max n;
  maxd ← py_int m;
  n ← getitem df "New_Cases";
  q ← series_mean n;
  avg ← py_int_float q;
  d ← getitem df "Date";
  ts ← timestamps d;
  last ← match list_max ts with
         | Some t => Ok (strftime t)
         | None => Raise ValueError
         end;
  mret (mkSummary total maxd avg last).

End Metrics.

(** ** The sidebar (app.py, lines 45-48 and 65-68) *)

(** [s.unique()]: the distinct cells in order of first appearance, found
    with a hash table of the cells met so far; the missing cells count as
    one value. *)
Fixpoint unique_from (seen : gset value) (l : list value) : list value :=
  match l with
  | [] => []
  | x :: l' =>
      if decide (x ∈ seen) then unique_from seen l'
      else x :: unique_from ({[x]} ∪ seen) l'
  end.

Definition unique (l : list value) : list value := unique_from ∅ l.

(** [a < b] in Python on the cells of a column: text against text by code
    points, number against number, NaN (a float) false against every
    number; text against a number or NaN is a TypeError.  The Country
    column holds no timestamps; they are ordered among themselves, and
    false against NaT. *)
Definition py_lt (a b : value) : result bool :=
  match a, b with
  | Str x, Str y => Ok (String.ltb x y)
  | Num x, Num y => Ok (bool_decide (x < y))
  | Timestamp x, Timestamp y => Ok (bool_decide (x < y))
  | NaN, (NaN | Num _) | Num _, NaN => Ok false
  | NaN, Timestamp _ | Timestamp _, NaN => Ok false
  | _, _ => Raise TypeError
  end.

(** [sorted(l)]: ascending and stable, with [<] as the only comparison, and
    raising what a comparison raises.  On distinct values that [<] orders
    totally every such sort returns the one ascending list, which insertion
    computes; where NaN is among numbers the order Python returns depends on
    its merge strategy, and nothing below is stated about it. *)
Fixpoint py_insert (x : value) (l : list value) : result (list value) :=
  match l with
  | [] => Ok [x]
  | y :: l' =>
      b ← py_lt y x;
      if b : bool then l'' ← py_insert x l'; mret (y :: l'') else mret (x :: l)
  end.

Fixpoint py_sorted (l : list value) : result (list value) :=
  match l with
  | [] => Ok []
  | x :: l' => s ← py_sorted l'; py_insert x s
  end.

(** Line 47: [sorted(df_all["Country"].unique())] *)
Definition country_options (df_all : DataFrame) : result (list value) :=
  c ← getitem df_all "Country";
  py_sorted (unique (c.*2)).

(** [st.sidebar.selectbox(label, options)]: the option at the position the
    user picked (position 0 before any pick), None when there is no option.
    None is rendered as [NaN]: like a missing cell it equals no cell. *)
Definition selectbox (options : list value) (i : nat) : value :=
  default NaN (options !! i).

(** Lines 65-68: the two dates the date picker starts from, the least and
    the greatest Date of the table (NaT when no row is dated). *)
Definition list_min (l : list Z) : option Z :=
  match l with
  | [] => None
  | x :: l' => Some (foldr Z.min x l')
  end.

Definition date_span (df_all : DataFrame) : result (list value) :=
  d ← getitem df_all "Date";
  lo ← list_min <$> timestamps d;
  d ← getitem df_all "Date";
  hi ← list_max <$> timestamps d;
  mret [from_option Timestamp NaN lo; from_option Timestamp NaN hi].

(** ** New_Cases as the specification words it *)

(** The New_Cases of the rows of one country, given their Confirmed cells in
    date order: zero for the first row, [Confirmed[t] - Confirmed[t-1]] for
    a row after it.  Where one of the two cells is missing there is no
    difference, and the loader's [fillna(0)] puts zero. *)
Definition delta (prev cur : value) : value :=
  match prev, cur with
  | Num p, Num c => Num (c - p)
  | _, _ => Num 0
  end.

Fixpoint deltas (prev : value) (l : list value) : list value :=
  match l with
  | [] => []
  | x :: l' => delta prev x :: deltas x l'
  end.

Definition new_cases_spec (confirmed : list value) : list value :=
  match confirmed with
  | [] => []
  | x :: l => Num 0 :: deltas x l
  end.

(** Ascending by date, undated rows last. *)
Definition date_le (r1 r2 : Row) : Prop :=
  value_compare (cell r1 "Date") (cell r2 "Date") ≠ Gt.

(** Row [r] of a loaded table is line [label r] of the file: the cells of
    the file's columns, the Date converted. *)
Definition row_of_file (parse_datetime : string → option Z) (f : CsvFile) (r : Row) : Prop :=
  ∃ rec, records f !! label r = Some rec ∧
         to_datetime_scalar parse_datetime (default NaN (rec !! "Date")) = Ok (cell r "Date") ∧
         ∀ k, k ≠ "Date" → k ≠ "New_Cases" → cell r k = default NaN (rec !! k).

(** ** Predicates of the statements *)

(** The Observation Table of the specification: the three columns the
    dashboard reads are there and Date is a datetime64 column. *)
Definition ObservationTable (df : DataFrame) : Prop :=
  "Country" ∈ columns df ∧ "Date" ∈ columns df ∧ "New_Cases" ∈ columns df ∧
  Forall (λ r, datetime64 (cell r "Date")) (rows df).

#[global] Instance ObservationTable_dec df : Decision (ObservationTable df).
Proof. unfold ObservationTable. apply _. Defined.

(** The row is dated, and its date lies in [[lower, upper]]. *)
Definition dated_within (lower upper : Z) (r : Row) : Prop :=
  match cell r "Date" with
  | Timestamp t => lower ≤ t ≤ upper
  | _ => False
  end.

#[global] Instance dated_within_dec lower upper r : Decision (dated_within lower upper r).
Proof. unfold dated_within. destruct (cell r "Date"); apply _. Defined.

(** The three predicates of the filter. *)
Definition selected (country : value) (lower upper : Z) (r : Row) : Prop :=
  value_eqb (cell r "Country") country = true ∧ dated_within lower upper r.

#[global] Instance selected_dec country lower upper r :
  Decision (selected country lower upper r).
Proof. unfold selected. apply _. Defined.

(** The two date comparisons on a datetime64 cell, where they cannot fail. *)
Definition ge_b (t : Z) (v : value) : bool :=
  match v with Timestamp d => bool_decide (t ≤ d) | _ => false end.

Definition le_b (t : Z) (v : value) : bool :=
  match v with Timestamp d => bool_decide (d ≤ t) | _ => false end.

Definition keep (country : value) (lower upper : Z) (r : Row) : bool :=
  value_eqb (cell r "Country") country && ge_b lower (cell r "Date")
    && le_b upper (cell r "Date").

(** A count that float64 holds exactly, as it holds the difference of two
    such counts: a number from 0 to 2^53.  A missing cell is no count and
    meets the condition. *)
Definition exact_count (v : value) : Prop :=
  match v with
  | Num z => 0 ≤ z ≤ 2 ^ 53
  | _ => True
  end.

#[global] Instance exact_count_dec v : Decision (exact_count v).
Proof. destruct v; apply _. Defined.

(** ** Auxiliary notions of the proofs *)

(** [σ'] binds every name as [σ] does and holds the objects of [σ] as they
    were; it may hold more objects. *)
Definition extends (σ σ' : Session) : Prop :=
  globals σ' = globals σ ∧
  ∀ l o, objects σ !! l = Some o → objects σ' !! l = Some o.

(** A piece of script that at most creates objects; one that returns a
    reference to an object it created; one that, besides, binds the name
    [x] to an object it created. *)
Definition allocates {A} (m : Script A) : Prop :=
  ∀ σ, extends σ (m σ).2.

Definition creates (m : Script nat) : Prop :=
  ∀ σ l, (m σ).1 = Ok l → objects σ !! l = None.

Definition binds_created (x : string) (m : Script ()) : Prop :=
  ∀ σ,
    (∀ y, y ≠ x → globals (m σ).2 !! y = globals σ !! y) ∧
    (∀ l o, objects σ !! l = Some o → objects (m σ).2 !! l = Some o) ∧
    ((m σ).1 = Ok () → ∃ l, globals (m σ).2 !! x = Some l ∧ objects σ !! l = None).

(** The differences along one group, [prev] being the cell before it. *)
Fixpoint diffs (prev : option (option Z)) (l : list (option Z)) : list value :=
  match l with
  | [] => []
  | x :: l' => diff_cell prev x :: diffs (Some x) l'
  end.

(** What [groupby_diff] hands to [grouped_diff]. *)
Definition keyed (key col : string) (l : list Row) : list (nat * value * option Z) :=
  (λ r, (label r, cell r key, number_of (cell r col))) <$> l.

(** The rows as line 31 orders them, and the column line 32 computes. *)
Definition sorted_rows (df : DataFrame) : list Row :=
  stable_sort (row_leb ["Country"; "Date"]) (rows df).

Definition new_cases_column (l : list Row) : list value :=
  (fillna (grouped_diff ∅ (keyed "Country" "Confirmed" l)) (Num 0)).*2.

(** Every Date cell of the file converts under [pd.to_datetime]. *)
Definition dates_convert (parse_datetime : string → option Z) (f : CsvFile) : Prop :=
  Forall (λ rec, ∃ w, to_datetime_scalar parse_datetime (default NaN (rec !! "Date")) = Ok w)
         (records f).

(** ** Sample inputs *)

(** A date parser to evaluate the loader with: it reads [YYYY-MM-DD] to the
    number of days since 1970-01-01. *)
Definition digit (a : ascii) : option Z :=
  let n := Z.of_N (Ascii.N_of_ascii a) in
  if bool_decide (48 ≤ n ≤ 57) then Some (n - 48) else None.

Fixpoint digits (acc : Z) (l : list ascii) : option Z :=
  match l with
  | [] => Some acc
  | a :: l' => d ← digit a; digits (10 * acc + d) l'
  end.

Definition days_from_civil (y m d : Z) : Z :=
  let y := if bool_decide (m ≤ 2) then y - 1 else y in
  let era := y `div` 400 in
  let yoe := y - era * 400 in
  let doy := (153 * (if bool_decide (2 < m) then m - 3 else m + 9) + 2) `div` 5 + d - 1 in
  let doe := yoe * 365 + yoe `div` 4 - yoe `div` 100 + doy in
  era * 146097 + doe - 719468.

Definition iso_date (s : string) : option Z :=
  match String.list_ascii_of_string s with
  | [y1; y2; y3; y4; "-"%char; m1; m2; "-"%char; d1; d2] =>
      y ← digits 0 [y1; y2; y3; y4];
      m ← digits 0 [m1; m2];
      d ← digits 0 [d1; d2];
      if bool_decide (1 ≤ m ≤ 12 ∧ 1 ≤ d ≤ 31) then Some (days_from_civil y m d) else None
  | _ => None
  end.

(** An integer parser to evaluate the metrics with: it reads a row of
    decimal digits. *)
Definition decimal (s : string) : option Z :=
  match String.list_ascii_of_string s with
  | [] => None
  | l => digits 0 l
  end.

Definition record (l : list (string * value)) : gmap string value := list_to_map l.

Definition disk (f : CsvFile) : gmap string File := {[ data_path := Parsed f ]}.

(** One country, cumulative counts 10, 15, 15, 22 on four consecutive days. *)
Definition four_days : CsvFile :=
  mkCsvFile ["Country"; "Date"; "Confirmed"]
    [ record [("Country", Str "Peru"); ("Date", Str "2020-03-01"); ("Confirmed", Num 10)];
      record [("Country", Str "Peru"); ("Date", Str "2020-03-02"); ("Confirmed", Num 15)];
      record [("Country", Str "Peru"); ("Date", Str "2020-03-03"); ("Confirmed", Num 15)];
      record [("Country", Str "Peru"); ("Date", Str "2020-03-04"); ("Confirmed", Num 22)] ].

(** Two countries, the lines of the file in no particular order. *)
Definition two_countries : CsvFile :=
  mkCsvFile ["Country"; "Date"; "Confirmed"; "Deaths"]
    [ record [("Country", Str "Peru"); ("Date", Str "2020-03-03"); ("Confirmed", Num 9); ("Deaths", Num 1)];
      record [("Country", Str "Chile"); ("Date", Str "2020-03-02"); ("Confirmed", Num 4); ("Deaths", Num 0)];
      record [("Country", Str "Peru"); ("Date", Str "2020-03-01"); ("Confirmed", Num 2); ("Deaths", Num 0)];
      record [("Country", Str "Chile"); ("Date", Str "2020-03-01"); ("Confirmed", Num 1); ("Deaths", Num 0)];
      record [("Country", Str "Peru"); ("Date", Str "2020-03-02"); ("Confirmed", Num 5); ("Deaths", Num 0)] ].

(** The table [load_data] makes of [two_countries] (see
    [load_two_countries]). *)
Definition two_countries_table : DataFrame :=
  mkDataFrame ["Country"; "Date"; "Confirmed"; "Deaths"; "New_Cases"]
    [ mkRow 3 (record [("Country", Str "Chile"); ("Date", Timestamp 18322); ("Confirmed", Num 1); ("Deaths", Num 0); ("New_Cases", Num 0)]);
      mkRow 1 (record [("Country", Str "Chile"); ("Date", Timestamp 18323); ("Confirmed", Num 4); ("Deaths", Num 0); ("New_Cases", Num 3)]);
      mkRow 2 (record [("Country", Str "Peru"); ("Date", Timestamp 18322); ("Confirmed", Num 2); ("Deaths", Num 0); ("New_Cases", Num 0)]);
      mkRow 4 (record [("Country", Str "Peru"); ("Date", Timestamp 18323); ("Confirmed", Num 5); ("Deaths", Num 0); ("New_Cases", Num 3)]);
      mkRow 0 (record [("Country", Str "Peru"); ("Date", Timestamp 18324); ("Confirmed", Num 9); ("Deaths", Num 1); ("New_Cases", Num 4)]) ].

(** The session after line 38 on [two_countries], and the same session
    after lines 73-77 with Peru and the first two days selected. *)
Definition loaded_session : Session :=
  (run_load iso_date (disk two_countries) (mkSession ∅ ∅)).2.

Definition filtered_session : Session :=
  (run_filter (Str "Peru") [18322; 18323] loaded_session).2.

(** A file without a Country column: dates and deaths only. *)
Definition no_country : CsvFile :=
  mkCsvFile ["Date"; "Deaths"]
    [ record [("Date", Str "2020-03-01"); ("Deaths", Num 0)];
      record [("Date", Str "2020-03-02"); ("Deaths", Num 2)] ].

(** What [load_data] returns on [no_country] (see [load_no_country]). *)
Definition no_country_table : DataFrame :=
  mkDataFrame ["Date"; "Deaths"; "New_Cases"]
    [ mkRow 0 (record [("Date", Timestamp 18322); ("Deaths", Num 0); ("New_Cases", Num 0)]);
      mkRow 1 (record [("Date", Timestamp 18323); ("Deaths", Num 2); ("New_Cases", Num 0)]) ].

(** What [load_data] returns on [four_days] (see [load_four_days]). *)
Definition four_days_table : DataFrame :=
  mkDataFrame ["Country"; "Date"; "Confirmed"; "New_Cases"]
    [ mkRow 0 (record [("Country", Str "Peru"); ("Date", Timestamp 18322); ("Confirmed", Num 10); ("New_Cases", Num 0)]);
      mkRow 1 (record [("Country", Str "Peru"); ("Date", Timestamp 18323); ("Confirmed", Num 15); ("New_Cases", Num 5)]);
      mkRow 2 (record [("Country", Str "Peru"); ("Date", Timestamp 18324); ("Confirmed", Num 15); ("New_Cases", Num 0)]);
      mkRow 3 (record [("Country", Str "Peru"); ("Date", Timestamp 18325); ("Confirmed", Num 22); ("New_Cases", Num 7)]) ].

(** Counts beyond the integers float64 holds: 0, then 2^53 + 1; and the
    table the loader makes of them. *)
Definition large_counts : CsvFile :=
  mkCsvFile ["Country"; "Date"; "Confirmed"]
    [ record [("Country", Str "Peru"); ("Date", Str "2020-03-01"); ("Confirmed", Num 0)];
      record [("Country", Str "Peru"); ("Date", Str "2020-03-02");
              ("Confirmed", Num 9007199254740993)] ].

Definition large_counts_table : DataFrame :=
  mkDataFrame ["Country"; "Date"; "Confirmed"; "New_Cases"]
    [ mkRow 0 (record [("Country", Str "Peru"); ("Date", Timestamp 18322);
                       ("Confirmed", Num 0); ("New_Cases", Num 0)]);
      mkRow 1 (record [("Country", Str "Peru"); ("Date", Timestamp 18323);
                       ("Confirmed", Num 9007199254740993);
                       ("New_Cases", Num 9007199254740992)]) ].

(** A file whose second line has no date, and the table the loader makes
    of it (see [load_undated_line]): the undated row is the last of its
    country. *)
Definition undated_line : CsvFile :=
  mkCsvFile ["Country"; "Date"; "Confirmed"]
    [ record [("Country", Str "Peru"); ("Date", Str "2020-03-02"); ("Confirmed", Num 5)];
      record [("Country", Str "Peru"); ("Confirmed", Num 7)];
      record [("Country", Str "Peru"); ("Date", Str "2020-03-01"); ("Confirmed", Num 2)] ].

Definition undated_line_table : DataFrame :=
  mkDataFrame ["Country"; "Date"; "Confirmed"; "New_Cases"]
    [ mkRow 2 (record [("Country", Str "Peru"); ("Date", Timestamp 18322);
                       ("Confirmed", Num 2); ("New_Cases", Num 0)]);
      mkRow 0 (record [("Country", Str "Peru"); ("Date", Timestamp 18323);
                       ("Confirmed", Num 5); ("New_Cases", Num 3)]);
      mkRow 1 (record [("Country", Str "Peru"); ("Date", NaN);
                       ("Confirmed", Num 7); ("New_Cases", Num 2)]) ].

(** A file without a Date column. *)
Definition no_date : CsvFile :=
  mkCsvFile ["Country"; "Confirmed"]
    [ record [("Country", Str "Peru"); ("Confirmed", Num 10)];
      record [("Country", Str "Peru"); ("Confirmed", Num 15)] ].

(** The frame of [two_countries] after line 26: the lines in file order,
    the dates converted, no New_Cases yet. *)
Definition two_countries_dated : DataFrame :=
  mkDataFrame ["Country"; "Date"; "Confirmed"; "Deaths"]
    [ mkRow 0 (record [("Country", Str "Peru"); ("Date", Timestamp 18324); ("Confirmed", Num 9); ("Deaths", Num 1)]);
      mkRow 1 (record [("Country", Str "Chile"); ("Date", Timestamp 18323); ("Confirmed", Num 4); ("Deaths", Num 0)]);
      mkRow 2 (record [("Country", Str "Peru"); ("Date", Timestamp 18322); ("Confirmed", Num 2); ("Deaths", Num 0)]);
      mkRow 3 (record [("Country", Str "Chile"); ("Date", Timestamp 18322); ("Confirmed", Num 1); ("Deaths", Num 0)]);
      mkRow 4 (record [("Country", Str "Peru"); ("Date", Timestamp 18323); ("Confirmed", Num 5); ("Deaths", Num 0)]) ].

(** ** Notions of the further statements *)

(** The numbers present in column [k], and the dates present in Date. *)
Definition numbers (k : string) (df : DataFrame) : list Z :=
  omap (λ r, number_of (cell r k)) (rows df).

Definition dates (df : DataFrame) : list Z :=
  omap (λ r, timestamp_of (cell r "Date")) (rows df).

(** [m] is the greatest number of column [k]: some row holds it and no row
    holds a greater one. *)
Definition greatest_of (k : string) (df : DataFrame) (m : Z) : Prop :=
  (∃ r, r ∈ rows df ∧ cell r k = Num m) ∧
  ∀ r z, r ∈ rows df → cell r k = Num z → z ≤ m.

(** The columns the metrics read hold what their dtype allows. *)
Definition MetricsTable (df : DataFrame) : Prop :=
  "New_Cases" ∈ columns df ∧ "Date" ∈ columns df ∧
  Forall (λ r, ("Confirmed" ∈ columns df → numeric (cell r "Confirmed")) ∧
               numeric (cell r "New_Cases") ∧ datetime64 (cell r "Date")) (rows df).

#[global] Instance MetricsTable_dec df : Decision (MetricsTable df).
Proof. unfold MetricsTable. apply _. Defined.

(** The View of Peru over the three days of [two_countries_table], and its
    metrics with dates left unformatted. *)
Definition peru_view : DataFrame :=
  mkDataFrame (columns two_countries_table)
    (filter (selected (Str "Peru") 18322 18324) (rows two_countries_table)).

Definition peru_summary : Summary := mkSummary 9 4 2 "".

(** Every Confirmed cell of the file is a number or missing. *)
Definition confirmed_numeric (f : CsvFile) : Prop :=
  Forall (λ rec, numeric (default NaN (rec !! "Confirmed"))) (records f).

(** A file that brings its own New_Cases, which is not the difference of
    its Confirmed, and whose lines are not in date order. *)
Definition with_new_cases : CsvFile :=
  mkCsvFile ["Country"; "Date"; "Confirmed"; "New_Cases"]
    [ record [("Country", Str "Peru"); ("Date", Str "2020-03-02"); ("Confirmed", Num 15); ("New_Cases", Num 7)];
      record [("Country", Str "Peru"); ("Date", Str "2020-03-01"); ("Confirmed", Num 10); ("New_Cases", NaN)] ].

Definition with_new_cases_table : DataFrame :=
  mkDataFrame ["Country"; "Date"; "Confirmed"; "New_Cases"]
    [ mkRow 0 (record [("Country", Str "Peru"); ("Date", Timestamp 18323); ("Confirmed", Num 15); ("New_Cases", Num 7)]);
      mkRow 1 (record [("Country", Str "Peru"); ("Date", Timestamp 18322); ("Confirmed", Num 10); ("New_Cases", NaN)]) ].

(** A file whose second date is no date. *)
Definition bad_date : CsvFile :=
  mkCsvFile ["Country"; "Date"; "Confirmed"]
    [ record [("Country", Str "Peru"); ("Date", Str "2020-03-01"); ("Confirmed", Num 10)];
      record [("Country", Str "Peru"); ("Date", Str "yesterday"); ("Confirmed", Num 15)] ].

(** The order [sorted] puts text in. *)
Definition value_le (a b : value) : Prop := value_compare a b ≠ Gt.

Definition value_lt (a b : value) : Prop := value_compare a b = Lt.

#[global] Instance value_le_dec a b : Decision (value_le a b).
Proof. unfold value_le. apply _. Defined.

#[global] Instance value_lt_dec a b : Decision (value_lt a b).
Proof. unfold value_lt. apply _. Defined.

(** A file whose second line has no country name, the table the loader
    makes of it, and the row of that line. *)
Definition nameless_line : CsvFile :=
  mkCsvFile ["Country"; "Date"; "Confirmed"]
    [ record [("Country", Str "Peru"); ("Date", Str "2020-03-01"); ("Confirmed", Num 2)];
      record [("Date", Str "2020-03-01"); ("Confirmed", Num 1)] ].

Definition nameless_row : Row :=
  mkRow 1 (record [("Date", Timestamp 18322); ("Confirmed", Num 1); ("New_Cases", Num 0)]).

Definition nameless_line_table : DataFrame :=
  mkDataFrame ["Country"; "Date"; "Confirmed"; "New_Cases"]
    [ mkRow 0 (record [("Country", Str "Peru"); ("Date", Timestamp 18322); ("Confirmed", Num 2); ("New_Cases", Num 0)]);
      nameless_row ].

(** * Proofs *)

(** ** The error monad *)

Lemma mapM_Ok {A B} (f : A → result B) (g : A → B) (l : list A) :
  Forall (λ x, f x = Ok (g x)) l → mapM f l = Ok (g <$> l).
Proof.
  induction 1 as [|x l Hx _ IH]; [done|].
  cbn. rewrite Hx. cbn. rewrite IH. done.
Qed.

Lemma mapM_Ok_inv {A B} (f : A → result B) (l : list A) (k : list B) :
  mapM f l = Ok k → Forall2 (λ x y, f x = Ok y) l k.
Proof.
  revert k. induction l as [|x l IH]; intros k; cbn.
  - intros [= <-]. constructor.
  - destruct (f x) as [y|] eqn:Hx; cbn; [|done].
    destruct (mapM f l) as [k'|]; cbn; [|done].
    intros [= <-]. constructor; auto.
Qed.

(** ** The filter *)

Lemma ge_timestamp_datetime64 v t : datetime64 v → ge_timestamp v t = Ok (ge_b t v).
Proof. by destruct v. Qed.

Lemma le_timestamp_datetime64 v t : datetime64 v → le_timestamp v t = Ok (le_b t v).
Proof. by destruct v. Qed.

Lemma selected_keep country lower upper r :
  selected country lower upper r ↔ keep country lower upper r = true.
Proof.
  unfold selected, keep, dated_within, ge_b, le_b.
  rewrite !andb_true_iff.
  destruct (cell r "Date"); rewrite ?bool_decide_eq_true; intuition (done || lia).
Qed.

Lemma getitem_Ok df k :
  k ∈ columns df → getitem df k = Ok ((λ r, (label r, cell r k)) <$> rows df).
Proof. intros Hk. unfold getitem. by rewrite decide_True. Qed.

Lemma getitem_KeyError df k : k ∉ columns df → getitem df k = Raise (KeyError k).
Proof. intros Hk. unfold getitem. by rewrite decide_False. Qed.

Lemma series_mapM_Ok {A B} (f : A → result B) (g : A → B) (s : Series A) :
  Forall (λ p, f p.2 = Ok (g p.2)) s → series_mapM f s = Ok (series_map g s).
Proof.
  intros H. unfold series_mapM, series_map. apply mapM_Ok.
  eapply Forall_impl; [exact H|]. intros p Hp. cbn. by rewrite Hp.
Qed.

Lemma filter_zip_fmap (b : Row → bool) (l : list Row) :
  (filter (λ p, p.2 = true) (zip l (b <$> l))).*1 = filter (λ r, b r = true) l.
Proof.
  induction l as [|r l IH]; [done|].
  rewrite fmap_cons. change (zip (r :: l) (b r :: (b <$> l))) with ((r, b r) :: zip l (b <$> l)).
  rewrite !filter_cons. cbn [snd].
  destruct (decide (b r = true)); [rewrite fmap_cons|]; by rewrite IH.
Qed.

Lemma getitem_mask_Ok (b : Row → bool) df :
  getitem_mask df ((λ r, (label r, b r)) <$> rows df)
  = Ok (mkDataFrame (columns df) (filter (λ r, b r = true) (rows df))).
Proof.
  unfold getitem_mask, align_mask, series_index, index.
  rewrite <- !list_fmap_compose. rewrite decide_True by done.
  cbn. do 2 f_equal.
  change (snd ∘ _) with b. apply filter_zip_fmap.
Qed.

Lemma series_and_fmap (b1 b2 : Row → bool) (l : list Row) :
  series_and ((λ r, (label r, b1 r)) <$> l) ((λ r, (label r, b2 r)) <$> l)
  = (λ r, (label r, b1 r && b2 r)) <$> l.
Proof. unfold series_and. induction l; [done|]. cbn. by f_equal. Qed.

(** The filter on an Observation Table: it selects by [keep], in frame
    order, and cannot fail. *)
Lemma view_keep df country lower upper :
  ObservationTable df →
  view df country [lower; upper]
  = Ok (mkDataFrame (columns df)
          (filter (λ r, keep country lower upper r = true) (rows df))).
Proof.
  intros (HC & HD & _ & Hdt). unfold view.
  rewrite !getitem_Ok by done. cbn.
  rewrite (series_mapM_Ok (λ v, ge_timestamp v lower) (ge_b lower)); cycle 1.
  { rewrite Forall_fmap. eapply Forall_impl; [exact Hdt|].
    intros r Hr. cbn. by apply ge_timestamp_datetime64. }
  cbn.
  rewrite (series_mapM_Ok (λ v, le_timestamp v upper) (le_b upper)); cycle 1.
  { rewrite Forall_fmap. eapply Forall_impl; [exact Hdt|].
    intros r Hr. cbn. by apply le_timestamp_datetime64. }
  cbn. unfold series_map. rewrite <- !list_fmap_compose. cbn.
  change ((λ p : nat * value, (p.1, value_eqb p.2 country)) ∘ _)
    with (λ r, (label r, value_eqb (cell r "Country") country)).
  change ((λ p : nat * value, (p.1, ge_b lower p.2)) ∘ _)
    with (λ r, (label r, ge_b lower (cell r "Date"))).
  change ((λ p : nat * value, (p.1, le_b upper p.2)) ∘ _)
    with (λ r, (label r, le_b upper (cell r "Date"))).
  rewrite !series_and_fmap. by rewrite getitem_mask_Ok.
Qed.

Lemma view_selected df country lower upper :
  ObservationTable df →
  view df country [lower; upper]
  = Ok (mkDataFrame (columns df) (filter (selected country lower upper) (rows df))).
Proof.
  intros H. rewrite view_keep by done. do 2 f_equal.
  apply list_filter_iff. intros r. symmetry. apply selected_keep.
Qed.

Lemma value_eqb_eq a b : value_eqb a b = true → a = b.
Proof. destruct a, b; cbn; try done; by intros ?%bool_decide_eq_true. Qed.

Lemma value_eqb_Str v c : value_eqb v (Str c) = true ↔ v = Str c.
Proof.
  split; [apply value_eqb_eq|]. intros ->. cbn. by apply bool_decide_eq_true.
Qed.

Lemma filter_ext_elem_of {A} (P Q : A → Prop)
    `{!∀ x, Decision (P x), !∀ x, Decision (Q x)} (l : list A) :
  (∀ x, x ∈ l → P x ↔ Q x) → filter P l = filter Q l.
Proof.
  induction l as [|a l IH]; intros HPQ; [done|].
  rewrite !filter_cons.
  rewrite IH by (intros x Hx; apply HPQ; by right).
  apply decide_ext, HPQ. by left.
Qed.

Lemma filter_none {A} (P : A → Prop) `{!∀ x, Decision (P x)} (l : list A) :
  (∀ x, x ∈ l → ¬ P x) → filter P l = [].
Proof.
  induction l as [|a l IH]; intros HP; [done|].
  rewrite filter_cons_False by (apply HP; by left).
  apply IH. intros x Hx. apply HP. by right.
Qed.

(** ** The sample inputs *)

Lemma load_two_countries : load_data iso_date (disk two_countries) = Ok two_countries_table.
Proof. vm_compute. reflexivity. Qed.

Lemma two_countries_ObservationTable : ObservationTable two_countries_table.
Proof. vm_compute. repeat constructor. Qed.

(** ** Claims about the filter *)

(** C10: on every Observation Table the filter returns a View; its rows are
    a subsequence of the table's rows, in the table's order, and each of
    them has the selected country and a date within the two bounds. *)
Theorem view_ordered_subsequence df country lower upper :
  ObservationTable df →
  ∃ v, view df country [lower; upper] = Ok v ∧
       columns v = columns df ∧
       rows v `sublist_of` rows df ∧
       Forall (λ r, cell r "Country" = country ∧ dated_within lower upper r) (rows v).
Proof.
  intros Hdf. eexists. split; [by apply view_selected|]. cbn.
  split; [done|]. split; [apply sublist_filter|].
  apply Forall_forall. intros r [[He Hd] _]%list_elem_of_filter.
  split; [by apply value_eqb_eq|done].
Qed.

Lemma view_ordered_subsequence_witness :
  ObservationTable two_countries_table ∧
  ∃ v, view two_countries_table (Str "Peru") [18323; 18324] = Ok v ∧
       columns v = columns two_countries_table ∧
       rows v `sublist_of` rows two_countries_table ∧
       Forall (λ r, cell r "Country" = Str "Peru" ∧ dated_within 18323 18324 r) (rows v).
Proof.
  split; [exact two_countries_ObservationTable|].
  apply (view_ordered_subsequence two_countries_table (Str "Peru") 18323 18324).
  exact two_countries_ObservationTable.
Defined.

(** C6, as the code has it: when the two bounds cover every date of the
    table, the View of a country is exactly the rows of that country that
    have a date: the same rows, as often, in the same order.  A row whose
    date is missing compares false with both bounds and is left out. *)
Theorem view_full_range df (c : string) lower upper :
  ObservationTable df →
  (∀ r t, r ∈ rows df → cell r "Date" = Timestamp t → lower ≤ t ≤ upper) →
  view df (Str c) [lower; upper]
  = Ok (mkDataFrame (columns df)
          (filter (λ r, cell r "Country" = Str c ∧ cell r "Date" ≠ NaN) (rows df))).
Proof.
  intros Hdf Hcover. rewrite view_selected by done. do 2 f_equal.
  apply filter_ext_elem_of. intros r Hr. unfold selected, dated_within.
  rewrite value_eqb_Str.
  destruct Hdf as (_ & _ & _ & Hdt). rewrite Forall_forall in Hdt.
  specialize (Hdt r Hr). specialize (Hcover r).
  destruct (cell r "Date") as [|z|s|t]; try done.
  - split; [by intros [_ []]|by intros [_ []]].
  - specialize (Hcover t Hr eq_refl). split; [by intros [? _]|by intros [? _]].
Qed.

Lemma view_full_range_witness :
  ObservationTable two_countries_table ∧
  (∀ r t, r ∈ rows two_countries_table → cell r "Date" = Timestamp t → 18322 ≤ t ≤ 18324) ∧
  view two_countries_table (Str "Chile") [18322; 18324]
  = Ok (mkDataFrame (columns two_countries_table)
          (filter (λ r, cell r "Country" = Str "Chile" ∧ cell r "Date" ≠ NaN)
             (rows two_countries_table))).
Proof.
  assert (Hcover : ∀ r t, r ∈ rows two_countries_table →
                          cell r "Date" = Timestamp t → 18322 ≤ t ≤ 18324).
  { intros r t Hr. revert t. revert r Hr.
    apply (proj1 (Forall_forall
      (λ r, ∀ t, cell r "Date" = Timestamp t → 18322 ≤ t ≤ 18324)
      (rows two_countries_table))).
    unfold two_countries_table. cbn [rows].
    repeat (apply Forall_cons_2;
            [intros t Ht; vm_compute in Ht; injection Ht as <-; lia|]).
    apply Forall_nil_2. }
  split; [exact two_countries_ObservationTable|]. split; [exact Hcover|].
  apply (view_full_range two_countries_table "Chile" 18322 18324);
    [exact two_countries_ObservationTable | exact Hcover].
Defined.

(** C6 as stated fails: in [undated_line_table] the bounds cover every
    date, Peru is in the table, and the View of Peru lacks the row of Peru
    whose date is missing. *)
Lemma undated_row_left_out :
  ObservationTable undated_line_table ∧
  (∀ r t, r ∈ rows undated_line_table → cell r "Date" = Timestamp t → 18322 ≤ t ≤ 18323) ∧
  (∃ r, r ∈ rows undated_line_table ∧ cell r "Country" = Str "Peru") ∧
  index <$> view undated_line_table (Str "Peru") [18322; 18323] = Ok [2; 0]%nat ∧
  label <$> filter (λ r, cell r "Country" = Str "Peru") (rows undated_line_table)
  = [2; 0; 1]%nat ∧
  view undated_line_table (Str "Peru") [18322; 18323]
  ≠ Ok (mkDataFrame (columns undated_line_table)
          (filter (λ r, cell r "Country" = Str "Peru") (rows undated_line_table))).
Proof.
  split; [apply (bool_decide_unpack _); vm_compute; exact I|].
  split.
  { intros r t Hr. revert t. revert r Hr.
    apply (proj1 (Forall_forall
      (λ r, ∀ t, cell r "Date" = Timestamp t → 18322 ≤ t ≤ 18323)
      (rows undated_line_table))).
    unfold undated_line_table. cbn [rows].
    repeat (apply Forall_cons_2;
            [intros t Ht; vm_compute in Ht;
             first [discriminate Ht | injection Ht as <-; lia]|]).
    apply Forall_nil_2. }
  split.
  { eexists. split; [by left|]. vm_compute. reflexivity. }
  split; [vm_compute; reflexivity|]. split; [vm_compute; reflexivity|].
  vm_compute. discriminate.
Qed.

(** C7: for a country that no row of the table has, the filter returns the
    empty View and does not fail. *)
Theorem view_unknown_country df country lower upper :
  ObservationTable df →
  (∀ r, r ∈ rows df → cell r "Country" ≠ country) →
  view df country [lower; upper] = Ok (mkDataFrame (columns df) []).
Proof.
  intros Hdf Hno. rewrite view_selected by done. do 2 f_equal.
  apply filter_none. intros r Hr [He _].
  apply (Hno r Hr). by apply value_eqb_eq.
Qed.

Lemma view_unknown_country_witness :
  ObservationTable two_countries_table ∧
  (∀ r, r ∈ rows two_countries_table → cell r "Country" ≠ Str "Atlantis") ∧
  view two_countries_table (Str "Atlantis") [18322; 18324]
  = Ok (mkDataFrame (columns two_countries_table) []).
Proof.
  assert (Hno : ∀ r, r ∈ rows two_countries_table → cell r "Country" ≠ Str "Atlantis").
  { apply Forall_forall. vm_compute. repeat constructor; discriminate. }
  split; [exact two_countries_ObservationTable|]. split; [exact Hno|].
  apply (view_unknown_country two_countries_table (Str "Atlantis") 18322 18324);
    [exact two_countries_ObservationTable | exact Hno].
Defined.

(** C3, as the code has it: the bounds are not swapped.  With
    [lower > upper] no date lies between them and the View is empty,
    whatever the swapped bounds select. *)
Theorem view_inverted_bounds df country lower upper :
  ObservationTable df →
  upper < lower →
  view df country [lower; upper] = Ok (mkDataFrame (columns df) []) ∧
  view df country [upper; lower]
  = Ok (mkDataFrame (columns df) (filter (selected country upper lower) (rows df))).
Proof.
  intros Hdf Hlt. split; [|by apply view_selected].
  rewrite view_selected by done. do 2 f_equal.
  apply filter_none. intros r _ [_ Hd]. unfold dated_within in Hd.
  destruct (cell r "Date"); try done. lia.
Qed.

Lemma view_inverted_bounds_witness :
  ObservationTable two_countries_table ∧ 18322 < 18324 ∧
  view two_countries_table (Str "Peru") [18324; 18322]
  = Ok (mkDataFrame (columns two_countries_table) []) ∧
  view two_countries_table (Str "Peru") [18322; 18324]
  = Ok (mkDataFrame (columns two_countries_table)
          (filter (selected (Str "Peru") 18322 18324) (rows two_countries_table))).
Proof.
  split; [exact two_countries_ObservationTable|]. split; [lia|].
  apply (view_inverted_bounds two_countries_table (Str "Peru") 18324 18322);
    [exact two_countries_ObservationTable | lia].
Defined.

(** C3 as stated fails: for Peru in [two_countries_table], the bounds
    2020-03-03 and 2020-03-01 in this order select nothing, and swapped they
    select three rows. *)
Lemma inverted_bounds_not_swapped :
  18324 > 18322 ∧
  view two_countries_table (Str "Peru") [18324; 18322]
  ≠ view two_countries_table (Str "Peru") [18322; 18324].
Proof. split; [lia|]. vm_compute. discriminate. Qed.

(** ** The filter leaves the table alone *)

Lemma extends_refl σ : extends σ σ.
Proof. by split. Qed.

Lemma extends_trans σ1 σ2 σ3 : extends σ1 σ2 → extends σ2 σ3 → extends σ1 σ3.
Proof. intros [Hg1 Ho1] [Hg2 Ho2]. split; [congruence|eauto]. Qed.

Lemma allocates_ret {A} (a : A) : allocates (mret a : Script A).
Proof. intros σ. apply extends_refl. Qed.

Lemma allocates_lift {A} (r : result A) : allocates (lift r).
Proof. intros σ. apply extends_refl. Qed.

Lemma allocates_bind {A B} (m : Script A) (k : A → Script B) :
  allocates m → (∀ a, allocates (k a)) → allocates (m ≫= k).
Proof.
  intros Hm Hk σ. unfold mbind, script_bind. specialize (Hm σ).
  destruct (m σ) as [[a|e] σ1]; cbn in *; [|done].
  eapply extends_trans; [done|apply Hk].
Qed.

Lemma allocates_new o : allocates (new o).
Proof.
  intros σ. split; [done|]. intros l o' Hl. cbn.
  rewrite lookup_insert_ne; [done|].
  intros <-. apply (is_fresh (dom (objects σ))).
  apply elem_of_dom. by exists o'.
Qed.

Lemma allocates_load_name x : allocates (load_name x).
Proof. intros σ. apply extends_refl. Qed.

Lemma allocates_frame_at l : allocates (frame_at l).
Proof. intros σ. apply extends_refl. Qed.

Lemma allocates_column_at l : allocates (column_at l).
Proof. intros σ. apply extends_refl. Qed.

Lemma allocates_mask_at l : allocates (mask_at l).
Proof. intros σ. apply extends_refl. Qed.

Create HintDb alloc.
#[local] Hint Resolve allocates_ret allocates_lift allocates_new allocates_load_name
  allocates_frame_at allocates_column_at allocates_mask_at : alloc.

Ltac allocation :=
  repeat (apply allocates_bind; [|intros ?]); auto with alloc.

Lemma allocates_frame_getitem l k : allocates (frame_getitem l k).
Proof. unfold frame_getitem. allocation. Qed.

Lemma allocates_column_eq l v : allocates (column_eq l v).
Proof. unfold column_eq. allocation. Qed.

Lemma allocates_column_ge l t : allocates (column_ge l t).
Proof. unfold column_ge. allocation. Qed.

Lemma allocates_column_le l t : allocates (column_le l t).
Proof. unfold column_le. allocation. Qed.

Lemma allocates_mask_and a b : allocates (mask_and a b).
Proof. unfold mask_and. allocation. Qed.

Lemma allocates_frame_getitem_mask l m : allocates (frame_getitem_mask l m).
Proof. unfold frame_getitem_mask. allocation. Qed.

#[local] Hint Resolve allocates_frame_getitem allocates_column_eq allocates_column_ge
  allocates_column_le allocates_mask_and allocates_frame_getitem_mask : alloc.

Lemma creates_new o : creates (new o).
Proof. intros σ l [= <-]. apply not_elem_of_dom, is_fresh. Qed.

Lemma creates_bind {A} (m : Script A) (k : A → Script nat) :
  allocates m → (∀ a, creates (k a)) → creates (m ≫= k).
Proof.
  intros Hm Hk σ l. unfold mbind, script_bind. specialize (Hm σ).
  destruct (m σ) as [[a|e] σ1]; cbn in *; [|done].
  intros Hl%Hk. destruct (objects σ !! l) as [o|] eqn:Ho; [|done].
  apply Hm in Ho. congruence.
Qed.

Lemma creates_frame_getitem_mask l m : creates (frame_getitem_mask l m).
Proof.
  unfold frame_getitem_mask.
  repeat (apply creates_bind; [auto with alloc|intros ?]). apply creates_new.
Qed.

Lemma binds_created_store x (m : Script nat) :
  allocates m → creates m → binds_created x (m ≫= store_name x).
Proof.
  intros Hm Hc σ. unfold mbind, script_bind.
  specialize (Hm σ). specialize (Hc σ).
  destruct (m σ) as [[l|e] σ1]; cbn in *.
  - destruct Hm as [Hg Ho]. split; [|split; [done|]].
    + intros y Hy. by rewrite lookup_insert_ne, Hg.
    + intros _. exists l. by rewrite lookup_insert_eq, Hc.
  - destruct Hm as [Hg Ho]. split; [|split; [done|done]].
    intros y _. by rewrite Hg.
Qed.

Lemma binds_created_bind {A} x (m : Script A) (k : A → Script ()) :
  allocates m → (∀ a, binds_created x (k a)) → binds_created x (m ≫= k).
Proof.
  intros Hm Hk σ. unfold mbind, script_bind. specialize (Hm σ).
  destruct (m σ) as [[a|e] σ1]; cbn in *.
  - destruct Hm as [Hg Ho]. destruct (Hk a σ1) as (Hg' & Ho' & Hx).
    split; [|split].
    + intros y Hy. by rewrite Hg', Hg.
    + eauto.
    + intros Hok. destruct (Hx Hok) as (l & Hl & Hnone). exists l. split; [done|].
      destruct (objects σ !! l) as [o|] eqn:Hl'; [|done].
      apply Ho in Hl'. congruence.
  - destruct Hm as [Hg Ho]. split; [|split; [done|done]].
    intros y _. by rewrite Hg.
Qed.

Lemma run_filter_binds country date_range :
  binds_created "df" (run_filter country date_range).
Proof.
  unfold run_filter.
  do 14 (apply binds_created_bind; [auto with alloc|intros ?]).
  apply binds_created_store; [auto with alloc|apply creates_frame_getitem_mask].
Qed.

(** C8: whether lines 73-77 return or raise, the name [df_all] is bound as
    before and every object of the session is what it was, the Observation
    Table among them; when they return, [df] is bound to an object that was
    not there before. *)
Theorem run_filter_frame country date_range σ :
  let σ' := (run_filter country date_range σ).2 in
  globals σ' !! "df_all" = globals σ !! "df_all" ∧
  (∀ l o, objects σ !! l = Some o → objects σ' !! l = Some o) ∧
  (∀ df_all, deref σ "df_all" = Ok df_all → deref σ' "df_all" = Ok df_all) ∧
  ((run_filter country date_range σ).1 = Ok () →
   ∃ l, globals σ' !! "df" = Some l ∧ objects σ !! l = None).
Proof.
  destruct (run_filter_binds country date_range σ) as (Hg & Ho & Hdf).
  cbv zeta. split; [by apply Hg|]. split; [done|]. split; [|done].
  intros df_all. unfold deref. rewrite Hg by done.
  destruct (globals σ !! "df_all") as [l|]; [|done].
  destruct (objects σ !! l) as [o|] eqn:Hl; [|done].
  by rewrite (Ho _ _ Hl).
Qed.

(** ** The headline metrics on an empty View *)

Section MetricsProofs.

Variable int_of_str : string → option Z.
Variable strftime : Z → string.

Lemma kpi_metrics_no_rows df :
  "New_Cases" ∈ columns df → rows df = [] →
  kpi_metrics int_of_str strftime df = Raise ValueError.
Proof.
  intros HN Hrows. unfold kpi_metrics, getitem. rewrite Hrows.
  rewrite (decide_True (P := "New_Cases" ∈ columns df)) by done.
  destruct (decide ("Confirmed" ∈ columns df)); reflexivity.
Qed.

(** C2, as the code behaves: whenever the filter returns an empty View, the
    metrics of lines 96-99 raise ValueError ([int] of the NaN that [max]
    returns on no rows); no zero and no absent date is produced. *)
Theorem kpi_metrics_empty_view df country lower upper v :
  ObservationTable df →
  view df country [lower; upper] = Ok v →
  rows v = [] →
  kpi_metrics int_of_str strftime v = Raise ValueError.
Proof.
  intros Hdf Hv Hrows. apply kpi_metrics_no_rows; [|done].
  rewrite view_selected in Hv by done. injection Hv as <-. cbn. apply Hdf.
Qed.

End MetricsProofs.

Lemma kpi_metrics_empty_view_witness :
  ObservationTable two_countries_table ∧
  view two_countries_table (Str "Peru") [18300; 18310]
  = Ok (mkDataFrame (columns two_countries_table) []) ∧
  kpi_metrics decimal (λ _, "") (mkDataFrame (columns two_countries_table) []) = Raise ValueError.
Proof.
  assert (Hv : view two_countries_table (Str "Peru") [18300; 18310]
               = Ok (mkDataFrame (columns two_countries_table) []))
    by (vm_compute; reflexivity).
  split; [exact two_countries_ObservationTable|]. split; [exact Hv|].
  exact (kpi_metrics_empty_view decimal (λ _, "") two_countries_table (Str "Peru") 18300 18310
           _ two_countries_ObservationTable Hv eq_refl).
Defined.

(** ** The order of sort_values *)

Lemma string_compare_refl s : String.compare s s = Eq.
Proof.
  induction s as [|a s IH]; [done|]. cbn.
  unfold Ascii.compare. by rewrite N.compare_refl.
Qed.

Lemma string_compare_lt_trans s1 s2 s3 :
  String.compare s1 s2 = Lt → String.compare s2 s3 = Lt → String.compare s1 s3 = Lt.
Proof.
  revert s2 s3. induction s1 as [|a1 s1 IH]; intros [|a2 s2] [|a3 s3]; cbn; try done.
  destruct (Ascii.compare a1 a2) eqn:H12; try done;
    destruct (Ascii.compare a2 a3) eqn:H23; try done; intros Hs12 Hs23.
  - apply Ascii.compare_eq_iff in H12, H23. subst.
    unfold Ascii.compare. rewrite N.compare_refl. eauto.
  - apply Ascii.compare_eq_iff in H12. subst. by rewrite H23.
  - apply Ascii.compare_eq_iff in H23. subst. by rewrite H12.
  - unfold Ascii.compare in *. rewrite N.compare_lt_iff in H12, H23.
    assert (N_of_ascii a1 < N_of_ascii a3)%N as ->%N.compare_lt_iff by lia. done.
Qed.

Lemma value_compare_refl a : value_compare a a = Eq.
Proof. destruct a; cbn; auto using Z.compare_refl, string_compare_refl. Qed.

Lemma value_compare_eq a b : value_compare a b = Eq → a = b.
Proof.
  destruct a, b; cbn; try done.
  - by intros ->%Z.compare_eq.
  - by intros ->%String.compare_eq_iff.
  - by intros ->%Z.compare_eq.
Qed.

Lemma value_compare_antisym a b : value_compare b a = CompOpp (value_compare a b).
Proof.
  destruct a, b; cbn; try done.
  - apply Z.compare_antisym.
  - apply String.compare_antisym.
  - apply Z.compare_antisym.
Qed.

Lemma value_compare_lt_trans a b c :
  value_compare a b = Lt → value_compare b c = Lt → value_compare a c = Lt.
Proof.
  destruct a, b, c; cbn; try done.
  - rewrite !Z.compare_lt_iff. lia.
  - apply string_compare_lt_trans.
  - rewrite !Z.compare_lt_iff. lia.
Qed.

Lemma lex_compare_refl by_ r : lex_compare by_ r r = Eq.
Proof. induction by_ as [|k by_ IH]; [done|]. cbn. by rewrite value_compare_refl. Qed.

Lemma lex_compare_antisym by_ r1 r2 :
  lex_compare by_ r2 r1 = CompOpp (lex_compare by_ r1 r2).
Proof.
  induction by_ as [|k by_ IH]; [done|]. cbn.
  rewrite (value_compare_antisym (cell r1 k) (cell r2 k)).
  by destruct (value_compare (cell r1 k) (cell r2 k)).
Qed.

Lemma lex_compare_eq by_ r1 r2 k :
  lex_compare by_ r1 r2 = Eq → k ∈ by_ → cell r1 k = cell r2 k.
Proof.
  induction by_ as [|k' by_ IH]; cbn; [by intros _ ?%elem_of_nil|].
  destruct (value_compare (cell r1 k') (cell r2 k')) eqn:Hk; try done.
  intros Heq [->|Hin]%elem_of_cons; [by apply value_compare_eq|auto].
Qed.

Lemma lex_compare_eq_l by_ r1 r2 r3 :
  lex_compare by_ r1 r2 = Eq → lex_compare by_ r1 r3 = lex_compare by_ r2 r3.
Proof.
  induction by_ as [|k by_ IH]; cbn; [done|].
  destruct (value_compare (cell r1 k) (cell r2 k)) eqn:Hk; try done.
  apply value_compare_eq in Hk. rewrite Hk. intros Heq. by rewrite IH.
Qed.

Lemma lex_compare_eq_r by_ r1 r2 r3 :
  lex_compare by_ r2 r3 = Eq → lex_compare by_ r1 r2 = lex_compare by_ r1 r3.
Proof.
  induction by_ as [|k by_ IH]; cbn; [done|].
  destruct (value_compare (cell r2 k) (cell r3 k)) eqn:Hk; try done.
  apply value_compare_eq in Hk. rewrite Hk. intros Heq. by rewrite IH.
Qed.

Lemma lex_compare_lt_trans by_ r1 r2 r3 :
  lex_compare by_ r1 r2 = Lt → lex_compare by_ r2 r3 = Lt → lex_compare by_ r1 r3 = Lt.
Proof.
  induction by_ as [|k by_ IH]; cbn; [done|].
  destruct (value_compare (cell r1 k) (cell r2 k)) eqn:H12; try done;
    destruct (value_compare (cell r2 k) (cell r3 k)) eqn:H23; try done; intros Hl12 Hl23.
  - apply value_compare_eq in H12, H23. rewrite H12, H23, value_compare_refl. auto.
  - apply value_compare_eq in H12. by rewrite H12, H23.
  - apply value_compare_eq in H23. by rewrite <- H23, H12.
  - by rewrite (value_compare_lt_trans _ _ _ H12 H23).
Qed.

Lemma row_leb_total by_ r1 r2 : row_leb by_ r1 r2 = false → row_leb by_ r2 r1 = true.
Proof.
  unfold row_leb. rewrite (lex_compare_antisym by_ r1 r2).
  by destruct (lex_compare by_ r1 r2).
Qed.

Lemma row_leb_trans by_ r1 r2 r3 :
  row_leb by_ r1 r2 = true → row_leb by_ r2 r3 = true → row_leb by_ r1 r3 = true.
Proof.
  unfold row_leb.
  destruct (lex_compare by_ r1 r2) eqn:H12; try done;
    destruct (lex_compare by_ r2 r3) eqn:H23; try done; intros _ _.
  - by rewrite (lex_compare_eq_l _ _ _ _ H12), H23.
  - by rewrite (lex_compare_eq_l _ _ _ _ H12), H23.
  - by rewrite <- (lex_compare_eq_r _ _ _ _ H23), H12.
  - by rewrite (lex_compare_lt_trans _ _ _ _ H12 H23).
Qed.

(** ** The stable sort *)

Section StableSort.

Context {A : Type} (leb : A → A → bool).
Hypothesis leb_total : ∀ x y, leb x y = false → leb y x = true.
Hypothesis leb_trans : ∀ x y z, leb x y = true → leb y z = true → leb x z = true.

Lemma insert_sorted_Permutation x l : insert_sorted leb x l ≡ₚ x :: l.
Proof.
  induction l as [|y l IH]; [done|]. cbn.
  destruct (leb x y); [done|]. rewrite IH. apply Permutation_swap.
Qed.

Lemma stable_sort_Permutation l : stable_sort leb l ≡ₚ l.
Proof.
  induction l as [|x l IH]; [done|].
  cbn. rewrite insert_sorted_Permutation. by rewrite IH.
Qed.

Lemma insert_sorted_StronglySorted x l :
  StronglySorted (λ a b, leb a b = true) l →
  StronglySorted (λ a b, leb a b = true) (insert_sorted leb x l).
Proof.
  induction 1 as [|y l Hl IH Hy]; cbn; [repeat constructor|].
  destruct (leb x y) eqn:Hxy.
  - constructor; [by constructor|].
    constructor; [done|]. eapply Forall_impl; [exact Hy|].
    intros z Hz. cbn in Hz. eauto.
  - constructor; [done|].
    rewrite insert_sorted_Permutation. constructor; [auto|done].
Qed.

Lemma stable_sort_StronglySorted l :
  StronglySorted (λ a b, leb a b = true) (stable_sort leb l).
Proof.
  induction l as [|x l IH]; [constructor|].
  cbn. by apply insert_sorted_StronglySorted.
Qed.

(** Sorting what is sorted changes nothing. *)
Lemma stable_sort_sorted l :
  StronglySorted (λ a b, leb a b = true) l → stable_sort leb l = l.
Proof.
  induction 1 as [|x l Hl IH Hx]; [done|].
  cbn. fold (stable_sort leb l). rewrite IH.
  destruct Hx as [|y l' Hxy _]; [done|]. cbn. by rewrite Hxy.
Qed.

Lemma stable_sort_idemp l : stable_sort leb (stable_sort leb l) = stable_sort leb l.
Proof. apply stable_sort_sorted, stable_sort_StronglySorted. Qed.

End StableSort.

(** ** Series and column assignment *)

Lemma series_mapM_inv {A B} (f : A → result B) (s : Series A) (d : Series B) :
  series_mapM f s = Ok d → Forall2 (λ p q, q.1 = p.1 ∧ f p.2 = Ok q.2) s d.
Proof.
  intros H%mapM_Ok_inv. eapply Forall2_impl; [exact H|].
  intros p q. cbn. destruct (f p.2); cbn; [|done]. by intros [= <-].
Qed.

Lemma series_mapM_index {A B} (f : A → result B) (s : Series A) (d : Series B) :
  series_mapM f s = Ok d → series_index d = series_index s.
Proof.
  intros H%series_mapM_inv. unfold series_index.
  induction H as [|p q s d [Hpq _] _ IH]; [done|]. cbn. by rewrite Hpq, IH.
Qed.

Lemma series_map_index {A B} (f : A → B) (s : Series A) :
  series_index (series_map f s) = series_index s.
Proof. unfold series_index, series_map. by rewrite <- list_fmap_compose. Qed.

Lemma getitem_index df k s : getitem df k = Ok s → series_index s = index df.
Proof.
  unfold getitem. case_decide; [|done]. intros [= <-].
  unfold series_index, index. by rewrite <- list_fmap_compose.
Qed.

Lemma setitem_positional df k s :
  series_index s = index df →
  setitem df k s
  = mkDataFrame (add_column (columns df) k) (zip_with (set_cell k) (rows df) (s.*2)).
Proof. intros Hs. unfold setitem, align. by rewrite decide_True. Qed.

Lemma cell_set_cell_eq k r v : cell (set_cell k r v) k = v.
Proof. unfold cell, set_cell. cbn. by rewrite lookup_insert_eq. Qed.

Lemma cell_set_cell_ne k k' r v : k ≠ k' → cell (set_cell k r v) k' = cell r k'.
Proof. intros Hk. unfold cell, set_cell. cbn. by rewrite lookup_insert_ne. Qed.

Lemma add_column_elem_of cols k : k ∈ add_column cols k.
Proof. unfold add_column. case_decide; [done|]. apply elem_of_app. right. by left. Qed.

Lemma add_column_mono cols k k' : k' ∈ cols → k' ∈ add_column cols k.
Proof. unfold add_column. case_decide; [done|]. intros ?. apply elem_of_app. by left. Qed.

Lemma add_column_present cols k : k ∈ cols → add_column cols k = cols.
Proof. intros ?. unfold add_column. by rewrite decide_True. Qed.

Lemma add_column_inv cols k k' : k' ∈ add_column cols k → k' = k ∨ k' ∈ cols.
Proof.
  unfold add_column. case_decide; [by right|].
  intros [?|?%list_elem_of_singleton]%elem_of_app; auto.
Qed.

Lemma zip_with_label k (l : list Row) (vs : list value) :
  length vs = length l → label <$> zip_with (set_cell k) l vs = label <$> l.
Proof.
  revert vs. induction l as [|r l IH]; intros [|v vs]; cbn; try done.
  intros [= Hlen]. by rewrite IH.
Qed.

Lemma Forall_zip_with_set_cell (P Q : Row → Prop) k (l : list Row) (vs : list value) :
  (∀ r v, P r → Q (set_cell k r v)) →
  Forall P l → Forall Q (zip_with (set_cell k) l vs).
Proof.
  intros HPQ Hl. revert vs.
  induction Hl as [|r l Hr _ IH]; intros [|v vs]; cbn; constructor; auto.
Qed.

Lemma StronglySorted_zip_with_set_cell (R : relation Row) k (l : list Row) (vs : list value) :
  (∀ r1 r2 v1 v2, R r1 r2 → R (set_cell k r1 v1) (set_cell k r2 v2)) →
  StronglySorted R l → StronglySorted R (zip_with (set_cell k) l vs).
Proof.
  intros HR Hl. revert vs.
  induction Hl as [|r l _ IH Hr]; intros [|v vs]; cbn; try constructor; auto.
  clear IH. revert vs. induction Hr as [|r' l Hr' _ IH]; intros [|w vs]; cbn; constructor; auto.
Qed.

(** A filter on cells other than [k] commutes with the assignment of
    column [k]. *)
Lemma filter_zip_with_set_cell (P : Row → Prop) `{!∀ r, Decision (P r)} k
    (l : list Row) (vs : list value) :
  (∀ r v, P (set_cell k r v) ↔ P r) →
  length vs = length l →
  filter P (zip_with (set_cell k) l vs)
  = zip_with (set_cell k) (filter P l) ((filter (λ p, P p.1) (zip l vs)).*2).
Proof.
  intros HP. revert vs. induction l as [|r l IH]; intros [|v vs]; try done.
  intros [= Hlen].
  change (zip_with (set_cell k) (r :: l) (v :: vs))
    with (set_cell k r v :: zip_with (set_cell k) l vs).
  change (zip (r :: l) (v :: vs)) with ((r, v) :: zip l vs).
  rewrite !filter_cons. cbn [fst].
  destruct (decide (P r)) as [Hr|Hr].
  - rewrite decide_True by (by apply HP). rewrite fmap_cons. cbn. by rewrite IH.
  - rewrite decide_False by (by rewrite HP). by apply IH.
Qed.

(** ** float64 arithmetic *)

Lemma round_half_even_bounds p q :
  p `div` q ≤ round_half_even p q ≤ p `div` q + 1.
Proof.
  unfold round_half_even. cbv zeta.
  repeat case_match; lia.
Qed.


Lemma round_half_even_mono p1 p2 q :
  0 < q → p1 ≤ p2 → round_half_even p1 q ≤ round_half_even p2 q.
Proof.
  intros Hq Hp.
  assert (Hd : p1 `div` q ≤ p2 `div` q) by by apply Z.div_le_mono.
  destruct (decide (p1 `div` q = p2 `div` q)) as [He|Hne].
  - assert (Hr : p1 `mod` q ≤ p2 `mod` q).
    { rewrite !Z.mod_eq by lia. rewrite He. lia. }
    unfold round_half_even. cbv zeta. rewrite He.
    repeat case_match; lia.
  - pose proof (round_half_even_bounds p1 q). pose proof (round_half_even_bounds p2 q). lia.
Qed.

Lemma float64_exact n : Z.abs n ≤ 2 ^ 53 → float64 n = n.
Proof.
  intros Hn. unfold float64. cbv zeta.
  destruct (decide (Z.abs n = 2 ^ 53)) as [He|Hne].
  - assert (n = 2 ^ 53 ∨ n = - 2 ^ 53) as [-> | ->] by lia; by vm_compute.
  - destruct (decide (Z.abs n = 0)) as [H0|H0].
    { rewrite H0. done. }
    assert (Z.log2 (Z.abs n) < 53) by (apply Z.log2_lt_pow2; lia).
    case_match; [done|lia].
Qed.

Lemma float64_opp n : float64 (- n) = - float64 n.
Proof.
  unfold float64. cbv zeta. rewrite Z.abs_opp, Z.sgn_opp.
  case_match; lia.
Qed.

Lemma float64_nonneg n : 0 ≤ n → 0 ≤ float64 n.
Proof.
  intros Hn. unfold float64. cbv zeta.
  destruct (Z.log2 (Z.abs n) - 52 <=? 0) eqn:He; [done|].
  rewrite Z.abs_eq in * by done.
  assert (0 < n).
  { destruct (decide (n = 0)) as [->|]; [done|lia]. }
  rewrite Z.sgn_pos, Z.mul_1_l by done.
  pose proof (round_half_even_bounds n (2 ^ (Z.log2 n - 52))).
  assert (0 < 2 ^ (Z.log2 n - 52)) by (apply Z.pow_pos_nonneg; lia).
  assert (0 ≤ n `div` 2 ^ (Z.log2 n - 52)) by (apply Z.div_pos; lia).
  apply Z.mul_nonneg_nonneg; lia.
Qed.

(** An integer of more than 53 bits converts to a float64 of its binade. *)
Lemma float64_binade n :
  2 ^ 53 ≤ n →
  let e := Z.log2 n - 52 in
  0 < e ∧ float64 n = round_half_even n (2 ^ e) * 2 ^ e ∧
  2 ^ (52 + e) ≤ float64 n ≤ 2 ^ (53 + e).
Proof.
  intros Hn e.
  assert (He : 0 < e).
  { subst e. assert (53 ≤ Z.log2 n) by (apply Z.log2_le_pow2; lia). lia. }
  assert (Hf : float64 n = round_half_even n (2 ^ e) * 2 ^ e).
  { unfold float64. cbv zeta. rewrite Z.abs_eq by lia. fold e.
    destruct (e <=? 0) eqn:Hle; [lia|].
    rewrite Z.sgn_pos by lia. lia. }
  split; [done|]. split; [done|]. rewrite Hf.
  assert (Hpe : 0 < 2 ^ e) by (apply Z.pow_pos_nonneg; lia).
  destruct (Z.log2_spec n) as [Hlo Hhi]; [lia|].
  replace (Z.log2 n) with (52 + e) in Hlo by (subst e; lia).
  replace (Z.succ (Z.log2 n)) with (53 + e) in Hhi by (subst e; lia).
  rewrite !Z.pow_add_r in * by lia.
  pose proof (round_half_even_bounds n (2 ^ e)) as Hb.
  assert (2 ^ 52 ≤ n `div` 2 ^ e).
  { apply Z.div_le_lower_bound; lia. }
  assert (n `div` 2 ^ e < 2 ^ 53).
  { apply Z.div_lt_upper_bound; lia. }
  nia.
Qed.

Lemma float64_mono_nonneg x y : 0 ≤ x → x ≤ y → float64 x ≤ float64 y.
Proof.
  intros Hx Hxy.
  destruct (decide (y < 2 ^ 53)) as [Hy|Hy].
  { rewrite !float64_exact by lia. done. }
  destruct (float64_binade y) as (Hey & Hfy & Hby); [lia|].
  destruct (decide (x < 2 ^ 53)) as [Hx'|Hx'].
  { rewrite (float64_exact x) by lia.
    assert (2 ^ 53 ≤ 2 ^ (52 + (Z.log2 y - 52))).
    { apply Z.pow_le_mono_r; lia. }
    lia. }
  destruct (float64_binade x) as (Hex & Hfx & Hbx); [lia|].
  assert (Hl : Z.log2 x ≤ Z.log2 y) by by apply Z.log2_le_mono.
  destruct (decide (Z.log2 x = Z.log2 y)) as [He|Hne].
  - rewrite Hfx, Hfy, He.
    assert (0 < 2 ^ (Z.log2 y - 52)) by (apply Z.pow_pos_nonneg; lia).
    pose proof (round_half_even_mono x y (2 ^ (Z.log2 y - 52))). nia.
  - assert (2 ^ (53 + (Z.log2 x - 52)) ≤ 2 ^ (52 + (Z.log2 y - 52))).
    { apply Z.pow_le_mono_r; lia. }
    lia.
Qed.

Lemma float64_mono x y : x ≤ y → float64 x ≤ float64 y.
Proof.
  intros Hxy.
  destruct (decide (0 ≤ x)) as [Hx|Hx].
  { by apply float64_mono_nonneg. }
  destruct (decide (0 ≤ y)) as [Hy|Hy].
  - pose proof (float64_nonneg y Hy).
    pose proof (float64_nonneg (- x)) as Hn. rewrite float64_opp in Hn. lia.
  - pose proof (float64_mono_nonneg (- y) (- x)) as Hm.
    rewrite !float64_opp in Hm. lia.
Qed.





(** ** The grouped difference *)

Lemma as_number_numeric v : numeric v → as_number v = Ok (number_of v).
Proof. by destruct v. Qed.

Lemma as_number_Ok v x : as_number v = Ok x → numeric v ∧ x = number_of v.
Proof. destruct v; cbn; by intros [= <-]. Qed.

Lemma grouped_diff_index last xs :
  series_index (grouped_diff last xs) = (λ x, x.1.1) <$> xs.
Proof.
  unfold series_index. revert last.
  induction xs as [|[[lbl k] x] xs IH]; intros last; [done|].
  destruct k; cbn; by rewrite IH.
Qed.

Lemma grouped_diff_group key col kv last (l : list Row) :
  kv ≠ NaN →
  (filter (λ p, cell p.1 key = kv)
     (zip l ((fillna (grouped_diff last (keyed key col l)) (Num 0)).*2))).*2
  = fill (Num 0) <$>
      diffs (last !! kv) ((λ r, number_of (cell r col)) <$> filter (λ r, cell r key = kv) l).
Proof.
  intros Hkv. revert last. induction l as [|r l IH]; intros last; [done|].
  rewrite (filter_cons (λ r, cell r key = kv)).
  assert (Hstep : ∀ last' v,
    fillna (grouped_diff last (keyed key col (r :: l))) (Num 0)
      = (label r, fill (Num 0) v) :: fillna (grouped_diff last' (keyed key col l)) (Num 0) →
    (cell r key = kv → v = diff_cell (last !! kv) (number_of (cell r col)) ∧
                        last' !! kv = Some (number_of (cell r col))) →
    (cell r key ≠ kv → last' !! kv = last !! kv) →
    (filter (λ p, cell p.1 key = kv)
       (zip (r :: l) ((fillna (grouped_diff last (keyed key col (r :: l))) (Num 0)).*2))).*2
    = fill (Num 0) <$>
        diffs (last !! kv)
          ((λ r, number_of (cell r col)) <$>
             (if decide (cell r key = kv) then r :: filter (λ r, cell r key = kv) l
              else filter (λ r, cell r key = kv) l))).
  { intros last' v -> Heq Hne. rewrite fmap_cons.
    change (zip (r :: l) ?vs) with (zip_with pair (r :: l) vs).
    cbn [zip_with]. rewrite filter_cons. cbn [fst snd].
    destruct (decide (cell r key = kv)) as [Hr|Hr].
    - destruct (Heq Hr) as [-> Hlast]. rewrite !fmap_cons. cbn [snd diffs].
      rewrite fmap_cons. f_equal. rewrite <- Hlast. apply IH.
    - rewrite <- (Hne Hr). apply IH. }
  assert (∃ last' v,
    fillna (grouped_diff last (keyed key col (r :: l))) (Num 0)
      = (label r, fill (Num 0) v) :: fillna (grouped_diff last' (keyed key col l)) (Num 0) ∧
    (cell r key = kv → v = diff_cell (last !! kv) (number_of (cell r col)) ∧
                        last' !! kv = Some (number_of (cell r col))) ∧
    (cell r key ≠ kv → last' !! kv = last !! kv)) as (last' & v & H1 & H2 & H3).
  { unfold keyed. rewrite fmap_cons.
    destruct (cell r key) as [|z|s|t] eqn:Hk.
    - exists last, NaN. split; [done|]. split; [by intros <-|done].
    - eexists _, _. split; [reflexivity|].
      split; [intros <-; by rewrite lookup_insert_eq|intros ?; by rewrite lookup_insert_ne].
    - eexists _, _. split; [reflexivity|].
      split; [intros <-; by rewrite lookup_insert_eq|intros ?; by rewrite lookup_insert_ne].
    - eexists _, _. split; [reflexivity|].
      split; [intros <-; by rewrite lookup_insert_eq|intros ?; by rewrite lookup_insert_ne]. }
  by apply (Hstep last' v).
Qed.

(** On counts that float64 holds exactly the float64 difference is the
    difference. *)
Lemma diff_cell_exact (p c : value) :
  exact_count p → exact_count c →
  fill (Num 0) (diff_cell (Some (number_of p)) (number_of c)) = delta p c.
Proof.
  destruct p as [|p| |], c as [|c| |]; cbn; try done.
  intros Hp Hc. rewrite (float64_exact c), (float64_exact p), float64_exact by lia.
  done.
Qed.

Lemma fill_diffs_deltas (c0 : value) (cs : list value) :
  Forall exact_count (c0 :: cs) →
  fill (Num 0) <$> diffs (Some (number_of c0)) (number_of <$> cs) = deltas c0 cs.
Proof.
  revert c0. induction cs as [|c cs IH]; intros c0 Hb; [done|].
  apply Forall_cons in Hb as [H0 Hb]. pose proof Hb as [Hc _]%Forall_cons.
  cbn. rewrite IH by done. f_equal. by apply diff_cell_exact.
Qed.

Lemma length_diffs prev l : length (diffs prev l) = length l.
Proof. revert prev. induction l as [|x l IH]; intros prev; [done|]. cbn. by rewrite IH. Qed.

Lemma fill_diffs_new_cases_spec (cs : list value) :
  Forall exact_count cs →
  fill (Num 0) <$> diffs None (number_of <$> cs) = new_cases_spec cs.
Proof. destruct cs as [|c cs]; [done|]. intros Hb. cbn. by rewrite fill_diffs_deltas. Qed.

Lemma groupby_diff_Ok df key col :
  key ∈ columns df → col ∈ columns df →
  Forall (λ r, numeric (cell r col)) (rows df) →
  groupby_diff df key col = Ok (grouped_diff ∅ (keyed key col (rows df))).
Proof.
  intros Hkey Hcol Hnum. unfold groupby_diff. rewrite !decide_True by done.
  rewrite (mapM_Ok _ (λ r, (label r, cell r key, number_of (cell r col)))); [done|].
  eapply Forall_impl; [exact Hnum|]. intros r Hr. cbn.
  by rewrite as_number_numeric.
Qed.

Lemma groupby_diff_inv df key col d :
  groupby_diff df key col = Ok d →
  key ∈ columns df ∧ col ∈ columns df ∧
  Forall (λ r, numeric (cell r col)) (rows df) ∧
  d = grouped_diff ∅ (keyed key col (rows df)).
Proof.
  unfold groupby_diff. do 2 (case_decide; [|done]).
  destruct (mapM _ (rows df)) as [xs|] eqn:Hxs; cbn; [|done]. intros [= <-].
  apply mapM_Ok_inv in Hxs.
  assert (Forall (λ r, numeric (cell r col)) (rows df) ∧ xs = keyed key col (rows df))
    as [? ->]; [|done].
  induction Hxs as [|r x l xs Hr _ [IH1 IH2]]; [done|].
  destruct (as_number (cell r col)) as [n|] eqn:Hn; cbn in Hr; [|done].
  injection Hr as <-. apply as_number_Ok in Hn as [? ->].
  split; [by constructor|]. cbn. by rewrite IH2.
Qed.

(** ** sort_values and the New_Cases computation *)

Tactic Notation "result_simpl" :=
  cbn [mbind mret result_bind result_ret fmap result_fmap].
Tactic Notation "result_simpl" "in" hyp(H) :=
  cbn [mbind mret result_bind result_ret fmap result_fmap] in H.

Lemma sort_values_Ok df k1 k2 :
  k1 ∈ columns df → k2 ∈ columns df →
  sort_values df [k1; k2]
  = Ok (mkDataFrame (columns df) (stable_sort (row_leb [k1; k2]) (rows df))).
Proof.
  intros H1 H2. unfold sort_values, missing_key. cbn.
  rewrite decide_False by (intros ?; done). cbn.
  rewrite decide_False by (intros ?; done). done.
Qed.

Lemma sort_values_KeyError_1 df k1 k2 :
  k1 ∉ columns df → sort_values df [k1; k2] = Raise (KeyError k1).
Proof. intros H1. unfold sort_values, missing_key. cbn. by rewrite decide_True. Qed.

Lemma sort_values_KeyError_2 df k1 k2 :
  k1 ∈ columns df → k2 ∉ columns df → sort_values df [k1; k2] = Raise (KeyError k2).
Proof.
  intros H1 H2. unfold sort_values, missing_key. cbn.
  rewrite decide_False by (intros ?; done). cbn. by rewrite decide_True.
Qed.

Lemma length_new_cases_column l : length (new_cases_column l) = length l.
Proof.
  unfold new_cases_column, fillna, series_map, keyed.
  rewrite !length_fmap.
  transitivity (length (series_index (grouped_diff ∅ ((λ r, (label r, cell r "Country", number_of (cell r "Confirmed"))) <$> l)))).
  - unfold series_index. by rewrite length_fmap.
  - by rewrite grouped_diff_index, !length_fmap.
Qed.

Lemma compute_new_cases_Ok df :
  "Confirmed" ∈ columns df → "Country" ∈ columns df → "Date" ∈ columns df →
  Forall (λ r, numeric (cell r "Confirmed")) (rows df) →
  compute_new_cases df
  = Ok (mkDataFrame (add_column (columns df) "New_Cases")
          (zip_with (set_cell "New_Cases") (sorted_rows df)
             (new_cases_column (sorted_rows df)))).
Proof.
  intros HConf HC HD Hnum. unfold compute_new_cases.
  rewrite decide_True by done. rewrite sort_values_Ok by done. result_simpl.
  rewrite groupby_diff_Ok; [|done|done|]; cycle 1.
  { cbn [rows]. by rewrite stable_sort_Permutation. }
  result_simpl. rewrite setitem_positional; [done|].
  unfold fillna. rewrite series_map_index, grouped_diff_index.
  unfold index, keyed. by rewrite <- list_fmap_compose.
Qed.

Lemma compute_new_cases_inv df df' :
  "Confirmed" ∈ columns df →
  compute_new_cases df = Ok df' →
  "Country" ∈ columns df ∧ "Date" ∈ columns df ∧
  Forall (λ r, numeric (cell r "Confirmed")) (rows df) ∧
  df' = mkDataFrame (add_column (columns df) "New_Cases")
          (zip_with (set_cell "New_Cases") (sorted_rows df)
             (new_cases_column (sorted_rows df))).
Proof.
  intros HConf Hrun.
  destruct (decide ("Country" ∈ columns df)) as [HC|HC]; cycle 1.
  { unfold compute_new_cases in Hrun. rewrite decide_True in Hrun by done.
    by rewrite sort_values_KeyError_1 in Hrun. }
  destruct (decide ("Date" ∈ columns df)) as [HD|HD]; cycle 1.
  { unfold compute_new_cases in Hrun. rewrite decide_True in Hrun by done.
    by rewrite sort_values_KeyError_2 in Hrun. }
  destruct (decide (Forall (λ r, numeric (cell r "Confirmed")) (rows df))) as [Hnum|Hnum].
  - rewrite compute_new_cases_Ok in Hrun by done. by injection Hrun as <-.
  - exfalso. apply Hnum. unfold compute_new_cases in Hrun.
    rewrite decide_True in Hrun by done. rewrite sort_values_Ok in Hrun by done.
    result_simpl in Hrun.
    destruct (groupby_diff _ "Country" "Confirmed") as [d|] eqn:Hd; [|done].
    apply groupby_diff_inv in Hd as (_ & _ & Hd & _). cbn [rows] in Hd.
    by rewrite stable_sort_Permutation in Hd.
Qed.

Lemma compute_new_cases_no_Confirmed df :
  "Confirmed" ∉ columns df →
  compute_new_cases df = Ok (setitem_scalar df "New_Cases" (Num 0)).
Proof. intros H. unfold compute_new_cases. by rewrite decide_False. Qed.

(** ** The loader *)

Section LoaderProofs.

Variable parse_datetime : string → option Z.

Lemma to_datetime_scalar_datetime64 v w :
  to_datetime_scalar parse_datetime v = Ok w → datetime64 w.
Proof.
  destruct v as [|z|s|t]; cbn; try by intros [= <-].
  destruct (parse_datetime s); [|done]. by intros [= <-].
Qed.

Lemma read_csv_Parsed fs path f :
  fs !! path = Some (Parsed f) → header f ≠ [] → read_csv fs path = Ok (frame_of f).
Proof. intros Hf Hh. unfold read_csv. rewrite Hf. by destruct (header f). Qed.

Lemma read_csv_column fs path f k :
  fs !! path = Some (Parsed f) → k ∈ header f → read_csv fs path = Ok (frame_of f).
Proof. intros Hf Hk. apply read_csv_Parsed; [done|]. intros Hh. rewrite Hh in Hk. by apply elem_of_nil in Hk. Qed.

Lemma read_csv_inv fs path df :
  read_csv fs path = Ok df →
  ∃ f, fs !! path = Some (Parsed f) ∧ header f ≠ [] ∧ df = frame_of f.
Proof.
  unfold read_csv. destruct (fs !! path) as [[f|e]|]; [|done|done].
  destruct (header f) eqn:Hh; [done|]. intros [= <-]. exists f. by rewrite Hh.
Qed.

(** The frame after line 26. *)
Lemma load_data_inv fs df :
  load_data parse_datetime fs = Ok df →
  ∃ f d, fs !! data_path = Some (Parsed f) ∧ "Date" ∈ header f ∧
         to_datetime parse_datetime ((λ r, (label r, cell r "Date")) <$> rows (frame_of f)) = Ok d ∧
         ensure_new_cases
           (mkDataFrame (header f) (zip_with (set_cell "Date") (rows (frame_of f)) (d.*2)))
         = Ok df.
Proof.
  unfold load_data. intros Hrun.
  destruct (read_csv fs data_path) as [df0|] eqn:Hread; [|done].
  apply read_csv_inv in Hread as (f & Hf & _ & ->). result_simpl in Hrun.
  unfold getitem in Hrun. case_decide as HD; [|done]. result_simpl in Hrun.
  destruct (to_datetime _ _) as [d|] eqn:Hd; [|done]. result_simpl in Hrun.
  exists f, d. do 3 (split; [done|]).
  rewrite setitem_positional in Hrun.
  - cbn [columns frame_of] in Hrun. by rewrite add_column_present in Hrun.
  - rewrite (series_mapM_index _ _ _ Hd). unfold series_index, index.
    by rewrite <- list_fmap_compose.
Qed.

Lemma label_imap_mkRow (recs : list (gmap string value)) :
  label <$> imap mkRow recs = seq 0 (length recs).
Proof.
  rewrite fmap_imap.
  change (λ n, label ∘ mkRow n) with (λ (n : nat) (_ : gmap string value), id n).
  rewrite <- (list_fmap_id (seq 0 (length recs))). generalize (@id nat).
  induction recs as [|x recs IH]; intros g; [done|].
  cbn. f_equal. rewrite <- fmap_S_seq, <- list_fmap_compose. apply (IH (g ∘ S)).
Qed.

Lemma dated_rows_spec f d :
  to_datetime parse_datetime ((λ r, (label r, cell r "Date")) <$> rows (frame_of f)) = Ok d →
  let rows1 := zip_with (set_cell "Date") (rows (frame_of f)) (d.*2) in
  label <$> rows1 = seq 0 (length (records f)) ∧
  Forall (λ r, datetime64 (cell r "Date") ∧ row_of_file parse_datetime f r) rows1.
Proof.
  intros Hd. apply series_mapM_inv in Hd. cbn zeta.
  assert (Hlen : length (d.*2) = length (rows (frame_of f))).
  { apply Forall2_length in Hd. by rewrite !length_fmap in *. }
  split.
  - rewrite zip_with_label by done. apply label_imap_mkRow.
  - apply Forall_lookup. intros i r Hi.
    apply lookup_zip_with_Some in Hi as (r0 & v & -> & Hr0 & Hv).
    apply list_lookup_fmap_Some_1 in Hv as ([l v'] & -> & Hv). cbn [snd] in *.
    assert (Hs : ((λ r, (label r, cell r "Date")) <$> rows (frame_of f)) !! i
                 = Some (label r0, cell r0 "Date"))
      by (by rewrite list_lookup_fmap, Hr0).
    destruct (Forall2_lookup_lr _ _ _ _ _ _ Hd Hs Hv) as [_ Hconv]. cbn [snd] in Hconv.
    cbn [rows frame_of] in Hr0. rewrite list_lookup_imap in Hr0.
    destruct (records f !! i) as [rec|] eqn:Hrec; [|done]. injection Hr0 as <-.
    rewrite cell_set_cell_eq. split; [by eapply to_datetime_scalar_datetime64|].
    exists rec. cbn [label set_cell]. split; [done|]. split.
    + rewrite cell_set_cell_eq. exact Hconv.
    + intros k Hk _. by rewrite cell_set_cell_ne.
Qed.

End LoaderProofs.

(** ** Assignment of a column and the cells of the others *)

Lemma lex_compare_set_cell by_ k r1 r2 v1 v2 :
  k ∉ by_ →
  lex_compare by_ (set_cell k r1 v1) (set_cell k r2 v2) = lex_compare by_ r1 r2.
Proof.
  induction by_ as [|k' by_ IH]; [done|].
  intros [Hk Hby]%not_elem_of_cons. cbn.
  rewrite !cell_set_cell_ne by done. by rewrite IH.
Qed.

Lemma fmap_cell_zip_with_ne k k' (l : list Row) (vs : list value) :
  k ≠ k' → length vs = length l →
  (λ r, cell r k') <$> zip_with (set_cell k) l vs = (λ r, cell r k') <$> l.
Proof.
  intros Hk. revert vs. induction l as [|r l IH]; intros [|v vs]; try done.
  intros [= Hlen]. cbn. by rewrite cell_set_cell_ne, IH.
Qed.

Lemma fmap_cell_zip_with_eq k (l : list Row) (vs : list value) :
  length vs = length l →
  (λ r, cell r k) <$> zip_with (set_cell k) l vs = vs.
Proof.
  revert vs. induction l as [|r l IH]; intros [|v vs]; try done.
  intros [= Hlen]. cbn. by rewrite cell_set_cell_eq, IH.
Qed.

Lemma keyed_zip_with_set_cell key col k (l : list Row) (vs : list value) :
  k ≠ key → k ≠ col → length vs = length l →
  keyed key col (zip_with (set_cell k) l vs) = keyed key col l.
Proof.
  intros Hkey Hcol. revert vs. induction l as [|r l IH]; intros [|v vs]; try done.
  intros [= Hlen]. unfold keyed in *. cbn.
  by rewrite !cell_set_cell_ne, IH.
Qed.

Lemma set_cell_set_cell k r v w : set_cell k (set_cell k r v) w = set_cell k r w.
Proof. unfold set_cell. cbn. by rewrite insert_insert_eq. Qed.

Lemma zip_with_set_cell_twice k (l : list Row) (vs : list value) :
  zip_with (set_cell k) (zip_with (set_cell k) l vs) vs = zip_with (set_cell k) l vs.
Proof.
  revert vs. induction l as [|r l IH]; intros [|v vs]; try done.
  cbn. by rewrite set_cell_set_cell, IH.
Qed.

Lemma StronglySorted_weaken {A} (R R' : relation A) (P : A → Prop) (l : list A) :
  (∀ x y, P x → P y → R x y → R' x y) →
  Forall P l → StronglySorted R l → StronglySorted R' l.
Proof.
  intros HR HP Hl. induction Hl as [|x l _ IH Hx]; [constructor|].
  apply Forall_cons in HP as [Px Pl]. constructor; [auto|].
  apply Forall_forall. intros y Hy.
  rewrite Forall_forall in Hx, Pl. auto.
Qed.

Lemma StronglySorted_filter {A} (R : relation A) (P : A → Prop)
    `{!∀ x, Decision (P x)} (l : list A) :
  StronglySorted R l → StronglySorted R (filter P l).
Proof.
  induction 1 as [|x l _ IH Hx]; [constructor|].
  rewrite filter_cons. case_decide; [|done].
  constructor; [done|].
  apply Forall_forall. intros y [_ Hy]%list_elem_of_filter.
  rewrite Forall_forall in Hx. auto.
Qed.

Lemma length_new_cases_spec l : length (new_cases_spec l) = length l.
Proof.
  destruct l as [|x l]; [done|]. cbn. f_equal.
  revert x. induction l as [|y l IH]; intros x; [done|]. cbn. by rewrite IH.
Qed.

Lemma new_cases_column_zip_with (l : list Row) (vs : list value) :
  length vs = length l →
  new_cases_column (zip_with (set_cell "New_Cases") l vs) = new_cases_column l.
Proof.
  intros Hlen. unfold new_cases_column. by rewrite keyed_zip_with_set_cell.
Qed.

(** Within one country the order of line 31 is the order of the dates. *)
Lemma row_leb_same_country r1 r2 :
  cell r1 "Country" = cell r2 "Country" →
  row_leb ["Country"; "Date"] r1 r2 = true → date_le r1 r2.
Proof.
  intros Hc. unfold row_leb, date_le. cbn.
  rewrite Hc, value_compare_refl.
  by destruct (value_compare (cell r1 "Date") (cell r2 "Date")).
Qed.

Lemma sorted_rows_StronglySorted df :
  StronglySorted (λ r1 r2, row_leb ["Country"; "Date"] r1 r2 = true) (sorted_rows df).
Proof.
  apply stable_sort_StronglySorted.
  - apply row_leb_total.
  - apply row_leb_trans.
Qed.

(** The rows of one country in the computed table: in date order, and with
    the differences of their Confirmed, zero where there is none, as
    New_Cases. *)
Lemma new_cases_of_country (l : list Row) country :
  country ≠ NaN →
  StronglySorted (λ r1 r2, row_leb ["Country"; "Date"] r1 r2 = true) l →
  let g := filter (λ r, cell r "Country" = country)
             (zip_with (set_cell "New_Cases") l (new_cases_column l)) in
  StronglySorted date_le g ∧
  (λ r, cell r "New_Cases") <$> g
  = fill (Num 0) <$> diffs None (number_of <$> ((λ r, cell r "Confirmed") <$> g)).
Proof.
  intros Hc Hl. cbn zeta.
  pose proof (length_new_cases_column l) as Hlen.
  rewrite (filter_zip_with_set_cell (λ r, cell r "Country" = country)); [|intros r v|exact Hlen];
    cycle 1.
  { by rewrite cell_set_cell_ne. }
  unfold new_cases_column.
  rewrite (grouped_diff_group "Country" "Confirmed" country ∅ l Hc).
  rewrite lookup_empty.
  set (g0 := filter (λ r, cell r "Country" = country) l).
  replace ((λ r, number_of (cell r "Confirmed")) <$> g0)
    with (number_of <$> ((λ r, cell r "Confirmed") <$> g0))
    by (by rewrite <- list_fmap_compose).
  set (vs := fill (Num 0) <$> diffs None (number_of <$> ((λ r, cell r "Confirmed") <$> g0))).
  assert (Hvs : length vs = length g0).
  { unfold vs. by rewrite length_fmap, length_diffs, !length_fmap. }
  split.
  - apply StronglySorted_zip_with_set_cell.
    { intros r1 r2 v1 v2. unfold date_le. by rewrite !cell_set_cell_ne. }
    eapply (StronglySorted_weaken _ _ (λ r, cell r "Country" = country)).
    + intros r1 r2 H1 H2. apply row_leb_same_country. congruence.
    + apply Forall_forall. by intros r [? _]%list_elem_of_filter.
    + by apply StronglySorted_filter.
  - rewrite (fmap_cell_zip_with_eq "New_Cases" g0 vs Hvs).
    by rewrite (fmap_cell_zip_with_ne "New_Cases" "Confirmed" g0 vs).
Qed.

Lemma mapM_Raise_inv {A B} (f : A → result B) (l : list A) e :
  mapM f l = Raise e → ∃ x, x ∈ l ∧ f x = Raise e.
Proof.
  induction l as [|x l IH]; cbn; [done|].
  destruct (f x) as [y|e'] eqn:Hx; cbn.
  - destruct (mapM f l) as [k|e'']; cbn; [done|].
    intros [= <-]. destruct IH as (x' & Hin & Hx'); [done|].
    exists x'. split; [by right|done].
  - intros [= <-]. exists x. split; [by left|done].
Qed.

(** ** Claims about the loader *)

Section LoaderClaims.

Variable parse_datetime : string → option Z.

(** The frame line 26 leaves, on which lines 29-34 run. *)
Lemma load_data_cases fs df :
  load_data parse_datetime fs = Ok df →
  ∃ f rows1, fs !! data_path = Some (Parsed f) ∧ "Date" ∈ header f ∧
    label <$> rows1 = seq 0 (length (records f)) ∧
    Forall (λ r, datetime64 (cell r "Date") ∧ row_of_file parse_datetime f r) rows1 ∧
    ensure_new_cases (mkDataFrame (header f) rows1) = Ok df.
Proof.
  intros (f & d & Hf & HD & Hd & Hrun)%load_data_inv.
  destruct (dated_rows_spec parse_datetime f d Hd) as [Hlab Hrows].
  by exists f, (zip_with (set_cell "Date") (rows (frame_of f)) (d.*2)).
Qed.

Lemma series_mapM_total {A B} (f : A → result B) (s : Series A) :
  Forall (λ p, ∃ w, f p.2 = Ok w) s → ∃ d, series_mapM f s = Ok d.
Proof.
  unfold series_mapM.
  induction 1 as [|p s [w Hw] _ [d IH]]; [by exists []|].
  exists ((p.1, w) :: d). cbn. rewrite Hw. result_simpl. by rewrite IH.
Qed.

Lemma to_datetime_total f :
  dates_convert parse_datetime f →
  ∃ d, to_datetime parse_datetime ((λ r, (label r, cell r "Date")) <$> rows (frame_of f)) = Ok d.
Proof.
  intros Hconv. apply series_mapM_total.
  rewrite Forall_fmap. apply Forall_lookup. intros i r Hr. cbn.
  cbn [rows frame_of] in Hr. apply list_lookup_imap_Some in Hr as (rec & Hrec & ->).
  unfold dates_convert in Hconv. rewrite Forall_lookup in Hconv.
  exact (Hconv i rec Hrec).
Qed.

Lemma row_of_file_set_New_Cases f r v :
  row_of_file parse_datetime f r → row_of_file parse_datetime f (set_cell "New_Cases" r v).
Proof.
  intros (rec & Hrec & Hdate & Hcells). exists rec. cbn [label set_cell].
  split; [done|]. rewrite cell_set_cell_ne by done. split; [done|].
  intros k Hk1 Hk2. rewrite cell_set_cell_ne by done. auto.
Qed.

(** C5: when the file has neither New_Cases nor Confirmed, the loaded table
    has the lines of the file in their order, a New_Cases column, and
    [Num 0] in it for every row, whatever the other cells are. *)
Theorem load_data_without_Confirmed fs f df :
  fs !! data_path = Some (Parsed f) →
  "New_Cases" ∉ header f → "Confirmed" ∉ header f →
  load_data parse_datetime fs = Ok df →
  columns df = header f ++ ["New_Cases"] ∧
  index df = seq 0 (length (records f)) ∧
  Forall (λ r, cell r "New_Cases" = Num 0 ∧ row_of_file parse_datetime f r) (rows df).
Proof.
  intros Hf HN HC (f' & rows1 & Hf' & HD & Hlab & Hrows & Hrun)%load_data_cases.
  assert (f' = f) as -> by congruence.
  unfold ensure_new_cases in Hrun. rewrite decide_True in Hrun by done.
  rewrite compute_new_cases_no_Confirmed in Hrun by done. injection Hrun as <-.
  unfold setitem_scalar, index. cbn [columns rows].
  split; [unfold add_column; by rewrite decide_False|].
  split.
  - rewrite <- list_fmap_compose. exact Hlab.
  - rewrite Forall_fmap. eapply Forall_impl; [exact Hrows|].
    intros r [_ Hr]. cbn. rewrite cell_set_cell_eq.
    split; [done|]. by apply row_of_file_set_New_Cases.
Qed.

Lemma to_datetime_scalar_Raise v e :
  to_datetime_scalar parse_datetime v = Raise e → e = ValueError.
Proof.
  destruct v as [|z|s|t]; cbn; try done.
  destruct (parse_datetime s); [done|]. by intros [= <-].
Qed.

Lemma to_datetime_Raise f e :
  to_datetime parse_datetime ((λ r, (label r, cell r "Date")) <$> rows (frame_of f)) = Raise e →
  e = ValueError ∧ ¬ dates_convert parse_datetime f.
Proof.
  intros (p & Hin & Hp)%mapM_Raise_inv.
  apply list_elem_of_fmap in Hin as (r & -> & Hr). cbn [snd] in Hp.
  destruct (to_datetime_scalar parse_datetime (cell r "Date")) as [w|e'] eqn:Hw; [done|].
  injection Hp as <-. split; [by eapply to_datetime_scalar_Raise|].
  intros Hconv. cbn [rows frame_of] in Hr.
  apply list_elem_of_lookup in Hr as [i Hi].
  apply list_lookup_imap_Some in Hi as (rec & Hrec & ->).
  unfold dates_convert in Hconv. rewrite Forall_lookup in Hconv.
  destruct (Hconv i rec Hrec) as [w Hw']. unfold cell in Hw. cbn in Hw. congruence.
Qed.

Lemma to_datetime_Ok_convert f d :
  to_datetime parse_datetime ((λ r, (label r, cell r "Date")) <$> rows (frame_of f)) = Ok d →
  dates_convert parse_datetime f.
Proof.
  intros Hd%series_mapM_inv. apply Forall_lookup. intros i rec Hrec.
  assert (Hs : ((λ r, (label r, cell r "Date")) <$> rows (frame_of f)) !! i
               = Some (i, default NaN (rec !! "Date"))).
  { rewrite list_lookup_fmap. cbn [rows frame_of]. rewrite list_lookup_imap, Hrec.
    reflexivity. }
  destruct (Forall2_lookup_l _ _ _ _ _ Hd Hs) as (q & _ & _ & Hq).
  by exists q.2.
Qed.

(** A Date cell that is no date stops the loader at line 26. *)
Lemma load_data_bad_date fs f :
  fs !! data_path = Some (Parsed f) →
  "Date" ∈ header f → ¬ dates_convert parse_datetime f →
  load_data parse_datetime fs = Raise ValueError.
Proof.
  intros Hf HD Hconv. unfold load_data.
  rewrite (read_csv_column fs data_path f "Date") by done. result_simpl.
  rewrite getitem_Ok by done. result_simpl.
  destruct (to_datetime _ _) as [d|e] eqn:Hd.
  - by apply to_datetime_Ok_convert in Hd.
  - by apply to_datetime_Raise in Hd as [-> _].
Qed.

(** The loader succeeds on such a file as soon as it has a Date column whose
    cells convert. *)
Lemma load_data_succeeds_without_Confirmed fs f :
  fs !! data_path = Some (Parsed f) →
  "Date" ∈ header f → dates_convert parse_datetime f →
  ("New_Cases" ∈ header f ∨ "Confirmed" ∉ header f) →
  ∃ df, load_data parse_datetime fs = Ok df ∧
        ∀ k, k ∈ columns df → k = "New_Cases" ∨ k ∈ header f.
Proof.
  intros Hf HD Hconv Hcase. destruct (to_datetime_total f Hconv) as [d Hd].
  unfold load_data. rewrite (read_csv_column fs data_path f "Date") by done.
  result_simpl.
  rewrite getitem_Ok by done. result_simpl. rewrite Hd. result_simpl.
  unfold ensure_new_cases.
  destruct (decide ("New_Cases" ∉ columns (setitem (frame_of f) "Date" d))) as [HN|HN].
  - destruct Hcase as [HN'|HC].
    { exfalso. apply HN. unfold setitem. cbn [columns]. by apply add_column_mono. }
    rewrite compute_new_cases_no_Confirmed; cycle 1.
    { unfold setitem. cbn [columns frame_of]. by rewrite add_column_present. }
    eexists. split; [done|]. unfold setitem_scalar, setitem. cbn [columns frame_of].
    rewrite (add_column_present _ "Date") by done. apply add_column_inv.
  - eexists. split; [done|]. unfold setitem. cbn [columns frame_of].
    rewrite add_column_present by done. auto.
Qed.

(** With Confirmed to difference, the loader succeeds when Country is there
    too and the Confirmed cells are numbers. *)
Lemma load_data_succeeds_with_Confirmed fs f :
  fs !! data_path = Some (Parsed f) →
  "Date" ∈ header f → "Country" ∈ header f → "Confirmed" ∈ header f →
  dates_convert parse_datetime f →
  Forall (λ rec, numeric (default NaN (rec !! "Confirmed"))) (records f) →
  ∃ df, load_data parse_datetime fs = Ok df.
Proof.
  intros Hf HD HC HConf Hconv Hnum. destruct (to_datetime_total f Hconv) as [d Hd].
  destruct (dated_rows_spec parse_datetime f d Hd) as [_ Hrows].
  unfold load_data. rewrite (read_csv_column fs data_path f "Date") by done.
  result_simpl.
  rewrite getitem_Ok by done. result_simpl. rewrite Hd. result_simpl.
  rewrite setitem_positional; cycle 1.
  { rewrite (series_mapM_index _ _ _ Hd). unfold series_index, index.
    by rewrite <- list_fmap_compose. }
  cbn [columns frame_of]. rewrite add_column_present by done.
  unfold ensure_new_cases. case_decide; [|by eexists].
  rewrite compute_new_cases_Ok; [by eexists|done..|].
  cbn [rows frame_of] in *. eapply Forall_impl; [exact Hrows|].
  intros r [_ (rec & Hrec & _ & Hcells)]. rewrite Hcells by done.
  rewrite Forall_lookup in Hnum. eauto.
Qed.

(** C4, as the code has it: nothing checks the schema.  On a file that
    pandas parses into a table, a missing Date column stops the loader with
    the KeyError of line 26, which names Date.  With Date there and Country
    missing, a Date cell that is no date stops it with the ValueError of
    line 26; when the dates convert, the missing Country stops it, with the
    KeyError of line 31, only when New_Cases has to be computed from
    Confirmed; otherwise the loader returns a table without Country. *)
Theorem load_data_missing_column fs f :
  fs !! data_path = Some (Parsed f) → header f ≠ [] →
  ("Date" ∉ header f → load_data parse_datetime fs = Raise (KeyError "Date")) ∧
  ("Date" ∈ header f → "Country" ∉ header f →
   (¬ dates_convert parse_datetime f → load_data parse_datetime fs = Raise ValueError) ∧
   (dates_convert parse_datetime f →
    "New_Cases" ∉ header f → "Confirmed" ∈ header f →
    load_data parse_datetime fs = Raise (KeyError "Country")) ∧
   (dates_convert parse_datetime f →
    ("New_Cases" ∈ header f ∨ "Confirmed" ∉ header f) →
    ∃ df, load_data parse_datetime fs = Ok df ∧ "Country" ∉ columns df)).
Proof.
  intros Hf Hh. split.
  - intros HD. unfold load_data. rewrite (read_csv_Parsed fs data_path f) by done.
    result_simpl. by rewrite getitem_KeyError.
  - intros HD HC. split; [|split].
    + by apply load_data_bad_date.
    + intros Hconv HN HConf.
      destruct (to_datetime_total f Hconv) as [d Hd].
      unfold load_data. rewrite (read_csv_Parsed fs data_path f) by done. result_simpl.
      rewrite getitem_Ok by done. result_simpl. rewrite Hd. result_simpl.
      assert (Hcols : columns (setitem (frame_of f) "Date" d) = header f).
      { unfold setitem. cbn [columns frame_of]. by rewrite add_column_present. }
      unfold ensure_new_cases, compute_new_cases. rewrite !Hcols.
      rewrite decide_True by done. rewrite decide_True by done.
      rewrite sort_values_KeyError_1; [done|]. by rewrite Hcols.
    + intros Hconv Hcase.
      destruct (load_data_succeeds_without_Confirmed fs f Hf HD Hconv Hcase)
        as (df & Hdf & Hcols).
      exists df. split; [done|]. intros [?|?]%Hcols; [done|by apply HC].
Qed.

(** C9: the table that lines 29-34 return is a fixed point of them, both
    through the guard of line 29 and when lines 30-34 are run on it again. *)
Theorem ensure_new_cases_idempotent df0 df1 :
  ensure_new_cases df0 = Ok df1 →
  ensure_new_cases df1 = Ok df1 ∧
  ("New_Cases" ∉ columns df0 → compute_new_cases df1 = Ok df1).
Proof.
  intros Hrun. unfold ensure_new_cases in Hrun.
  destruct (decide ("New_Cases" ∉ columns df0)) as [HN|HN]; cycle 1.
  { injection Hrun as <-. split; [|done].
    unfold ensure_new_cases. by rewrite decide_False. }
  assert (Hcomp : compute_new_cases df1 = Ok df1 ∧ "New_Cases" ∈ columns df1);
    [|destruct Hcomp as [Hcomp HN1]; split; [|done];
      unfold ensure_new_cases; rewrite decide_False; [done|by intros ?]].
  destruct (decide ("Confirmed" ∈ columns df0)) as [HC|HC].
  - apply compute_new_cases_inv in Hrun as (HCo & HD & Hnum & ->); [|done].
    pose proof (length_new_cases_column (sorted_rows df0)) as Hlen.
    split; [|apply add_column_elem_of].
    rewrite compute_new_cases_Ok; cbn [columns rows];
      [|by apply add_column_mono..|]; cycle 1.
    { apply Forall_zip_with_set_cell with (P := λ r, numeric (cell r "Confirmed")).
      - intros r v. by rewrite cell_set_cell_ne.
      - unfold sorted_rows. by rewrite stable_sort_Permutation. }
    rewrite (add_column_present (add_column _ _)) by apply add_column_elem_of.
    f_equal. f_equal.
    set (l0 := sorted_rows df0) in *.
    set (vs := new_cases_column l0) in *.
    assert (Hs : sorted_rows (mkDataFrame (add_column (columns df0) "New_Cases")
                                (zip_with (set_cell "New_Cases") l0 vs))
                 = zip_with (set_cell "New_Cases") l0 vs).
    { unfold sorted_rows at 1. cbn [rows]. apply stable_sort_sorted.
      apply StronglySorted_zip_with_set_cell; [|apply sorted_rows_StronglySorted].
      intros r1 r2 v1 v2. unfold row_leb.
      rewrite lex_compare_set_cell; [done|].
      rewrite !not_elem_of_cons. repeat split; [done..|apply not_elem_of_nil]. }
    rewrite Hs. rewrite (new_cases_column_zip_with l0 vs Hlen).
    apply zip_with_set_cell_twice.
  - rewrite compute_new_cases_no_Confirmed in Hrun by done. injection Hrun as <-.
    split; [|apply add_column_elem_of].
    rewrite compute_new_cases_no_Confirmed; cycle 1.
    { cbn. intros [[=]|?]%add_column_inv. done. }
    unfold setitem_scalar. cbn [columns rows].
    rewrite (add_column_present (add_column _ _)) by apply add_column_elem_of.
    f_equal. f_equal. rewrite <- list_fmap_compose.
    apply list_fmap_ext. intros i r _. cbn. apply set_cell_set_cell.
Qed.

(** C1, within the integers float64 holds: when the file has Confirmed and
    no New_Cases, the loaded table holds every line of the file once; the
    rows of each country are in ascending date order, and where the
    Confirmed of the country lie between 0 and 2^53 their New_Cases is zero
    for the first and [Confirmed[t] - Confirmed[t-1]] for each later one. *)
Theorem load_data_new_cases fs f df country :
  fs !! data_path = Some (Parsed f) →
  "New_Cases" ∉ header f → "Confirmed" ∈ header f →
  load_data parse_datetime fs = Ok df →
  country ≠ NaN →
  let g := filter (λ r, cell r "Country" = country) (rows df) in
  Forall (λ r, exact_count (cell r "Confirmed")) g →
  index df ≡ₚ seq 0 (length (records f)) ∧
  Forall (row_of_file parse_datetime f) (rows df) ∧
  StronglySorted date_le g ∧
  (λ r, cell r "New_Cases") <$> g = new_cases_spec ((λ r, cell r "Confirmed") <$> g).
Proof.
  intros Hf HN HC (f' & rows1 & Hf' & HD & Hlab & Hrows & Hrun)%load_data_cases Hc.
  assert (f' = f) as -> by congruence.
  unfold ensure_new_cases in Hrun. rewrite decide_True in Hrun by done.
  apply compute_new_cases_inv in Hrun as (_ & _ & _ & ->); [|done].
  cbn zeta. cbn [rows]. unfold index. cbn [rows].
  set (df1 := mkDataFrame (header f) rows1).
  pose proof (length_new_cases_column (sorted_rows df1)) as Hlen.
  intros Hb. split; [|split].
  - rewrite zip_with_label by done. unfold sorted_rows.
    rewrite stable_sort_Permutation. cbn [rows df1]. by rewrite Hlab.
  - apply Forall_zip_with_set_cell with (P := row_of_file parse_datetime f).
    + intros r v. apply row_of_file_set_New_Cases.
    + unfold sorted_rows. rewrite stable_sort_Permutation. cbn [rows df1].
      eapply Forall_impl; [exact Hrows|]. by intros r [_ ?].
  - destruct (new_cases_of_country (sorted_rows df1) country Hc
                (sorted_rows_StronglySorted df1)) as [Hs Hnc].
    split; [done|]. cbn zeta in Hnc. rewrite Hnc.
    apply fill_diffs_new_cases_spec. by rewrite Forall_fmap.
Qed.

End LoaderClaims.

(** ** The script on the store and the functions of the tables *)

Lemma bind_run_Ok {A B} (m : Script A) (k : A → Script B) σ a σ' :
  m σ = (Ok a, σ') → (m ≫= k) σ = k a σ'.
Proof. intros H. unfold mbind, script_bind. by rewrite H. Qed.

Lemma bind_run_Raise {A B} (m : Script A) (k : A → Script B) σ e σ' :
  m σ = (Raise e, σ') → (m ≫= k) σ = (Raise e, σ').
Proof. intros H. unfold mbind, script_bind. by rewrite H. Qed.

Lemma load_name_run x l σ :
  globals σ !! x = Some l → load_name x σ = (Ok l, σ).
Proof. intros H. unfold load_name. by rewrite H. Qed.

Lemma new_run o σ :
  ∃ l σ', new o σ = (Ok l, σ') ∧ extends σ σ' ∧ objects σ' !! l = Some o.
Proof.
  eexists _, _. split; [reflexivity|]. split; [apply (allocates_new o σ)|].
  cbn. by rewrite lookup_insert_eq.
Qed.

Lemma frame_at_run l t σ :
  objects σ !! l = Some (Frame t) → frame_at l σ = (Ok t, σ).
Proof. intros H. unfold frame_at. by rewrite H. Qed.

Lemma column_at_run l s σ :
  objects σ !! l = Some (Column s) → column_at l σ = (Ok s, σ).
Proof. intros H. unfold column_at. by rewrite H. Qed.

Lemma mask_at_run l s σ :
  objects σ !! l = Some (Mask s) → mask_at l σ = (Ok s, σ).
Proof. intros H. unfold mask_at. by rewrite H. Qed.

(** An operation that reads objects, computes and creates one object. *)
Lemma lift_new_run {A} (r : result A) (mk : A → object) σ :
  match r with
  | Ok a => ∃ l σ', (a ← lift r; new (mk a)) σ = (Ok l, σ') ∧ extends σ σ' ∧
                    objects σ' !! l = Some (mk a)
  | Raise e => (a ← lift r; new (mk a)) σ = (Raise e, σ)
  end.
Proof. destruct r as [a|e]; [|done]. apply (new_run (mk a) σ). Qed.

Lemma frame_getitem_run l k t σ :
  objects σ !! l = Some (Frame t) →
  match getitem t k with
  | Ok s => ∃ c σ', frame_getitem l k σ = (Ok c, σ') ∧ extends σ σ' ∧
                    objects σ' !! c = Some (Column s)
  | Raise e => frame_getitem l k σ = (Raise e, σ)
  end.
Proof.
  intros H. unfold frame_getitem. rewrite (bind_run_Ok _ _ _ _ _ (frame_at_run l t σ H)).
  apply (lift_new_run (getitem t k) Column).
Qed.

Lemma column_eq_run l v s σ :
  objects σ !! l = Some (Column s) →
  ∃ c σ', column_eq l v σ = (Ok c, σ') ∧ extends σ σ' ∧
          objects σ' !! c = Some (Mask (series_map (λ x, value_eqb x v) s)).
Proof.
  intros H. unfold column_eq. rewrite (bind_run_Ok _ _ _ _ _ (column_at_run l s σ H)).
  apply new_run.
Qed.

Lemma column_ge_run l t s σ :
  objects σ !! l = Some (Column s) →
  match series_mapM (λ v, ge_timestamp v t) s with
  | Ok m => ∃ c σ', column_ge l t σ = (Ok c, σ') ∧ extends σ σ' ∧
                    objects σ' !! c = Some (Mask m)
  | Raise e => column_ge l t σ = (Raise e, σ)
  end.
Proof.
  intros H. unfold column_ge. rewrite (bind_run_Ok _ _ _ _ _ (column_at_run l s σ H)).
  apply (lift_new_run (series_mapM (λ v, ge_timestamp v t) s) Mask).
Qed.

Lemma column_le_run l t s σ :
  objects σ !! l = Some (Column s) →
  match series_mapM (λ v, le_timestamp v t) s with
  | Ok m => ∃ c σ', column_le l t σ = (Ok c, σ') ∧ extends σ σ' ∧
                    objects σ' !! c = Some (Mask m)
  | Raise e => column_le l t σ = (Raise e, σ)
  end.
Proof.
  intros H. unfold column_le. rewrite (bind_run_Ok _ _ _ _ _ (column_at_run l s σ H)).
  apply (lift_new_run (series_mapM (λ v, le_timestamp v t) s) Mask).
Qed.

Lemma mask_and_run a b x y σ :
  objects σ !! a = Some (Mask x) → objects σ !! b = Some (Mask y) →
  ∃ c σ', mask_and a b σ = (Ok c, σ') ∧ extends σ σ' ∧
          objects σ' !! c = Some (Mask (series_and x y)).
Proof.
  intros Ha Hb. unfold mask_and.
  rewrite (bind_run_Ok _ _ _ _ _ (mask_at_run a x σ Ha)).
  rewrite (bind_run_Ok _ _ _ _ _ (mask_at_run b y σ Hb)).
  apply new_run.
Qed.

Lemma frame_getitem_mask_run l m t b σ :
  objects σ !! l = Some (Frame t) → objects σ !! m = Some (Mask b) →
  match getitem_mask t b with
  | Ok v => ∃ c σ', frame_getitem_mask l m σ = (Ok c, σ') ∧ extends σ σ' ∧
                    objects σ' !! c = Some (Frame v)
  | Raise e => frame_getitem_mask l m σ = (Raise e, σ)
  end.
Proof.
  intros Hl Hm. unfold frame_getitem_mask.
  rewrite (bind_run_Ok _ _ _ _ _ (frame_at_run l t σ Hl)).
  rewrite (bind_run_Ok _ _ _ _ _ (mask_at_run m b σ Hm)).
  apply (lift_new_run (getitem_mask t b) Frame).
Qed.

Lemma deref_inv σ x t :
  deref σ x = Ok t → ∃ l, globals σ !! x = Some l ∧ objects σ !! l = Some (Frame t).
Proof.
  unfold deref. destruct (globals σ !! x) as [l|]; [|done].
  destruct (objects σ !! l) as [[df| |]|] eqn:Hl; try done.
  intros [= <-]. by exists l.
Qed.

(** Lines 73-77 on the store return what [view] returns of the table
    [df_all] is bound to, and raise what it raises. *)
Lemma run_filter_view country date_range σ df_all :
  deref σ "df_all" = Ok df_all →
  match view df_all country date_range with
  | Ok v => (run_filter country date_range σ).1 = Ok () ∧
            deref (run_filter country date_range σ).2 "df" = Ok v
  | Raise e => (run_filter country date_range σ).1 = Raise e
  end.
Proof.
  intros (a & Ha & Hfa)%deref_inv. unfold run_filter, view.
  rewrite !(bind_run_Ok _ _ _ _ _ (load_name_run "df_all" a σ Ha)).
  (* Country *)
  pose proof (frame_getitem_run a "Country" df_all σ Hfa) as Hc.
  destruct (getitem df_all "Country") as [c|e]; cycle 1.
  { by rewrite (bind_run_Raise _ _ _ _ _ Hc). }
  destruct Hc as (lc & σ1 & Hrun & [Hg1 Ho1] & Hlc).
  rewrite (bind_run_Ok _ _ _ _ _ Hrun). result_simpl. clear Hrun.
  destruct (column_eq_run lc country c σ1 Hlc) as (lm1 & σ2 & Hrun & [Hg2 Ho2] & Hlm1).
  rewrite (bind_run_Ok _ _ _ _ _ Hrun). clear Hrun.
  (* Date >= *)
  assert (Ha2 : globals σ2 !! "df_all" = Some a) by congruence.
  rewrite (bind_run_Ok _ _ _ _ _ (load_name_run "df_all" a σ2 Ha2)).
  pose proof (frame_getitem_run a "Date" df_all σ2 (Ho2 _ _ (Ho1 _ _ Hfa))) as Hd.
  destruct (getitem df_all "Date") as [d|e] eqn:HD; cycle 1.
  { by rewrite (bind_run_Raise _ _ _ _ _ Hd). }
  destruct Hd as (ld & σ3 & Hrun & [Hg3 Ho3] & Hld).
  rewrite (bind_run_Ok _ _ _ _ _ Hrun). result_simpl. clear Hrun.
  destruct (py_index date_range 0) as [lower|e]; cycle 1.
  { done. }
  rewrite (bind_run_Ok _ _ _ lower σ3 eq_refl). result_simpl.
  pose proof (column_ge_run ld lower d σ3 Hld) as Hge.
  destruct (series_mapM (λ v, ge_timestamp v lower) d) as [m2|e]; cycle 1.
  { by rewrite (bind_run_Raise _ _ _ _ _ Hge). }
  destruct Hge as (lm2 & σ4 & Hrun & [Hg4 Ho4] & Hlm2).
  rewrite (bind_run_Ok _ _ _ _ _ Hrun). result_simpl. clear Hrun.
  destruct (mask_and_run lm1 lm2 _ _ σ4 (Ho4 _ _ (Ho3 _ _ Hlm1)) Hlm2)
    as (lm12 & σ5 & Hrun & [Hg5 Ho5] & Hlm12).
  rewrite (bind_run_Ok _ _ _ _ _ Hrun). clear Hrun.
  (* Date <= *)
  assert (Ha5 : globals σ5 !! "df_all" = Some a) by congruence.
  rewrite (bind_run_Ok _ _ _ _ _ (load_name_run "df_all" a σ5 Ha5)).
  assert (Hfa5 : objects σ5 !! a = Some (Frame df_all)) by eauto 10.
  pose proof (frame_getitem_run a "Date" df_all σ5 Hfa5) as Hd'.
  rewrite HD in Hd'. destruct Hd' as (ld' & σ6 & Hrun & [Hg6 Ho6] & Hld').
  rewrite (bind_run_Ok _ _ _ _ _ Hrun). result_simpl. clear Hrun.
  destruct (py_index date_range 1) as [upper|e]; cycle 1.
  { done. }
  rewrite (bind_run_Ok _ _ _ upper σ6 eq_refl). result_simpl.
  pose proof (column_le_run ld' upper d σ6 Hld') as Hle.
  destruct (series_mapM (λ v, le_timestamp v upper) d) as [m3|e]; cycle 1.
  { by rewrite (bind_run_Raise _ _ _ _ _ Hle). }
  destruct Hle as (lm3 & σ7 & Hrun & [Hg7 Ho7] & Hlm3).
  rewrite (bind_run_Ok _ _ _ _ _ Hrun). result_simpl. clear Hrun.
  destruct (mask_and_run lm12 lm3 _ _ σ7 (Ho7 _ _ (Ho6 _ _ Hlm12)) Hlm3)
    as (lm & σ8 & Hrun & [Hg8 Ho8] & Hlm).
  rewrite (bind_run_Ok _ _ _ _ _ Hrun). clear Hrun.
  (* df_all[mask] *)
  assert (Hfa8 : objects σ8 !! a = Some (Frame df_all)) by eauto 10.
  pose proof (frame_getitem_mask_run a lm df_all _ σ8 Hfa8 Hlm) as Hv.
  destruct (getitem_mask df_all _) as [v|e]; cycle 1.
  { by rewrite (bind_run_Raise _ _ _ _ _ Hv). }
  destruct Hv as (lv & σ9 & Hrun & _ & Hlv).
  rewrite (bind_run_Ok _ _ _ _ _ Hrun). clear Hrun.
  split; [done|]. unfold deref, store_name. cbn.
  by rewrite lookup_insert_eq, Hlv.
Qed.

Lemma frame_sort_values_run l by_ t σ :
  objects σ !! l = Some (Frame t) →
  match sort_values t by_ with
  | Ok s => ∃ c σ', frame_sort_values l by_ σ = (Ok c, σ') ∧ extends σ σ' ∧
                    objects σ' !! c = Some (Frame s)
  | Raise e => frame_sort_values l by_ σ = (Raise e, σ)
  end.
Proof.
  intros H. unfold frame_sort_values.
  rewrite (bind_run_Ok _ _ _ _ _ (frame_at_run l t σ H)).
  apply (lift_new_run (sort_values t by_) Frame).
Qed.

Lemma frame_groupby_diff_run l key col t σ :
  objects σ !! l = Some (Frame t) →
  match groupby_diff t key col with
  | Ok d => ∃ c σ', frame_groupby_diff l key col σ = (Ok c, σ') ∧ extends σ σ' ∧
                    objects σ' !! c = Some (Column d)
  | Raise e => frame_groupby_diff l key col σ = (Raise e, σ)
  end.
Proof.
  intros H. unfold frame_groupby_diff.
  rewrite (bind_run_Ok _ _ _ _ _ (frame_at_run l t σ H)).
  apply (lift_new_run (groupby_diff t key col) Column).
Qed.

Lemma column_fillna_run l v s σ :
  objects σ !! l = Some (Column s) →
  ∃ c σ', column_fillna l v σ = (Ok c, σ') ∧ extends σ σ' ∧
          objects σ' !! c = Some (Column (fillna s v)).
Proof.
  intros H. unfold column_fillna. rewrite (bind_run_Ok _ _ _ _ _ (column_at_run l s σ H)).
  apply new_run.
Qed.

Lemma frame_setitem_run l k c t s σ :
  objects σ !! l = Some (Frame t) → objects σ !! c = Some (Column s) →
  ∃ σ', frame_setitem l k c σ = (Ok (), σ') ∧ globals σ' = globals σ ∧
        objects σ' !! l = Some (Frame (setitem t k s)).
Proof.
  intros Hl Hc. unfold frame_setitem.
  rewrite (bind_run_Ok _ _ _ _ _ (frame_at_run l t σ Hl)).
  rewrite (bind_run_Ok _ _ _ _ _ (column_at_run c s σ Hc)).
  eexists. split; [reflexivity|]. split; [done|]. cbn. by rewrite lookup_insert_eq.
Qed.

Lemma frame_setitem_scalar_run l k v t σ :
  objects σ !! l = Some (Frame t) →
  ∃ σ', frame_setitem_scalar l k v σ = (Ok (), σ') ∧ globals σ' = globals σ ∧
        objects σ' !! l = Some (Frame (setitem_scalar t k v)).
Proof.
  intros Hl. unfold frame_setitem_scalar.
  rewrite (bind_run_Ok _ _ _ _ _ (frame_at_run l t σ Hl)).
  eexists. split; [reflexivity|]. split; [done|]. cbn. by rewrite lookup_insert_eq.
Qed.

Section ScriptProofs.

Variable parse_datetime : string → option Z.

Lemma column_to_datetime_run l s σ :
  objects σ !! l = Some (Column s) →
  match to_datetime parse_datetime s with
  | Ok d => ∃ c σ', column_to_datetime parse_datetime l σ = (Ok c, σ') ∧ extends σ σ' ∧
                    objects σ' !! c = Some (Column d)
  | Raise e => column_to_datetime parse_datetime l σ = (Raise e, σ)
  end.
Proof.
  intros H. unfold column_to_datetime.
  rewrite (bind_run_Ok _ _ _ _ _ (column_at_run l s σ H)).
  apply (lift_new_run (to_datetime parse_datetime s) Column).
Qed.

(** Lines 25-36 on the store return a reference to the table [load_data]
    returns, and raise what it raises. *)
Lemma load_data_script_run fs σ :
  match load_data parse_datetime fs with
  | Ok df => ∃ l σ', load_data_script parse_datetime fs σ = (Ok l, σ') ∧
                     globals σ' = globals σ ∧ objects σ' !! l = Some (Frame df)
  | Raise e => (load_data_script parse_datetime fs σ).1 = Raise e
  end.
Proof.
  unfold load_data, load_data_script.
  destruct (read_csv fs data_path) as [t|e]; [|done]. result_simpl.
  rewrite (bind_run_Ok _ _ _ t σ eq_refl).
  destruct (new_run (Frame t) σ) as (l1 & σ1 & Hrun & [Hg1 Ho1] & Hl1).
  rewrite (bind_run_Ok _ _ _ _ _ Hrun). clear Hrun.
  pose proof (frame_getitem_run l1 "Date" t σ1 Hl1) as Hd.
  destruct (getitem t "Date") as [d|e]; cycle 1.
  { by rewrite (bind_run_Raise _ _ _ _ _ Hd). }
  destruct Hd as (ld & σ2 & Hrun & [Hg2 Ho2] & Hld).
  rewrite (bind_run_Ok _ _ _ _ _ Hrun). result_simpl. clear Hrun.
  pose proof (column_to_datetime_run ld d σ2 Hld) as Hd'.
  destruct (to_datetime parse_datetime d) as [d'|e]; cycle 1.
  { by rewrite (bind_run_Raise _ _ _ _ _ Hd'). }
  destruct Hd' as (ld' & σ3 & Hrun & [Hg3 Ho3] & Hld').
  rewrite (bind_run_Ok _ _ _ _ _ Hrun). result_simpl. clear Hrun.
  destruct (frame_setitem_run l1 "Date" ld' t d' σ3 (Ho3 _ _ (Ho2 _ _ Hl1)) Hld')
    as (σ4 & Hrun & Hg4 & Hl4).
  rewrite (bind_run_Ok _ _ _ _ _ Hrun). clear Hrun.
  rewrite (bind_run_Ok _ _ _ _ _ (frame_at_run l1 _ σ4 Hl4)).
  set (t' := setitem t "Date" d') in *.
  assert (Hg : globals σ4 = globals σ) by congruence.
  unfold ensure_new_cases, compute_new_cases.
  destruct (decide ("New_Cases" ∉ columns t')) as [HN|HN]; cycle 1.
  { by exists l1, σ4. }
  destruct (decide ("Confirmed" ∈ columns t')) as [HC|HC]; cycle 1.
  { destruct (frame_setitem_scalar_run l1 "New_Cases" (Num 0) t' σ4 Hl4)
      as (σ5 & Hrun & Hg5 & Hl5).
    rewrite (bind_run_Ok _ _ _ _ _ Hrun). exists l1, σ5.
    split; [done|]. split; [congruence|done]. }
  pose proof (frame_sort_values_run l1 ["Country"; "Date"] t' σ4 Hl4) as Hs.
  destruct (sort_values t' ["Country"; "Date"]) as [s|e]; cycle 1.
  { by rewrite (bind_run_Raise _ _ _ _ _ Hs). }
  destruct Hs as (ls & σ5 & Hrun & [Hg5 Ho5] & Hls).
  rewrite (bind_run_Ok _ _ _ _ _ Hrun). result_simpl. clear Hrun.
  pose proof (frame_groupby_diff_run ls "Country" "Confirmed" s σ5 Hls) as Hgd.
  destruct (groupby_diff s "Country" "Confirmed") as [g|e]; cycle 1.
  { by rewrite (bind_run_Raise _ _ _ _ _ Hgd). }
  destruct Hgd as (lg & σ6 & Hrun & [Hg6 Ho6] & Hlg).
  rewrite (bind_run_Ok _ _ _ _ _ Hrun). result_simpl. clear Hrun.
  destruct (column_fillna_run lg (Num 0) g σ6 Hlg) as (lg' & σ7 & Hrun & [Hg7 Ho7] & Hlg').
  rewrite (bind_run_Ok _ _ _ _ _ Hrun). clear Hrun.
  destruct (frame_setitem_run ls "New_Cases" lg' s _ σ7 (Ho7 _ _ (Ho6 _ _ Hls)) Hlg')
    as (σ8 & Hrun & Hg8 & Hl8).
  rewrite (bind_run_Ok _ _ _ _ _ Hrun). exists ls, σ8.
  split; [done|]. split; [congruence|done].
Qed.

(** Line 38 binds [df_all] to the table [load_data] returns. *)
Lemma run_load_load_data fs σ :
  match load_data parse_datetime fs with
  | Ok df => (run_load parse_datetime fs σ).1 = Ok () ∧
             deref (run_load parse_datetime fs σ).2 "df_all" = Ok df
  | Raise e => (run_load parse_datetime fs σ).1 = Raise e
  end.
Proof.
  pose proof (load_data_script_run fs σ) as H. unfold run_load.
  destruct (load_data parse_datetime fs) as [df|e].
  - destruct H as (l & σ' & Hrun & _ & Hl). rewrite (bind_run_Ok _ _ _ _ _ Hrun).
    split; [done|]. unfold deref, store_name. cbn. by rewrite lookup_insert_eq, Hl.
  - unfold mbind, script_bind.
    destruct (load_data_script parse_datetime fs σ) as [[l|e'] σ']; cbn in *;
      [discriminate H|by injection H as ->].
Qed.

End ScriptProofs.

(** ** The loader on the sample files *)

Ltac by_evaluation := vm_compute; reflexivity.
Ltac decide_by_evaluation := apply (bool_decide_unpack _); vm_compute; exact I.

Lemma load_four_days : load_data iso_date (disk four_days) = Ok four_days_table.
Proof. by_evaluation. Qed.

Lemma load_no_country : load_data iso_date (disk no_country) = Ok no_country_table.
Proof. by_evaluation. Qed.

Lemma load_no_date : load_data iso_date (disk no_date) = Raise (KeyError "Date").
Proof. by_evaluation. Qed.

Lemma ensure_two_countries : ensure_new_cases two_countries_dated = Ok two_countries_table.
Proof. by_evaluation. Qed.

Lemma run_load_two_countries :
  (run_load iso_date (disk two_countries) (mkSession ∅ ∅)).1 = Ok () ∧
  deref loaded_session "df_all" = load_data iso_date (disk two_countries).
Proof. split; by_evaluation. Qed.

Lemma load_undated_line :
  load_data iso_date (disk undated_line) = Ok undated_line_table.
Proof. by_evaluation. Qed.

Lemma run_filter_frame_witness :
  (run_filter (Str "Peru") [18322; 18323] loaded_session).1 = Ok () ∧
  deref loaded_session "df_all" = Ok two_countries_table ∧
  deref filtered_session "df_all" = Ok two_countries_table ∧
  ∃ l, globals filtered_session !! "df" = Some l ∧ objects loaded_session !! l = None.
Proof.
  assert (Hrun : (run_filter (Str "Peru") [18322; 18323] loaded_session).1 = Ok ())
    by by_evaluation.
  assert (Hall : deref loaded_session "df_all" = Ok two_countries_table) by by_evaluation.
  destruct (run_filter_frame (Str "Peru") [18322; 18323] loaded_session)
    as (_ & _ & Hderef & Hdf).
  split; [exact Hrun|]. split; [exact Hall|].
  split; [exact (Hderef _ Hall)|exact (Hdf Hrun)].
Defined.

Lemma run_filter_peru :
  (run_filter (Str "Peru") [18322; 18323] loaded_session).1 = Ok () ∧
  deref filtered_session "df" = view two_countries_table (Str "Peru") [18322; 18323] ∧
  deref filtered_session "df_all" = Ok two_countries_table.
Proof. repeat split; by_evaluation. Qed.

Lemma load_data_new_cases_witness :
  disk four_days !! data_path = Some (Parsed four_days) ∧
  ("New_Cases" ∉ header four_days) ∧ "Confirmed" ∈ header four_days ∧
  load_data iso_date (disk four_days) = Ok four_days_table ∧
  Str "Peru" ≠ NaN ∧
  Forall (λ r, exact_count (cell r "Confirmed")) (rows four_days_table) ∧
  (λ r, cell r "Confirmed") <$> rows four_days_table = [Num 10; Num 15; Num 15; Num 22] ∧
  (λ r, cell r "New_Cases") <$> rows four_days_table = [Num 0; Num 5; Num 0; Num 7].
Proof.
  assert (H1 : disk four_days !! data_path = Some (Parsed four_days)) by by_evaluation.
  assert (H2 : "New_Cases" ∉ header four_days) by decide_by_evaluation.
  assert (H3 : "Confirmed" ∈ header four_days) by decide_by_evaluation.
  assert (H5 : Str "Peru" ≠ NaN) by discriminate.
  assert (H6 : Forall (λ r, exact_count (cell r "Confirmed")) (rows four_days_table))
    by decide_by_evaluation.
  assert (Hg : filter (λ r, cell r "Country" = Str "Peru") (rows four_days_table)
               = rows four_days_table) by by_evaluation.
  repeat (split; [assumption || exact load_four_days|]).
  split; [by_evaluation|].
  pose proof (load_data_new_cases iso_date (disk four_days) four_days four_days_table
                (Str "Peru") H1 H2 H3 load_four_days H5) as Hclaim.
  cbv zeta in Hclaim. rewrite Hg in Hclaim.
  destruct (Hclaim H6) as (_ & _ & _ & Hnc).
  rewrite Hnc. by_evaluation.
Defined.

(** C1 as stated fails beyond 2^53: for Confirmed 0 and 2^53 + 1 on two
    consecutive days the loader computes 2^53, which is not their
    difference. *)
Lemma load_data_new_cases_rounded :
  ("New_Cases" ∉ header large_counts) ∧ "Confirmed" ∈ header large_counts ∧
  ∃ df, load_data iso_date (disk large_counts) = Ok df ∧
    let g := filter (λ r, cell r "Country" = Str "Peru") (rows df) in
    (λ r, cell r "Confirmed") <$> g = [Num 0; Num 9007199254740993] ∧
    (λ r, cell r "New_Cases") <$> g = [Num 0; Num 9007199254740992] ∧
    (λ r, cell r "New_Cases") <$> g ≠ new_cases_spec ((λ r, cell r "Confirmed") <$> g).
Proof.
  split; [decide_by_evaluation|]. split; [decide_by_evaluation|].
  exists large_counts_table. split; [by_evaluation|]. cbv zeta.
  split; [by_evaluation|]. split; [by_evaluation|].
  vm_compute. discriminate.
Qed.

Lemma load_data_without_Confirmed_witness :
  disk no_country !! data_path = Some (Parsed no_country) ∧
  ("New_Cases" ∉ header no_country) ∧ ("Confirmed" ∉ header no_country) ∧
  load_data iso_date (disk no_country) = Ok no_country_table ∧
  columns no_country_table = header no_country ++ ["New_Cases"] ∧
  index no_country_table = seq 0 (length (records no_country)) ∧
  Forall (λ r, cell r "New_Cases" = Num 0 ∧ row_of_file iso_date no_country r)
         (rows no_country_table).
Proof.
  assert (H1 : disk no_country !! data_path = Some (Parsed no_country)) by by_evaluation.
  assert (H2 : "New_Cases" ∉ header no_country) by decide_by_evaluation.
  assert (H3 : "Confirmed" ∉ header no_country) by decide_by_evaluation.
  repeat (split; [assumption || exact load_no_country|]).
  exact (load_data_without_Confirmed iso_date (disk no_country) no_country no_country_table
           H1 H2 H3 load_no_country).
Defined.

(** C4 as stated fails: [no_country] has no Country column, and the loader
    returns a table for it. *)
Lemma load_data_without_Country_succeeds :
  ("Country" ∉ header no_country) ∧
  load_data iso_date (disk no_country) = Ok no_country_table ∧
  ¬ ∃ e, load_data iso_date (disk no_country) = Raise e.
Proof.
  split; [decide_by_evaluation|]. split; [exact load_no_country|].
  intros [e He]. rewrite load_no_country in He. discriminate.
Qed.

Lemma load_data_missing_column_witness :
  disk no_date !! data_path = Some (Parsed no_date) ∧
  ("Date" ∉ header no_date) ∧
  load_data iso_date (disk no_date) = Raise (KeyError "Date").
Proof.
  assert (H1 : disk no_date !! data_path = Some (Parsed no_date)) by by_evaluation.
  assert (H0 : header no_date ≠ []) by (vm_compute; discriminate).
  assert (H2 : "Date" ∉ header no_date) by decide_by_evaluation.
  split; [exact H1|]. split; [exact H2|].
  destruct (load_data_missing_column iso_date (disk no_date) no_date H1 H0) as (Hdate & _).
  exact (Hdate H2).
Defined.

Lemma ensure_new_cases_idempotent_witness :
  ensure_new_cases two_countries_dated = Ok two_countries_table ∧
  ("New_Cases" ∉ columns two_countries_dated) ∧
  ensure_new_cases two_countries_table = Ok two_countries_table ∧
  compute_new_cases two_countries_table = Ok two_countries_table.
Proof.
  assert (H2 : "New_Cases" ∉ columns two_countries_dated) by decide_by_evaluation.
  split; [exact ensure_two_countries|]. split; [exact H2|].
  destruct (ensure_new_cases_idempotent two_countries_dated two_countries_table
              ensure_two_countries) as [Hguard Hagain].
  split; [exact Hguard|exact (Hagain H2)].
Defined.

(** ** The loaded table is an Observation Table *)

Section LoadedTable.

Variable parse_datetime : string → option Z.

Lemma ensure_new_cases_columns df0 df1 :
  ensure_new_cases df0 = Ok df1 →
  "Date" ∈ columns df0 →
  Forall (λ r, datetime64 (cell r "Date")) (rows df0) →
  "Date" ∈ columns df1 ∧ "New_Cases" ∈ columns df1 ∧
  Forall (λ r, datetime64 (cell r "Date")) (rows df1).
Proof.
  intros Hrun HD Hdt. unfold ensure_new_cases in Hrun.
  destruct (decide ("New_Cases" ∉ columns df0)) as [HN|HN]; cycle 1.
  { injection Hrun as <-. split; [done|]. split; [|done].
    by destruct (decide ("New_Cases" ∈ columns df0)). }
  destruct (decide ("Confirmed" ∈ columns df0)) as [HC|HC].
  - apply compute_new_cases_inv in Hrun as (_ & _ & _ & ->); [|done].
    cbn [columns rows]. split; [by apply add_column_mono|].
    split; [apply add_column_elem_of|].
    apply Forall_zip_with_set_cell with (P := λ r, datetime64 (cell r "Date")).
    + intros r v. by rewrite cell_set_cell_ne.
    + unfold sorted_rows. by rewrite stable_sort_Permutation.
  - rewrite compute_new_cases_no_Confirmed in Hrun by done. injection Hrun as <-.
    unfold setitem_scalar. cbn [columns rows]. split; [by apply add_column_mono|].
    split; [apply add_column_elem_of|].
    rewrite Forall_fmap. eapply Forall_impl; [exact Hdt|].
    intros r Hr. cbn. by rewrite cell_set_cell_ne.
Qed.

(** What the filter and the metrics rely on holds of every table the
    loader returns with a Country column. *)
Lemma load_data_ObservationTable fs df :
  load_data parse_datetime fs = Ok df →
  "Country" ∈ columns df → ObservationTable df.
Proof.
  intros (f & rows1 & _ & HD & _ & Hrows & Hrun)%load_data_cases HC.
  apply ensure_new_cases_columns in Hrun as (? & ? & ?); [done|done|].
  cbn [rows]. eapply Forall_impl; [exact Hrows|]. by intros r [? _].
Qed.

End LoadedTable.

(** * Further properties *)

(** ** The filter: date range, monotonicity, composition *)

Lemma view_cons_cons df country lower upper rest :
  view df country (lower :: upper :: rest) = view df country [lower; upper].
Proof. reflexivity. Qed.

Lemma view_date_range_length_aux df country date_range :
  ObservationTable df →
  match date_range with
  | lower :: upper :: _ =>
      view df country date_range
      = Ok (mkDataFrame (columns df) (filter (selected country lower upper) (rows df)))
  | _ => view df country date_range = Raise IndexError
  end.
Proof.
  intros Hdf. destruct date_range as [|lower [|upper rest]].
  - destruct Hdf as (HC & HD & _). unfold view. by rewrite !getitem_Ok.
  - destruct Hdf as (HC & HD & _ & Hdt). unfold view.
    rewrite !getitem_Ok by done. result_simpl. cbn [py_index lookup list_lookup].
    result_simpl.
    rewrite (series_mapM_Ok (λ v, ge_timestamp v lower) (ge_b lower)); [done|].
    rewrite Forall_fmap. eapply Forall_impl; [exact Hdt|].
    intros r Hr. cbn. by apply ge_timestamp_datetime64.
  - rewrite view_cons_cons. by apply view_selected.
Qed.

(** X1: on an Observation Table the filter fails exactly when the date
    picker returned fewer than two dates (one date is what it returns while
    a range is being picked), and then with IndexError; dates after the
    second are ignored. *)
Theorem view_date_range_length df country date_range :
  ObservationTable df →
  match date_range with
  | lower :: upper :: _ =>
      view df country date_range
      = Ok (mkDataFrame (columns df) (filter (selected country lower upper) (rows df)))
  | _ => view df country date_range = Raise IndexError
  end.
Proof. apply view_date_range_length_aux. Qed.

Lemma view_date_range_length_witness :
  ObservationTable two_countries_table ∧
  view two_countries_table (Str "Peru") [18322] = Raise IndexError.
Proof.
  split; [exact two_countries_ObservationTable|].
  exact (view_date_range_length two_countries_table (Str "Peru") [18322]
           two_countries_ObservationTable).
Defined.

Lemma sublist_filter_impl {A} (P Q : A → Prop)
    `{!∀ x, Decision (P x), !∀ x, Decision (Q x)} (l : list A) :
  (∀ x, P x → Q x) → filter P l `sublist_of` filter Q l.
Proof.
  intros HPQ. rewrite <- (list_filter_filter_l P Q l HPQ). apply sublist_filter.
Qed.

(** X2: widening the date range never loses a row: the View of a range is
    a subsequence of the View of every range that contains it. *)
Theorem view_monotone df country lower upper lower' upper' :
  ObservationTable df →
  lower' ≤ lower → upper ≤ upper' →
  ∃ v v', view df country [lower; upper] = Ok v ∧
          view df country [lower'; upper'] = Ok v' ∧
          rows v `sublist_of` rows v'.
Proof.
  intros Hdf Hlo Hhi. do 2 eexists.
  split; [by apply view_selected|]. split; [by apply view_selected|].
  cbn [rows]. apply sublist_filter_impl. intros r [Hc Hd]. split; [done|].
  unfold dated_within in *. destruct (cell r "Date"); try done. lia.
Qed.

Lemma view_monotone_witness :
  ObservationTable two_countries_table ∧ 18322 ≤ 18323 ∧ 18323 ≤ 18324 ∧
  ∃ v v', view two_countries_table (Str "Peru") [18323; 18323] = Ok v ∧
          view two_countries_table (Str "Peru") [18322; 18324] = Ok v' ∧
          rows v `sublist_of` rows v'.
Proof.
  split; [exact two_countries_ObservationTable|]. split; [lia|]. split; [lia|].
  apply (view_monotone two_countries_table (Str "Peru") 18323 18323 18322 18324);
    [exact two_countries_ObservationTable | lia | lia].
Defined.

Lemma view_ObservationTable df country lower upper v :
  ObservationTable df → view df country [lower; upper] = Ok v → ObservationTable v.
Proof.
  intros Hdf Hv. rewrite view_selected in Hv by done. injection Hv as <-.
  destruct Hdf as (? & ? & ? & Hdt). do 3 (split; [done|]). cbn [rows].
  apply Forall_forall. intros r [_ Hr]%list_elem_of_filter.
  rewrite Forall_forall in Hdt. auto.
Qed.

(** X3: a View is an Observation Table again, and filtering it with the
    selection that made it returns it unchanged. *)
Theorem view_idempotent df country lower upper v :
  ObservationTable df →
  view df country [lower; upper] = Ok v →
  ObservationTable v ∧ view v country [lower; upper] = Ok v.
Proof.
  intros Hdf Hv.
  pose proof (view_ObservationTable _ _ _ _ _ Hdf Hv) as Hobs.
  split; [done|]. rewrite view_selected by done.
  rewrite view_selected in Hv by done. injection Hv as <-. cbn [columns rows].
  do 2 f_equal. apply list_filter_filter_l. auto.
Qed.

Lemma view_idempotent_witness :
  ObservationTable two_countries_table ∧
  ∃ v, view two_countries_table (Str "Peru") [18322; 18323] = Ok v ∧
       ObservationTable v ∧ view v (Str "Peru") [18322; 18323] = Ok v.
Proof.
  split; [exact two_countries_ObservationTable|].
  destruct (view two_countries_table (Str "Peru") [18322; 18323]) as [v|e] eqn:Hv.
  - exists v. split; [done|].
    exact (view_idempotent two_countries_table (Str "Peru") 18322 18323 v
             two_countries_ObservationTable Hv).
  - exfalso. rewrite view_selected in Hv by exact two_countries_ObservationTable.
    discriminate.
Defined.

Lemma filter_split_Permutation {A} (P P1 P2 : A → Prop)
    `{!∀ x, Decision (P x), !∀ x, Decision (P1 x), !∀ x, Decision (P2 x)} (l : list A) :
  (∀ x, P x ↔ P1 x ∨ P2 x) → (∀ x, P1 x → P2 x → False) →
  filter P l ≡ₚ filter P1 l ++ filter P2 l.
Proof.
  intros Hor Hex. induction l as [|x l IH]; [done|].
  rewrite !filter_cons.
  destruct (decide (P1 x)) as [Ha|Ha], (decide (P2 x)) as [Hb|Hb].
  - by destruct (Hex x).
  - rewrite decide_True by (apply Hor; auto). cbn. by rewrite IH.
  - rewrite decide_True by (apply Hor; auto).
    rewrite IH. apply Permutation_middle.
  - rewrite decide_False; [done|]. intros [?|?]%Hor; done.
Qed.

(** X4: two adjacent date ranges split a View: the rows selected over
    [[lower, upper]] are those selected over [[lower, mid]] together with
    those selected over [[mid + 1, upper]], each row once. *)
Theorem view_adjacent_ranges df country lower mid upper :
  ObservationTable df →
  lower - 1 ≤ mid → mid ≤ upper →
  ∃ v v1 v2, view df country [lower; upper] = Ok v ∧
             view df country [lower; mid] = Ok v1 ∧
             view df country [mid + 1; upper] = Ok v2 ∧
             rows v ≡ₚ rows v1 ++ rows v2.
Proof.
  intros Hdf Hlo Hhi. do 3 eexists.
  do 3 (split; [by apply view_selected|]). cbn [rows].
  apply filter_split_Permutation.
  - intros r. unfold selected, dated_within.
    destruct (cell r "Date"); try tauto.
    destruct (decide (t ≤ mid)); split; intros H; intuition lia.
  - intros r [_ H1] [_ H2]. unfold dated_within in *.
    destruct (cell r "Date"); try done. lia.
Qed.

Lemma view_adjacent_ranges_witness :
  ObservationTable two_countries_table ∧ 18322 - 1 ≤ 18322 ∧ 18322 ≤ 18324 ∧
  ∃ v v1 v2, view two_countries_table (Str "Peru") [18322; 18324] = Ok v ∧
             view two_countries_table (Str "Peru") [18322; 18322] = Ok v1 ∧
             view two_countries_table (Str "Peru") [18322 + 1; 18324] = Ok v2 ∧
             rows v ≡ₚ rows v1 ++ rows v2.
Proof.
  split; [exact two_countries_ObservationTable|]. split; [lia|]. split; [lia|].
  apply (view_adjacent_ranges two_countries_table (Str "Peru") 18322 18322 18324);
    [exact two_countries_ObservationTable | lia | lia].
Defined.

(** ** The headline metrics on a View with rows *)

Lemma list_max_Some xs m :
  list_max xs = Some m → m ∈ xs ∧ ∀ x, x ∈ xs → x ≤ m.
Proof.
  destruct xs as [|x xs]; [done|]. cbn. intros [= <-].
  induction xs as [|y xs [IH1 IH2]]; cbn.
  - split; [by left|]. intros z ->%list_elem_of_singleton. lia.
  - split.
    + destruct (Z.max_spec y (foldr Z.max x xs)) as [[_ ->]|[_ ->]].
      * apply elem_of_cons in IH1 as [->|?]; [by left|]. right. by right.
      * right. by left.
    + intros z [->|[->|Hz]%elem_of_cons]%elem_of_cons.
      * specialize (IH2 x (list_elem_of_here _ _)). lia.
      * lia.
      * specialize (IH2 z (list_elem_of_further _ _ _ Hz)). lia.
Qed.

Lemma list_max_None xs : list_max xs = None ↔ xs = [].
Proof. by destruct xs. Qed.

Lemma list_min_Some xs m :
  list_min xs = Some m → m ∈ xs ∧ ∀ x, x ∈ xs → m ≤ x.
Proof.
  destruct xs as [|x xs]; [done|]. cbn. intros [= <-].
  induction xs as [|y xs [IH1 IH2]]; cbn.
  - split; [by left|]. intros z ->%list_elem_of_singleton. lia.
  - split.
    + destruct (Z.min_spec y (foldr Z.min x xs)) as [[_ ->]|[_ ->]].
      * right. by left.
      * apply elem_of_cons in IH1 as [->|?]; [by left|]. right. by right.
    + intros z [->|[->|Hz]%elem_of_cons]%elem_of_cons.
      * specialize (IH2 x (list_elem_of_here _ _)). lia.
      * lia.
      * specialize (IH2 z (list_elem_of_further _ _ _ Hz)). lia.
Qed.




Lemma elem_of_numbers k df z :
  z ∈ numbers k df ↔ ∃ r, r ∈ rows df ∧ cell r k = Num z.
Proof.
  unfold numbers. rewrite list_elem_of_omap. split.
  - intros (r & Hr & Hz). exists r. split; [done|].
    destruct (cell r k); cbn in Hz; congruence.
  - intros (r & Hr & Hz). exists r. split; [done|]. by rewrite Hz.
Qed.

Lemma elem_of_dates df t :
  t ∈ dates df ↔ ∃ r, r ∈ rows df ∧ cell r "Date" = Timestamp t.
Proof.
  unfold dates. rewrite list_elem_of_omap. split.
  - intros (r & Hr & Hz). exists r. split; [done|].
    destruct (cell r "Date"); cbn in Hz; congruence.
  - intros (r & Hr & Hz). exists r. split; [done|]. by rewrite Hz.
Qed.

Lemma list_max_greatest_of k df m :
  list_max (numbers k df) = Some m → greatest_of k df m.
Proof.
  intros [Hin Hle]%list_max_Some. split; [by apply elem_of_numbers|].
  intros r z Hr Hz. apply Hle, elem_of_numbers. eauto.
Qed.

Lemma omap_id_fmap {A B} (g : A → option B) (l : list A) :
  omap id (g <$> l) = omap g l.
Proof. induction l as [|x l IH]; [done|]. cbn. rewrite IH. by destruct (g x). Qed.

Lemma present_column_inv df k xs :
  present ((λ r, (label r, cell r k)) <$> rows df) = Ok xs →
  xs = numbers k df ∧ Forall (λ r, numeric (cell r k)) (rows df).
Proof.
  unfold present, numbers. destruct (mapM _ _) as [ys|] eqn:Hys; [|done].
  result_simpl. intros [= <-]. apply mapM_Ok_inv in Hys.
  rewrite Forall2_fmap_l in Hys.
  induction Hys as [|r y l ys Hr _ [IH1 IH2]]; [done|].
  cbn in Hr. apply as_number_Ok in Hr as [Hn ->].
  split; [|by constructor]. cbn. rewrite IH1. by destruct (number_of (cell r k)).
Qed.

Lemma present_column_Ok df k :
  Forall (λ r, numeric (cell r k)) (rows df) →
  present ((λ r, (label r, cell r k)) <$> rows df) = Ok (numbers k df).
Proof.
  intros Hn. unfold present, numbers.
  rewrite (mapM_Ok _ (λ p, number_of p.2)); cycle 1.
  { rewrite Forall_fmap. eapply Forall_impl; [exact Hn|].
    intros r Hr. cbn. by apply as_number_numeric. }
  result_simpl. f_equal. rewrite <- list_fmap_compose. apply omap_id_fmap.
Qed.

Lemma timestamps_column_inv df ts :
  timestamps ((λ r, (label r, cell r "Date")) <$> rows df) = Ok ts →
  ts = dates df ∧ Forall (λ r, datetime64 (cell r "Date")) (rows df).
Proof.
  unfold timestamps, dates. destruct (mapM _ _) as [ys|] eqn:Hys; [|done].
  result_simpl. intros [= <-]. apply mapM_Ok_inv in Hys.
  rewrite Forall2_fmap_l in Hys.
  induction Hys as [|r y l ys Hr _ [IH1 IH2]]; [done|].
  assert (Hy : datetime64 (cell r "Date") ∧ y = timestamp_of (cell r "Date")).
  { cbn in Hr. destruct (cell r "Date"); try done; by injection Hr as <-. }
  destruct Hy as [Hdt ->]. split; [|by constructor].
  cbn. rewrite IH1. by destruct (timestamp_of (cell r "Date")).
Qed.

Lemma timestamps_column_Ok df :
  Forall (λ r, datetime64 (cell r "Date")) (rows df) →
  timestamps ((λ r, (label r, cell r "Date")) <$> rows df) = Ok (dates df).
Proof.
  intros Hn. unfold timestamps, dates.
  rewrite (mapM_Ok _ (λ p, timestamp_of p.2)); cycle 1.
  { rewrite Forall_fmap. eapply Forall_impl; [exact Hn|].
    intros r. cbn. by destruct (cell r "Date"). }
  result_simpl. f_equal. rewrite <- list_fmap_compose. apply omap_id_fmap.
Qed.

Lemma omap_fmap_cell {B} (g : value → option B) k (l : list Row) :
  omap g ((λ r, cell r k) <$> l) = omap (λ r, g (cell r k)) l.
Proof. induction l as [|r l IH]; [done|]. cbn. rewrite IH. by destruct (g (cell r k)). Qed.

Lemma column_values k (l : list Row) :
  ((λ r, (label r, cell r k)) <$> l).*2 = (λ r, cell r k) <$> l.
Proof. by rewrite <- list_fmap_compose. Qed.

Lemma series_max_numeric df k :
  Forall (λ r, numeric (cell r k)) (rows df) →
  series_max ((λ r, (label r, cell r k)) <$> rows df)
  = Ok (from_option Num NaN (list_max (numbers k df))).
Proof.
  intros Hn. unfold series_max. cbv zeta. rewrite column_values.
  rewrite decide_True by by rewrite Forall_fmap.
  unfold numbers. by rewrite omap_fmap_cell.
Qed.



Section MetricsValues.

Variable int_of_str : string → option Z.
Variable strftime : Z → string.

Lemma bind_Ok {A B} (k : A → result B) (a : A) : Ok a ≫= k = k a.
Proof. reflexivity. Qed.

Lemma py_int_max_inv xs z :
  py_int int_of_str (from_option Num NaN (list_max xs)) = Ok z → list_max xs = Some z.
Proof. destruct (list_max xs); cbn; [by intros [= <-]|done]. Qed.

(** What the four metrics are when lines 96-99 return.  The mean of line
    98 is there only for a New_Cases column of numbers. *)
Lemma kpi_metrics_inv v s :
  kpi_metrics int_of_str strftime v = Ok s →
  (if decide ("Confirmed" ∈ columns v)
   then ∃ m, series_max ((λ r, (label r, cell r "Confirmed")) <$> rows v) = Ok m ∧
             py_int int_of_str m = Ok (total_cases s)
   else total_cases s = 0) ∧
  Forall (λ r, numeric (cell r "New_Cases")) (rows v) ∧
  list_max (numbers "New_Cases" v) = Some (max_daily s) ∧
  avg_daily s = float64_trunc (float64_div (float64_sum (numbers "New_Cases" v))
                                 (Z.of_nat (length (numbers "New_Cases" v)))) ∧
  ∃ t, list_max (dates v) = Some t ∧ last_date s = strftime t.
Proof.
  unfold kpi_metrics. intros Hrun.
  destruct (if decide ("Confirmed" ∈ columns v) then _ else _) as [total|] eqn:Htotal;
    [|done].
  result_simpl in Hrun.
  destruct (getitem v "New_Cases") as [n|] eqn:Hn; [|done]. result_simpl in Hrun.
  unfold getitem in Hn. case_decide; [|done]. injection Hn as <-.
  destruct (series_max _) as [m|] eqn:Hm; [|done]. result_simpl in Hrun.
  destruct (py_int _ _) as [maxd|] eqn:Hmaxd; [|done]. result_simpl in Hrun.
  destruct (series_mean _) as [q|] eqn:Hq; [|done]. result_simpl in Hrun.
  unfold series_mean in Hq.
  destruct (present _) as [xs|] eqn:Hxs; [|done]. result_simpl in Hq.
  apply present_column_inv in Hxs as [-> Hnum]. injection Hq as <-.
  rewrite series_max_numeric in Hm by done. injection Hm as <-.
  apply py_int_max_inv in Hmaxd.
  destruct (py_int_float _) as [avg|] eqn:Havg; [|done]. result_simpl in Hrun.
  destruct (getitem v "Date") as [d|] eqn:Hd; [|done]. result_simpl in Hrun.
  unfold getitem in Hd. case_decide; [|done]. injection Hd as <-.
  destruct (timestamps _) as [ts|] eqn:Hts; [|done]. result_simpl in Hrun.
  apply timestamps_column_inv in Hts as [-> _].
  destruct (list_max (dates v)) as [t|] eqn:Ht; [|done]. result_simpl in Hrun.
  injection Hrun as <-. cbn [total_cases max_daily avg_daily last_date].
  split.
  { case_decide; [|by injection Htotal as <-].
    unfold getitem in Htotal. rewrite decide_True in Htotal by done.
    result_simpl in Htotal.
    destruct (series_max _) as [m|] eqn:Hm; [|done]. result_simpl in Htotal.
    by exists m. }
  split; [done|]. split; [done|]. split; [|by exists t].
  destruct (numbers "New_Cases" v) as [|x xs] eqn:Hxs; [done|].
  cbn in Havg. by injection Havg as <-.
Qed.

(** X5: on a View whose metric columns hold what their dtype allows, when
    the metrics are returned, "total cases" is the greatest Confirmed of
    the View, or 0 when the View has no Confirmed column, and "max daily
    cases" is the greatest New_Cases of the View.  (Of an object column of
    text, [max] is the greatest string, which [int] parses.) *)
Theorem kpi_metrics_maxima v s :
  MetricsTable v →
  kpi_metrics int_of_str strftime v = Ok s →
  (if decide ("Confirmed" ∈ columns v)
   then greatest_of "Confirmed" v (total_cases s)
   else total_cases s = 0) ∧
  greatest_of "New_Cases" v (max_daily s).
Proof.
  intros (_ & _ & Htyped) (Htotal & _ & Hmax & _)%kpi_metrics_inv.
  split; [|by apply list_max_greatest_of].
  case_decide as HConf; [|done]. destruct Htotal as (m & Hm & Hint).
  rewrite series_max_numeric in Hm; cycle 1.
  { eapply Forall_impl; [exact Htyped|]. intros r (HC & _). by apply HC. }
  injection Hm as <-. by apply list_max_greatest_of, py_int_max_inv.
Qed.


(** X7: "last date" is the formatted greatest date of the View: a row of
    the View has that date and none has a later one. *)
Theorem kpi_metrics_last_date v s :
  kpi_metrics int_of_str strftime v = Ok s →
  ∃ t, last_date s = strftime t ∧
       (∃ r, r ∈ rows v ∧ cell r "Date" = Timestamp t) ∧
       ∀ r t', r ∈ rows v → cell r "Date" = Timestamp t' → t' ≤ t.
Proof.
  intros (_ & _ & _ & _ & t & [Hin Hle]%list_max_Some & Hlast)%kpi_metrics_inv.
  exists t. split; [done|]. split; [by apply elem_of_dates|].
  intros r t' Hr Ht'. apply Hle, elem_of_dates. eauto.
Qed.

Lemma kpi_metrics_outcome v :
  MetricsTable v →
  let complete :=
    ("Confirmed" ∈ columns v → numbers "Confirmed" v ≠ []) ∧
    numbers "New_Cases" v ≠ [] ∧ dates v ≠ [] in
  (complete → ∃ s, kpi_metrics int_of_str strftime v = Ok s) ∧
  (¬ complete → kpi_metrics int_of_str strftime v = Raise ValueError).
Proof.
  intros (HN & HD & Htyped). cbn zeta.
  assert (HnC : "Confirmed" ∈ columns v →
                Forall (λ r, numeric (cell r "Confirmed")) (rows v))
    by (intros HC; eapply Forall_impl; [exact Htyped|]; intros r (? & ? & ?); auto).
  assert (HnN : Forall (λ r, numeric (cell r "New_Cases")) (rows v))
    by (eapply Forall_impl; [exact Htyped|]; by intros r (? & ? & ?)).
  assert (HnD : Forall (λ r, datetime64 (cell r "Date")) (rows v))
    by (eapply Forall_impl; [exact Htyped|]; by intros r (? & ? & ?)).
  assert (Htotal :
    (if decide ("Confirmed" ∈ columns v)
     then c ← getitem v "Confirmed"; m ← series_max c; py_int int_of_str m
     else mret 0)
    = if decide ("Confirmed" ∈ columns v)
      then py_int int_of_str (from_option Num NaN (list_max (numbers "Confirmed" v)))
      else Ok 0).
  { case_decide; [|done]. rewrite getitem_Ok by done. result_simpl.
    by rewrite series_max_numeric by auto. }
  unfold kpi_metrics. rewrite Htotal. clear Htotal.
  rewrite !getitem_Ok by done.
  assert (Hrest : ∀ total,
    (n ← Ok ((λ r, (label r, cell r "New_Cases")) <$> rows v);
     m ← series_max n; maxd ← py_int int_of_str m;
     n ← Ok ((λ r, (label r, cell r "New_Cases")) <$> rows v);
     q ← series_mean n; avg ← py_int_float q;
     d ← Ok ((λ r, (label r, cell r "Date")) <$> rows v);
     ts ← timestamps d;
     last ← match list_max ts with
            | Some t => Ok (strftime t)
            | None => Raise ValueError
            end;
     mret (mkSummary total maxd avg last))
    = match numbers "New_Cases" v, dates v with
      | x :: xs, t :: ts =>
          Ok (mkSummary total (foldr Z.max x xs)
                (float64_trunc (float64_div (float64_sum (x :: xs))
                                  (Z.of_nat (length (x :: xs)))))
                (strftime (foldr Z.max t ts)))
      | _, _ => Raise ValueError
      end).
  { intros total. result_simpl. rewrite series_max_numeric by done.
    unfold series_mean. rewrite present_column_Ok by done. result_simpl.
    rewrite timestamps_column_Ok by done.
    destruct (numbers "New_Cases" v) as [|x xs]; [done|].
    cbn [list_max from_option py_int py_int_float]. result_simpl.
    by destruct (dates v) as [|t ts]. }
  destruct (decide ("Confirmed" ∈ columns v)) as [HC|HC].
  - destruct (numbers "Confirmed" v) as [|c cs] eqn:Hc.
    { split; [by intros [Hc' _]; destruct (Hc' HC)|done]. }
    cbn [list_max from_option py_int]. rewrite bind_Ok. cbv beta. rewrite Hrest.
    destruct (numbers "New_Cases" v) as [|x xs] eqn:Hx.
    { split; [by intros (_ & ? & _)|done]. }
    destruct (dates v) as [|t ts] eqn:Ht.
    { split; [by intros (_ & _ & ?)|done]. }
    split; [by eexists|]. intros Hnot. destruct Hnot. by repeat split.
  - rewrite bind_Ok. cbv beta. rewrite Hrest.
    destruct (numbers "New_Cases" v) as [|x xs] eqn:Hx.
    { split; [by intros (_ & ? & _)|done]. }
    destruct (dates v) as [|t ts] eqn:Ht.
    { split; [by intros (_ & _ & ?)|done]. }
    split; [by eexists|]. intros Hnot. destruct Hnot. by repeat split.
Qed.

(** X8: on a table whose metric columns hold what their dtype allows, the
    metrics are returned exactly when the View has a number in New_Cases, a
    dated row and, if it has a Confirmed column, a number in it; otherwise
    lines 96-99 raise ValueError. *)
Theorem kpi_metrics_returns v :
  MetricsTable v →
  let complete :=
    ("Confirmed" ∈ columns v → numbers "Confirmed" v ≠ []) ∧
    numbers "New_Cases" v ≠ [] ∧ dates v ≠ [] in
  (complete → ∃ s, kpi_metrics int_of_str strftime v = Ok s) ∧
  (¬ complete → kpi_metrics int_of_str strftime v = Raise ValueError).
Proof. apply kpi_metrics_outcome. Qed.

End MetricsValues.

Lemma kpi_metrics_peru : kpi_metrics decimal (λ _, "") peru_view = Ok peru_summary.
Proof. by_evaluation. Qed.

Lemma peru_view_MetricsTable : MetricsTable peru_view.
Proof. decide_by_evaluation. Qed.

Lemma kpi_metrics_maxima_witness :
  MetricsTable peru_view ∧
  kpi_metrics decimal (λ _, "") peru_view = Ok peru_summary ∧
  (if decide ("Confirmed" ∈ columns peru_view)
   then greatest_of "Confirmed" peru_view (total_cases peru_summary)
   else total_cases peru_summary = 0) ∧
  greatest_of "New_Cases" peru_view (max_daily peru_summary).
Proof.
  split; [exact peru_view_MetricsTable|]. split; [exact kpi_metrics_peru|].
  exact (kpi_metrics_maxima decimal (λ _, "") peru_view peru_summary
           peru_view_MetricsTable kpi_metrics_peru).
Defined.


Lemma kpi_metrics_last_date_witness :
  kpi_metrics decimal (λ _, "") peru_view = Ok peru_summary ∧
  ∃ t, last_date peru_summary = (λ _ : Z, "") t ∧
       (∃ r, r ∈ rows peru_view ∧ cell r "Date" = Timestamp t) ∧
       ∀ r t', r ∈ rows peru_view → cell r "Date" = Timestamp t' → t' ≤ t.
Proof.
  split; [exact kpi_metrics_peru|].
  exact (kpi_metrics_last_date decimal (λ _, "") peru_view peru_summary kpi_metrics_peru).
Defined.

Lemma kpi_metrics_returns_witness :
  MetricsTable peru_view ∧
  ∃ s, kpi_metrics decimal (λ _, "") peru_view = Ok s.
Proof.
  split; [exact peru_view_MetricsTable|].
  destruct (kpi_metrics_returns decimal (λ _, "") peru_view peru_view_MetricsTable) as [Hok _].
  apply Hok. split; [intros _|split]; vm_compute; discriminate.
Defined.

(** ** The loader: what it keeps, and how it fails *)

Lemma compute_new_cases_Raise df e :
  compute_new_cases df = Raise e →
  "Confirmed" ∈ columns df ∧
  ((("Country" ∉ columns df) ∧ e = KeyError "Country") ∨
   ("Country" ∈ columns df ∧ ("Date" ∉ columns df) ∧ e = KeyError "Date") ∨
   ("Country" ∈ columns df ∧ "Date" ∈ columns df ∧ e = TypeError ∧
    ¬ Forall (λ r, numeric (cell r "Confirmed")) (rows df))).
Proof.
  intros Hrun.
  destruct (decide ("Confirmed" ∈ columns df)) as [HConf|HConf]; cycle 1.
  { by rewrite compute_new_cases_no_Confirmed in Hrun. }
  split; [done|].
  destruct (decide ("Country" ∈ columns df)) as [HC|HC]; cycle 1.
  { left. split; [done|]. unfold compute_new_cases in Hrun.
    rewrite decide_True in Hrun by done.
    rewrite sort_values_KeyError_1 in Hrun by done. by injection Hrun as <-. }
  destruct (decide ("Date" ∈ columns df)) as [HD|HD]; cycle 1.
  { right. left. do 2 (split; [done|]). unfold compute_new_cases in Hrun.
    rewrite decide_True in Hrun by done.
    rewrite sort_values_KeyError_2 in Hrun by done. by injection Hrun as <-. }
  right. right. do 2 (split; [done|]).
  destruct (decide (Forall (λ r, numeric (cell r "Confirmed")) (rows df))) as [Hnum|Hnum].
  { by rewrite compute_new_cases_Ok in Hrun. }
  split; [|done]. unfold compute_new_cases in Hrun.
  rewrite decide_True in Hrun by done. rewrite sort_values_Ok in Hrun by done.
  result_simpl in Hrun. unfold groupby_diff in Hrun. cbn [columns] in Hrun.
  rewrite !decide_True in Hrun by done.
  destruct (mapM _ _) as [xs|e'] eqn:Hxs; [done|]. result_simpl in Hrun.
  injection Hrun as <-. apply mapM_Raise_inv in Hxs as (r & _ & Hr).
  destruct (as_number (cell r "Confirmed")) as [x|e''] eqn:Hn; [done|].
  result_simpl in Hr. injection Hr as <-.
  destruct (cell r "Confirmed"); cbn in Hn; congruence.
Qed.

Section LoaderOutcome.

Variable parse_datetime : string → option Z.

Lemma dated_rows_lookup f d i r :
  to_datetime parse_datetime ((λ r, (label r, cell r "Date")) <$> rows (frame_of f)) = Ok d →
  zip_with (set_cell "Date") (rows (frame_of f)) (d.*2) !! i = Some r →
  ∃ rec, records f !! i = Some rec ∧ label r = i ∧
         ∀ k, k ≠ "Date" → cell r k = default NaN (rec !! k).
Proof.
  intros _ (r0 & v & -> & Hr0 & _)%lookup_zip_with_Some.
  cbn [rows frame_of] in Hr0.
  apply list_lookup_imap_Some in Hr0 as (rec & Hrec & ->).
  exists rec. split; [done|]. split; [done|].
  intros k Hk. by rewrite cell_set_cell_ne.
Qed.

Lemma dated_rows_length f d :
  to_datetime parse_datetime ((λ r, (label r, cell r "Date")) <$> rows (frame_of f)) = Ok d →
  length (zip_with (set_cell "Date") (rows (frame_of f)) (d.*2)) = length (records f).
Proof.
  intros [Hlab _]%dated_rows_spec. cbn zeta in Hlab.
  apply (f_equal length) in Hlab. by rewrite length_fmap, length_seq in Hlab.
Qed.

Lemma dated_rows_numeric f d :
  to_datetime parse_datetime ((λ r, (label r, cell r "Date")) <$> rows (frame_of f)) = Ok d →
  Forall (λ r, numeric (cell r "Confirmed"))
         (zip_with (set_cell "Date") (rows (frame_of f)) (d.*2))
  ↔ confirmed_numeric f.
Proof.
  intros Hd. unfold confirmed_numeric. rewrite !Forall_lookup. split.
  - intros Hrows i rec Hrec.
    destruct (lookup_lt_is_Some_2 (zip_with (set_cell "Date") (rows (frame_of f)) (d.*2)) i)
      as [r Hr].
    { rewrite (dated_rows_length f d Hd). by eapply lookup_lt_Some. }
    destruct (dated_rows_lookup f d i r Hd Hr) as (rec' & Hrec' & _ & Hcells).
    assert (rec' = rec) as -> by congruence.
    rewrite <- Hcells by done. by eapply Hrows.
  - intros Hrecs i r Hr.
    destruct (dated_rows_lookup f d i r Hd Hr) as (rec & Hrec & _ & Hcells).
    rewrite Hcells by done. by eapply Hrecs.
Qed.

(** X9: the loader fails in these ways only.  Line 25 fails: the file is
    not there (FileNotFoundError), pandas cannot open, decode or parse it
    (the error it raises for the file), or finds no column in it
    (EmptyDataError).  The table has no Date column (KeyError), or a Date
    cell is no date (ValueError).  New_Cases must be computed and Country
    is missing (KeyError), or a Confirmed cell is text (TypeError). *)
Theorem load_data_failures fs e :
  load_data parse_datetime fs = Raise e →
  (fs !! data_path = None ∧ e = FileNotFoundError data_path) ∨
  fs !! data_path = Some (Unreadable e) ∨
  ∃ f, fs !! data_path = Some (Parsed f) ∧
    ((header f = [] ∧ e = EmptyDataError) ∨
     (header f ≠ [] ∧ ("Date" ∉ header f) ∧ e = KeyError "Date") ∨
     ("Date" ∈ header f ∧ ¬ dates_convert parse_datetime f ∧ e = ValueError) ∨
     ("Date" ∈ header f ∧ dates_convert parse_datetime f ∧
      ("New_Cases" ∉ header f) ∧ "Confirmed" ∈ header f ∧
      ((("Country" ∉ header f) ∧ e = KeyError "Country") ∨
       ("Country" ∈ header f ∧ ¬ confirmed_numeric f ∧ e = TypeError)))).
Proof.
  unfold load_data. intros Hrun.
  destruct (fs !! data_path) as [[f|e']|] eqn:Hf; cycle 1.
  { right. left. unfold read_csv in Hrun. rewrite Hf in Hrun. by injection Hrun as <-. }
  { left. split; [done|]. unfold read_csv in Hrun. rewrite Hf in Hrun.
    by injection Hrun as <-. }
  right. right. exists f. split; [done|].
  destruct (decide (header f = [])) as [Hh|Hh].
  { left. split; [done|]. unfold read_csv in Hrun. rewrite Hf, Hh in Hrun.
    by injection Hrun as <-. }
  right. rewrite (read_csv_Parsed fs data_path f Hf Hh) in Hrun. result_simpl in Hrun.
  destruct (decide ("Date" ∈ header f)) as [HD|HD]; cycle 1.
  { left. do 2 (split; [done|]). rewrite getitem_KeyError in Hrun by done.
    by injection Hrun as <-. }
  right. rewrite getitem_Ok in Hrun by done. result_simpl in Hrun.
  destruct (to_datetime _ _) as [d|e'] eqn:Hd; cycle 1.
  { left. result_simpl in Hrun. injection Hrun as <-.
    apply to_datetime_Raise in Hd as [-> ?]. done. }
  right. split; [done|]. split; [by eapply to_datetime_Ok_convert|].
  result_simpl in Hrun. rewrite setitem_positional in Hrun; cycle 1.
  { rewrite (series_mapM_index _ _ _ Hd). unfold series_index, index.
    by rewrite <- list_fmap_compose. }
  cbn [columns frame_of] in Hrun. rewrite add_column_present in Hrun by done.
  unfold ensure_new_cases in Hrun. cbn [columns] in Hrun.
  case_decide as HN; [|done]. split; [done|].
  apply compute_new_cases_Raise in Hrun as [HC Hcases]. cbn [columns rows] in *.
  split; [done|].
  destruct Hcases as [[? ->]|[(_ & ? & _)|(? & _ & -> & Hnum)]]; [by left|done|].
  right. split; [done|]. split; [|done].
  by rewrite <- (dated_rows_numeric f d Hd).
Qed.

(** X10: the loader returns a table exactly when pandas parses the file
    into a table that has a Date column whose cells convert, and that
    either brings New_Cases, or has no Confirmed, or has Country and only
    numbers (or nothing) in Confirmed. *)
Theorem load_data_returns fs :
  (∃ df, load_data parse_datetime fs = Ok df) ↔
  ∃ f, fs !! data_path = Some (Parsed f) ∧ "Date" ∈ header f ∧
       dates_convert parse_datetime f ∧
       ("New_Cases" ∈ header f ∨ ("Confirmed" ∉ header f) ∨
        ("Country" ∈ header f ∧ confirmed_numeric f)).
Proof.
  split.
  - intros [df (f & d & Hf & HD & Hd & Hrun)%load_data_inv].
    exists f. do 2 (split; [done|]). split; [by eapply to_datetime_Ok_convert|].
    destruct (decide ("New_Cases" ∈ header f)) as [HN|HN]; [by left|].
    destruct (decide ("Confirmed" ∈ header f)) as [HC|HC]; [|right; by left].
    right. right. unfold ensure_new_cases in Hrun. cbn [columns] in Hrun.
    rewrite decide_True in Hrun by done.
    apply compute_new_cases_inv in Hrun as (HCo & _ & Hnum & _); [|done].
    split; [done|]. by rewrite <- (dated_rows_numeric f d Hd).
  - intros (f & Hf & HD & Hconv & Hcase).
    destruct (decide ("New_Cases" ∈ header f)) as [HN|HN].
    { destruct (load_data_succeeds_without_Confirmed parse_datetime fs f Hf HD Hconv)
        as (df & Hdf & _); [by left|by exists df]. }
    destruct (decide ("Confirmed" ∈ header f)) as [HC|HC]; cycle 1.
    { destruct (load_data_succeeds_without_Confirmed parse_datetime fs f Hf HD Hconv)
        as (df & Hdf & _); [by right|by exists df]. }
    destruct Hcase as [?|[?|[HCo Hnum]]]; [done..|].
    by apply (load_data_succeeds_with_Confirmed parse_datetime fs f).
Qed.

(** X11: a New_Cases column the file brings is kept as it is: the table
    has the columns and the lines of the file in file order, and every cell
    but the converted Date is the cell of the file; nothing is sorted and
    New_Cases is not recomputed from Confirmed. *)
Theorem load_data_keeps_New_Cases fs f df :
  fs !! data_path = Some (Parsed f) →
  "New_Cases" ∈ header f →
  load_data parse_datetime fs = Ok df →
  columns df = header f ∧
  index df = seq 0 (length (records f)) ∧
  ∀ i r, rows df !! i = Some r →
    ∃ rec, records f !! i = Some rec ∧ label r = i ∧
           ∀ k, k ≠ "Date" → cell r k = default NaN (rec !! k).
Proof.
  intros Hf HN (f' & d & Hf' & HD & Hd & Hrun)%load_data_inv.
  assert (f' = f) as -> by congruence.
  unfold ensure_new_cases in Hrun. cbn [columns] in Hrun.
  rewrite decide_False in Hrun by (by intros ?). injection Hrun as <-.
  split; [done|]. split.
  - by destruct (dated_rows_spec parse_datetime f d Hd) as [Hlab _].
  - intros i r Hr. by eapply dated_rows_lookup.
Qed.

(** X12: every table the loader returns has a New_Cases column and a
    datetime64 Date column; its columns are those of the file, with
    New_Cases added when the file had none; with a Country column it is an
    Observation Table. *)
Theorem load_data_table fs f df :
  fs !! data_path = Some (Parsed f) →
  load_data parse_datetime fs = Ok df →
  "New_Cases" ∈ columns df ∧ "Date" ∈ columns df ∧
  Forall (λ r, datetime64 (cell r "Date")) (rows df) ∧
  columns df = add_column (header f) "New_Cases" ∧
  ("Country" ∈ header f → ObservationTable df).
Proof.
  intros Hf Hrun.
  pose proof Hrun as (f' & rows1 & Hf' & HD & _ & Hrows & Hens)%load_data_cases.
  assert (f' = f) as -> by congruence.
  assert (Hdt : Forall (λ r, datetime64 (cell r "Date")) rows1)
    by (eapply Forall_impl; [exact Hrows|]; by intros r [? _]).
  destruct (ensure_new_cases_columns _ _ Hens HD Hdt) as (HD' & HN' & Hdt').
  do 3 (split; [done|]).
  assert (Hcols : columns df = add_column (header f) "New_Cases").
  { unfold ensure_new_cases in Hens. cbn [columns] in Hens.
    destruct (decide ("New_Cases" ∉ header f)) as [HN|HN].
    - destruct (decide ("Confirmed" ∈ header f)) as [HC|HC].
      + by apply compute_new_cases_inv in Hens as (_ & _ & _ & ->).
      + rewrite compute_new_cases_no_Confirmed in Hens by done. by injection Hens as <-.
    - injection Hens as <-. cbn [columns].
      rewrite add_column_present; [done|]. by destruct (decide ("New_Cases" ∈ header f)). }
  split; [done|]. intros HC.
  apply (load_data_ObservationTable parse_datetime fs df Hrun).
  rewrite Hcols. by apply add_column_mono.
Qed.

End LoaderOutcome.

(** ** The computed New_Cases column *)

Lemma grouped_diff_values last xs :
  Forall (λ v, v = NaN ∨ ∃ z, v = Num z) ((grouped_diff last xs).*2).
Proof.
  revert last. induction xs as [|[[lbl k] x] xs IH]; intros last; [constructor|].
  assert (Hd : ∀ prev, diff_cell prev x = NaN ∨ ∃ z, diff_cell prev x = Num z).
  { intros [[p|]|]; destruct x as [c|]; cbn; eauto. }
  destruct k; cbn; constructor; auto.
Qed.

Lemma new_cases_column_numbers l :
  Forall (λ v, ∃ z, v = Num z) (new_cases_column l).
Proof.
  unfold new_cases_column, fillna, series_map.
  rewrite <- list_fmap_compose.
  pose proof (grouped_diff_values ∅ (keyed "Country" "Confirmed" l)) as H.
  rewrite Forall_fmap in H. rewrite Forall_fmap.
  eapply Forall_impl; [exact H|]. intros [lbl v]. cbn.
  intros [->|[z ->]]; cbn; eauto.
Qed.

Lemma Forall_cell_zip_with k (P : value → Prop) (l : list Row) (vs : list value) :
  Forall P vs → Forall (λ r, P (cell r k)) (zip_with (set_cell k) l vs).
Proof.
  intros Hvs. revert l. induction Hvs as [|v vs Hv _ IH]; intros [|r l]; cbn;
    constructor; [by rewrite cell_set_cell_eq|apply IH].
Qed.

(** The table lines 31-32 make when New_Cases is computed from Confirmed. *)
Lemma ensure_new_cases_computed df0 df :
  "New_Cases" ∉ columns df0 → "Confirmed" ∈ columns df0 →
  ensure_new_cases df0 = Ok df →
  rows df = zip_with (set_cell "New_Cases") (sorted_rows df0)
              (new_cases_column (sorted_rows df0)).
Proof.
  intros HN HC Hrun. unfold ensure_new_cases in Hrun.
  rewrite decide_True in Hrun by done.
  by apply compute_new_cases_inv in Hrun as (_ & _ & _ & ->).
Qed.

Lemma ensure_new_cases_numbers df0 df :
  "New_Cases" ∉ columns df0 →
  ensure_new_cases df0 = Ok df →
  Forall (λ r, ∃ z, cell r "New_Cases" = Num z) (rows df).
Proof.
  intros HN Hrun.
  destruct (decide ("Confirmed" ∈ columns df0)) as [HC|HC].
  - rewrite (ensure_new_cases_computed df0 df HN HC Hrun).
    apply (Forall_cell_zip_with "New_Cases" (λ v, ∃ z, v = Num z)).
    apply new_cases_column_numbers.
  - unfold ensure_new_cases in Hrun. rewrite decide_True in Hrun by done.
    rewrite compute_new_cases_no_Confirmed in Hrun by done. injection Hrun as <-.
    cbn [rows setitem_scalar]. rewrite Forall_fmap. apply Forall_forall.
    intros r _. cbn. rewrite cell_set_cell_eq. by exists 0.
Qed.

Lemma sum_deltas a zs b :
  last (a :: zs) = Some b →
  foldr Z.add 0 (omap number_of (deltas (Num a) (Num <$> zs))) = b - a.
Proof.
  revert a. induction zs as [|z zs IH]; intros a.
  - cbn. intros [= <-]. lia.
  - rewrite last_cons_cons. intros Hb. cbn. rewrite (IH z Hb). lia.
Qed.

Lemma sum_new_cases_spec zs a b :
  head zs = Some a → last zs = Some b →
  foldr Z.add 0 (omap number_of (new_cases_spec (Num <$> zs))) = b - a.
Proof.
  destruct zs as [|z zs]; [done|]. intros [= ->] Hb.
  change (new_cases_spec (Num <$> a :: zs)) with (Num 0 :: deltas (Num a) (Num <$> zs)).
  change (omap number_of (Num 0 :: ?l)) with (0 :: omap number_of l).
  cbn [foldr]. rewrite (sum_deltas a zs b Hb). lia.
Qed.

(** The float64 difference of a count to one that is not greater is not
    negative, whatever is rounded. *)
Lemma diffs_nonneg a zs :
  Sorted Z.le (a :: zs) →
  Forall (λ v, ∃ z, v = Num z ∧ 0 ≤ z)
         (fill (Num 0) <$> diffs (Some (Some a)) (number_of <$> (Num <$> zs))).
Proof.
  revert a. induction zs as [|z zs IH]; intros a Hs; [constructor|].
  apply Sorted_inv in Hs as [Hs Hd]. apply HdRel_inv in Hd.
  cbn. constructor; [|by apply IH]. eexists. split; [done|].
  apply float64_nonneg. pose proof (float64_mono a z Hd). lia.
Qed.

Section ComputedNewCases.

Variable parse_datetime : string → option Z.

Lemma load_data_computed fs f df :
  fs !! data_path = Some (Parsed f) →
  "New_Cases" ∉ header f → "Confirmed" ∈ header f →
  load_data parse_datetime fs = Ok df →
  ∃ l, StronglySorted (λ r1 r2, row_leb ["Country"; "Date"] r1 r2 = true) l ∧
       rows df = zip_with (set_cell "New_Cases") l (new_cases_column l).
Proof.
  intros Hf HN HC (f' & rows1 & Hf' & _ & _ & _ & Hrun)%load_data_cases.
  assert (f' = f) as -> by congruence.
  exists (sorted_rows (mkDataFrame (header f) rows1)).
  split; [apply sorted_rows_StronglySorted|].
  by apply ensure_new_cases_computed.
Qed.

(** X13: a New_Cases column the loader computes has a number in every row;
    no cell of it is missing. *)
Theorem load_data_New_Cases_numbers fs f df :
  fs !! data_path = Some (Parsed f) →
  "New_Cases" ∉ header f →
  load_data parse_datetime fs = Ok df →
  Forall (λ r, ∃ z, cell r "New_Cases" = Num z) (rows df).
Proof.
  intros Hf HN (f' & rows1 & Hf' & _ & _ & _ & Hrun)%load_data_cases.
  assert (f' = f) as -> by congruence.
  by apply (ensure_new_cases_numbers (mkDataFrame (header f) rows1)).
Qed.

(** X14: the computed New_Cases of a country whose Confirmed cells are all
    numbers between 0 and 2^53, which float64 holds exactly, add up to the
    rise of Confirmed from its first to its last date. *)
Theorem load_data_New_Cases_sum fs f df country zs a b :
  fs !! data_path = Some (Parsed f) →
  "New_Cases" ∉ header f → "Confirmed" ∈ header f →
  load_data parse_datetime fs = Ok df →
  country ≠ NaN →
  let g := filter (λ r, cell r "Country" = country) (rows df) in
  (λ r, cell r "Confirmed") <$> g = Num <$> zs →
  Forall (λ z, 0 ≤ z ≤ 2 ^ 53) zs →
  head zs = Some a → last zs = Some b →
  foldr Z.add 0 (omap (λ r, number_of (cell r "New_Cases")) g) = b - a.
Proof.
  intros Hf HN HC Hload Hc.
  destruct (load_data_computed fs f df Hf HN HC Hload) as (l & Hl & Hrows).
  cbn zeta. rewrite Hrows.
  destruct (new_cases_of_country l country Hc Hl) as [_ Hnc]. cbn zeta in Hnc.
  intros Hzs Hbound Ha Hb. rewrite <- omap_fmap_cell, Hnc, Hzs.
  rewrite fill_diffs_new_cases_spec by by rewrite Forall_fmap.
  by apply sum_new_cases_spec.
Qed.

(** X15: where the Confirmed of a country never decreases from one date to
    the next, none of its computed New_Cases is negative. *)
Theorem load_data_New_Cases_nonnegative fs f df country zs :
  fs !! data_path = Some (Parsed f) →
  "New_Cases" ∉ header f → "Confirmed" ∈ header f →
  load_data parse_datetime fs = Ok df →
  country ≠ NaN →
  let g := filter (λ r, cell r "Country" = country) (rows df) in
  (λ r, cell r "Confirmed") <$> g = Num <$> zs →
  Sorted Z.le zs →
  Forall (λ r, ∃ z, cell r "New_Cases" = Num z ∧ 0 ≤ z) g.
Proof.
  intros Hf HN HC Hload Hc.
  destruct (load_data_computed fs f df Hf HN HC Hload) as (l & Hl & Hrows).
  cbn zeta. rewrite Hrows.
  destruct (new_cases_of_country l country Hc Hl) as [_ Hnc]. cbn zeta in Hnc.
  intros Hzs Hsorted.
  apply (Forall_fmap (λ r, cell r "New_Cases") (λ v, ∃ z, v = Num z ∧ 0 ≤ z)).
  rewrite Hnc, Hzs. destruct zs as [|z zs]; [constructor|].
  cbn [diffs fmap list_fmap number_of diff_cell fill].
  constructor; [by exists 0|]. by apply diffs_nonneg.
Qed.

End ComputedNewCases.

(** ** The order of the computed table *)

Lemma insert_sorted_filter {A} (leb : A → A → bool) (E : A → Prop)
    `{!∀ x, Decision (E x)} (x : A) (l : list A) :
  (∀ y, E x → E y → leb x y = true) →
  filter E (insert_sorted leb x l) = filter E (x :: l).
Proof.
  intros HE. induction l as [|y l IH]; [done|]. cbn [insert_sorted].
  destruct (leb x y) eqn:Hxy; [done|].
  rewrite filter_cons, IH, !filter_cons.
  destruct (decide (E y)) as [Hy|Hy], (decide (E x)) as [Hx|Hx]; try done.
  rewrite (HE y Hx Hy) in Hxy. discriminate.
Qed.

(** The sort is stable: rows that compare equal keep their order. *)
Lemma stable_sort_filter {A} (leb : A → A → bool) (E : A → Prop)
    `{!∀ x, Decision (E x)} (l : list A) :
  (∀ x y, E x → E y → leb x y = true) →
  filter E (stable_sort leb l) = filter E l.
Proof.
  intros HE. induction l as [|x l IH]; [done|].
  cbn [stable_sort foldr]. fold (stable_sort leb l).
  rewrite insert_sorted_filter by (intros y; apply HE).
  by rewrite !filter_cons, IH.
Qed.

Lemma StronglySorted_lt_seq j n : StronglySorted lt (seq j n).
Proof.
  revert j. induction n as [|n IH]; intros j; [constructor|].
  cbn. constructor; [apply IH|].
  apply Forall_forall. intros x Hx%elem_of_seq. lia.
Qed.

Lemma StronglySorted_fmap_inv {A B} (f : A → B) (R : relation B) (l : list A) :
  StronglySorted R (f <$> l) → StronglySorted (λ a b, R (f a) (f b)) l.
Proof.
  induction l as [|x l IH]; [constructor|].
  cbn. intros [Hx Hl]%StronglySorted_cons. constructor; [auto|].
  by rewrite Forall_fmap in Hx.
Qed.

Lemma row_leb_same_key r1 r2 :
  cell r1 "Country" = cell r2 "Country" → cell r1 "Date" = cell r2 "Date" →
  row_leb ["Country"; "Date"] r1 r2 = true.
Proof.
  intros Hc Hd. unfold row_leb. cbn. by rewrite Hc, Hd, !value_compare_refl.
Qed.

Section ComputedOrder.

Variable parse_datetime : string → option Z.

Lemma load_data_sorted_rows fs f df :
  fs !! data_path = Some (Parsed f) →
  "New_Cases" ∉ header f → "Confirmed" ∈ header f →
  load_data parse_datetime fs = Ok df →
  ∃ rows1, label <$> rows1 = seq 0 (length (records f)) ∧
    rows df = zip_with (set_cell "New_Cases")
                (stable_sort (row_leb ["Country"; "Date"]) rows1)
                (new_cases_column (stable_sort (row_leb ["Country"; "Date"]) rows1)).
Proof.
  intros Hf HN HC (f' & rows1 & Hf' & _ & Hlab & _ & Hrun)%load_data_cases.
  assert (f' = f) as -> by congruence.
  exists rows1. split; [done|].
  by apply (ensure_new_cases_computed (mkDataFrame (header f) rows1)).
Qed.

(** X16: a table whose New_Cases the loader computed is ordered by Country
    and then Date, missing values last, and the sort is stable: rows with
    the same country and date stand in the order of their lines in the
    file. *)
Theorem load_data_order fs f df :
  fs !! data_path = Some (Parsed f) →
  "New_Cases" ∉ header f → "Confirmed" ∈ header f →
  load_data parse_datetime fs = Ok df →
  StronglySorted (λ r1 r2, row_leb ["Country"; "Date"] r1 r2 = true) (rows df) ∧
  ∀ country date,
    StronglySorted (λ r1 r2, (label r1 < label r2)%nat)
      (filter (λ r, cell r "Country" = country ∧ cell r "Date" = date) (rows df)).
Proof.
  intros Hf HN HC Hload.
  destruct (load_data_sorted_rows fs f df Hf HN HC Hload) as (rows1 & Hlab & ->).
  set (l := stable_sort (row_leb ["Country"; "Date"]) rows1).
  pose proof (length_new_cases_column l) as Hlen.
  split.
  - apply StronglySorted_zip_with_set_cell.
    + intros r1 r2 v1 v2. unfold row_leb.
      rewrite lex_compare_set_cell; [done|].
      rewrite !not_elem_of_cons. repeat split; [done..|apply not_elem_of_nil].
    + apply stable_sort_StronglySorted; [apply row_leb_total|apply row_leb_trans].
  - intros country date.
    rewrite (filter_zip_with_set_cell
               (λ r, cell r "Country" = country ∧ cell r "Date" = date));
      [|intros r v; by rewrite !cell_set_cell_ne|exact Hlen].
    apply StronglySorted_zip_with_set_cell; [done|].
    unfold l. rewrite stable_sort_filter; cycle 1.
    { intros r1 r2 [Hc1 Hd1] [Hc2 Hd2]. apply row_leb_same_key; congruence. }
    apply StronglySorted_filter, StronglySorted_fmap_inv.
    rewrite Hlab. apply StronglySorted_lt_seq.
Qed.

End ComputedOrder.

(** ** From the file to the metrics *)

Section Pipeline.

Variable parse_datetime : string → option Z.
Variable int_of_str : string → option Z.
Variable strftime : Z → string.

Lemma ensure_new_cases_rows_of_file f df0 df :
  Forall (row_of_file parse_datetime f) (rows df0) →
  ensure_new_cases df0 = Ok df →
  Forall (row_of_file parse_datetime f) (rows df).
Proof.
  intros Hrows Hrun. unfold ensure_new_cases in Hrun.
  case_decide as HN; [|by injection Hrun as <-].
  destruct (decide ("Confirmed" ∈ columns df0)) as [HC|HC].
  - apply compute_new_cases_inv in Hrun as (_ & _ & _ & ->); [|done]. cbn [rows].
    apply Forall_zip_with_set_cell with (P := row_of_file parse_datetime f).
    + intros r v. apply row_of_file_set_New_Cases.
    + unfold sorted_rows. by rewrite stable_sort_Permutation.
  - rewrite compute_new_cases_no_Confirmed in Hrun by done. injection Hrun as <-.
    cbn [rows setitem_scalar]. rewrite Forall_fmap.
    eapply Forall_impl; [exact Hrows|]. intros r. apply row_of_file_set_New_Cases.
Qed.

Lemma load_data_rows_of_file fs f df :
  fs !! data_path = Some (Parsed f) →
  load_data parse_datetime fs = Ok df →
  Forall (row_of_file parse_datetime f) (rows df).
Proof.
  intros Hf (f' & rows1 & Hf' & _ & _ & Hrows & Hrun)%load_data_cases.
  assert (f' = f) as -> by congruence.
  eapply ensure_new_cases_rows_of_file; [|exact Hrun]. cbn [rows].
  eapply Forall_impl; [exact Hrows|]. by intros r [_ ?].
Qed.

(** X17: load, filter, metrics: when the file leaves New_Cases to the
    loader, has a Country column and a number in every Confirmed cell (if
    it has that column), the metrics of lines 96-99 are returned for every
    View that has at least one row. *)
Theorem metrics_of_loaded_table fs f df country lower upper v :
  fs !! data_path = Some (Parsed f) →
  "New_Cases" ∉ header f → "Country" ∈ header f →
  ("Confirmed" ∈ header f →
   Forall (λ rec, ∃ z, default NaN (rec !! "Confirmed") = Num z) (records f)) →
  load_data parse_datetime fs = Ok df →
  view df country [lower; upper] = Ok v →
  rows v ≠ [] →
  ∃ s, kpi_metrics int_of_str strftime v = Ok s.
Proof.
  intros Hf HN HCo Hconf Hload Hv Hrows.
  pose proof (load_data_rows_of_file fs f df Hf Hload) as Hfile.
  pose proof Hload as (f' & rows1 & Hf' & _ & _ & _ & Hens)%load_data_cases.
  assert (f' = f) as -> by congruence.
  pose proof (ensure_new_cases_numbers (mkDataFrame (header f) rows1) df HN Hens) as Hnum.
  assert (Hcols : ∀ k, k ∈ columns df → k = "New_Cases" ∨ k ∈ header f).
  { intros k Hk. unfold ensure_new_cases in Hens. cbn [columns] in Hens.
    rewrite decide_True in Hens by done.
    destruct (decide ("Confirmed" ∈ header f)) as [HC|HC].
    - apply compute_new_cases_inv in Hens as (_ & _ & _ & ->); [|done].
      by apply add_column_inv.
    - rewrite compute_new_cases_no_Confirmed in Hens by done. injection Hens as <-.
      by apply add_column_inv. }
  assert (Hobs : ObservationTable df).
  { apply (load_data_ObservationTable parse_datetime fs df Hload).
    unfold ensure_new_cases in Hens. cbn [columns] in Hens.
    rewrite decide_True in Hens by done.
    destruct (decide ("Confirmed" ∈ header f)) as [HC|HC].
    - apply compute_new_cases_inv in Hens as (_ & _ & _ & ->); [|done].
      by apply add_column_mono.
    - rewrite compute_new_cases_no_Confirmed in Hens by done. injection Hens as <-.
      by apply add_column_mono. }
  rewrite view_selected in Hv by done. injection Hv as <-.
  set (v := mkDataFrame (columns df) (filter (selected country lower upper) (rows df))) in *.
  assert (Hconfirmed : "Confirmed" ∈ columns df →
            Forall (λ r, ∃ z, cell r "Confirmed" = Num z) (rows df)).
  { intros [?|HC]%Hcols; [done|].
    eapply Forall_impl; [exact Hfile|]. intros r (rec & Hrec & _ & Hcells).
    rewrite Hcells by done. specialize (Hconf HC).
    rewrite Forall_lookup in Hconf. eauto. }
  destruct (rows v) as [|r rs] eqn:Hr; [done|].
  assert (Hin : r ∈ filter (selected country lower upper) (rows df))
    by (change (r ∈ rows v); rewrite Hr; by left).
  apply list_elem_of_filter in Hin as [[_ Hdated] Hin].
  destruct Hobs as (_ & HD & HNC & Hdt).
  destruct (kpi_metrics_outcome int_of_str strftime v) as [Hok _]; [|apply Hok].
  - split; [done|]. split; [done|]. cbn [rows v].
    apply Forall_forall. intros r' [_ Hr']%list_elem_of_filter.
    rewrite Forall_forall in Hnum, Hdt. split; [|split; [|by apply Hdt]].
    + intros HC. specialize (Hconfirmed HC). rewrite Forall_forall in Hconfirmed.
      destruct (Hconfirmed r' Hr') as [z ->]. done.
    + destruct (Hnum r' Hr') as [z ->]. done.
  - assert (Hrv : r ∈ rows v) by (rewrite Hr; by left).
    split; [|split].
    + intros HC. specialize (Hconfirmed HC). rewrite Forall_forall in Hconfirmed.
      destruct (Hconfirmed r Hin) as [z Hz].
      intros Hnil. assert (z ∈ numbers "Confirmed" v) as Hz' by (apply elem_of_numbers; eauto).
      rewrite Hnil in Hz'. by apply elem_of_nil in Hz'.
    + rewrite Forall_forall in Hnum. destruct (Hnum r Hin) as [z Hz].
      intros Hnil. assert (z ∈ numbers "New_Cases" v) as Hz' by (apply elem_of_numbers; eauto).
      rewrite Hnil in Hz'. by apply elem_of_nil in Hz'.
    + unfold dated_within in Hdated. destruct (cell r "Date") as [| | |t] eqn:Ht; try done.
      intros Hnil. assert (t ∈ dates v) as Hz' by (apply elem_of_dates; eauto).
      rewrite Hnil in Hz'. by apply elem_of_nil in Hz'.
Qed.

End Pipeline.

(** ** The sidebar: country options and the date span *)

Lemma elem_of_unique_from seen l v :
  v ∈ unique_from seen l ↔ v ∈ l ∧ v ∉ seen.
Proof.
  revert seen. induction l as [|x l IH]; intros seen; cbn.
  - rewrite elem_of_nil. tauto.
  - case_decide as Hx.
    + rewrite IH, elem_of_cons. split; [tauto|].
      intros [[->|?] ?]; [done|tauto].
    + rewrite !elem_of_cons, IH, elem_of_union, elem_of_singleton.
      destruct (decide (v = x)) as [->|]; tauto.
Qed.

Lemma NoDup_unique_from seen l : NoDup (unique_from seen l).
Proof.
  revert seen. induction l as [|x l IH]; intros seen; cbn; [constructor|].
  case_decide; [apply IH|]. constructor; [|apply IH].
  rewrite elem_of_unique_from, elem_of_union, elem_of_singleton. tauto.
Qed.

Lemma elem_of_unique l v : v ∈ unique l ↔ v ∈ l.
Proof.
  unfold unique. rewrite elem_of_unique_from. split; [tauto|].
  intros ?. split; [done|apply not_elem_of_empty].
Qed.

Lemma value_le_trans a b c : value_le a b → value_le b c → value_le a c.
Proof.
  unfold value_le.
  destruct (value_compare a b) eqn:Hab; [| |done]; intros _;
    destruct (value_compare b c) eqn:Hbc; [| |done| | |done]; intros _.
  - apply value_compare_eq in Hab as ->. by rewrite Hbc.
  - apply value_compare_eq in Hab as ->. by rewrite Hbc.
  - apply value_compare_eq in Hbc as <-. by rewrite Hab.
  - by rewrite (value_compare_lt_trans _ _ _ Hab Hbc).
Qed.

Lemma py_lt_text y x :
  text y → text x →
  py_lt y x = Ok (bool_decide (value_lt y x)).
Proof.
  destruct y as [| |y|], x as [| |x|]; try done. intros _ _. cbn.
  unfold String.ltb. f_equal.
  case_bool_decide as Hlt; unfold value_lt in Hlt; cbn in Hlt;
    destruct (String.compare y x); congruence.
Qed.

Lemma py_insert_text x l :
  text x → Forall text l → StronglySorted value_le l →
  ∃ l', py_insert x l = Ok l' ∧ l' ≡ₚ x :: l ∧ StronglySorted value_le l'.
Proof.
  intros Hx Hl Hs. induction Hs as [|y l Hs IH Hy]; cbn.
  - exists [x]. split; [done|]. split; [done|]. repeat constructor.
  - apply Forall_cons in Hl as [Hty Hl].
    rewrite py_lt_text by done. result_simpl.
    case_bool_decide as Hlt.
    + destruct (IH Hl) as (l' & -> & Hperm & Hs'). result_simpl.
      exists (y :: l'). split; [done|]. split.
      * rewrite Hperm. apply Permutation_swap.
      * constructor; [done|]. rewrite Hperm. constructor; [|done].
        unfold value_le, value_lt in *. by rewrite Hlt.
    + exists (x :: y :: l). split; [done|]. split; [done|].
      assert (Hxy : value_le x y).
      { unfold value_le, value_lt in *. rewrite (value_compare_antisym y x).
        by destruct (value_compare y x). }
      constructor; [by constructor|]. constructor; [done|].
      eapply Forall_impl; [exact Hy|]. intros z Hz. by eapply value_le_trans.
Qed.

Lemma py_sorted_text l :
  Forall text l →
  ∃ s, py_sorted l = Ok s ∧ s ≡ₚ l ∧ StronglySorted value_le s.
Proof.
  induction 1 as [|x l Hx Hl (s & Hs & Hperm & Hsorted)]; cbn.
  - exists []. split; [done|]. split; [done|constructor].
  - rewrite Hs. result_simpl.
    destruct (py_insert_text x s Hx) as (s' & Hs' & Hperm' & Hsorted');
      [by rewrite Hperm|done|].
    exists s'. split; [done|]. split; [|done]. by rewrite Hperm', Hperm.
Qed.

Lemma StronglySorted_strict l :
  StronglySorted value_le l → NoDup l → StronglySorted value_lt l.
Proof.
  induction 1 as [|x l Hs IH Hx]; intros Hnd; [constructor|].
  apply NoDup_cons in Hnd as [Hnot Hnd]. constructor; [auto|].
  apply Forall_forall. intros y Hy. rewrite Forall_forall in Hx.
  specialize (Hx y Hy). unfold value_le, value_lt in *.
  destruct (value_compare x y) eqn:Hc; [|done|done].
  apply value_compare_eq in Hc as ->. done.
Qed.

Lemma country_options_Ok df :
  "Country" ∈ columns df →
  Forall (λ r, text (cell r "Country")) (rows df) →
  ∃ options, country_options df = Ok options ∧
    StronglySorted value_lt options ∧
    ∀ c, c ∈ options ↔ ∃ r, r ∈ rows df ∧ cell r "Country" = c.
Proof.
  intros HC Htext. unfold country_options. rewrite getitem_Ok by done. result_simpl.
  rewrite <- list_fmap_compose.
  change (snd ∘ _) with (λ r, cell r "Country").
  set (cs := (λ r, cell r "Country") <$> rows df).
  destruct (py_sorted_text (unique cs)) as (s & Hs & Hperm & Hsorted).
  { apply Forall_forall. intros c Hc. apply (proj1 (elem_of_unique _ _)) in Hc.
    apply list_elem_of_fmap in Hc as (r & -> & Hr).
    rewrite Forall_forall in Htext. auto. }
  exists s. split; [done|]. split.
  - apply StronglySorted_strict; [done|]. rewrite Hperm. apply NoDup_unique_from.
  - intros c. rewrite Hperm, elem_of_unique. unfold cs.
    rewrite list_elem_of_fmap. split.
    + intros (r & -> & Hr). by exists r.
    + intros (r & Hr & <-). by exists r.
Qed.

(** X18: on a table whose Country cells are all text, line 47 returns the
    countries of the table in strictly ascending order of code points: each
    country of the table once and nothing else. *)
Theorem country_options_sorted df :
  "Country" ∈ columns df →
  Forall (λ r, text (cell r "Country")) (rows df) →
  ∃ options, country_options df = Ok options ∧
    StronglySorted value_lt options ∧
    ∀ c, c ∈ options ↔ ∃ r, r ∈ rows df ∧ cell r "Country" = c.
Proof. apply country_options_Ok. Qed.

Lemma py_sorted_homogeneous (P : value → Prop) l :
  (∀ a b, P a → P b → ∃ c, py_lt a b = Ok c) →
  Forall P l → ∃ s, py_sorted l = Ok s ∧ s ≡ₚ l.
Proof.
  intros Hlt. induction 1 as [|x l Hx Hl (s & Hs & Hperm)]; cbn.
  - by exists [].
  - rewrite Hs. result_simpl.
    assert (Hins : ∀ s, Forall P s → ∃ s', py_insert x s = Ok s' ∧ s' ≡ₚ x :: s).
    { clear -Hlt Hx. induction 1 as [|y s Hy _ (s' & Hs' & Hperm')]; cbn.
      - by exists [x].
      - destruct (Hlt y x Hy Hx) as [[] ->]; result_simpl.
        + rewrite Hs'. result_simpl. exists (y :: s'). split; [done|].
          rewrite Hperm'. apply Permutation_swap.
        + by exists (x :: y :: s). }
    destruct (Hins s) as (s' & Hs' & Hperm'); [by rewrite Hperm|].
    exists s'. split; [done|]. by rewrite Hperm', Hperm.
Qed.

Lemma py_insert_TypeError x y s :
  py_lt y x = Raise TypeError → py_insert x (y :: s) = Raise TypeError.
Proof. intros H. cbn. by rewrite H. Qed.

Lemma py_sorted_mixed l :
  Forall (λ v, text v ∨ v = NaN) l →
  NaN ∈ l → Exists text l →
  py_sorted l = Raise TypeError.
Proof.
  induction 1 as [|x l Hx Hl IH]; intros Hnan Htext.
  - by apply elem_of_nil in Hnan.
  - cbn [py_sorted].
    destruct (decide (NaN ∈ l)) as [Hn|Hn], (decide (Exists text l)) as [Ht|Ht].
    + by rewrite IH.
    + (* the rest is all NaN, so the head is the text *)
      assert (Hall : Forall (λ v, v = NaN) l).
      { rewrite <- Forall_Exists_neg in Ht. 
        apply Forall_forall. intros v Hv. rewrite Forall_forall in Hl, Ht.
        destruct (Hl v Hv); [by destruct (Ht v Hv)|done]. }
      destruct (py_sorted_homogeneous (λ v, v = NaN) l) as (s & -> & Hperm); [|done|].
      { intros a b -> ->. by eexists. }
      result_simpl.
      assert (text x) as Htx.
      { apply Exists_cons in Htext as [?|?]; [done|by destruct Ht]. }
      destruct s as [|y s].
      { apply Permutation_nil_l in Hperm. subst l. by apply elem_of_nil in Hn. }
      apply py_insert_TypeError.
      assert (y = NaN) as ->.
      { rewrite Forall_forall in Hall. apply Hall. rewrite <- Hperm. by left. }
      by destruct x.
    + (* the rest is all text, so the head is the missing cell *)
      assert (Hall : Forall text l).
      { apply Forall_forall. intros v Hv. rewrite Forall_forall in Hl.
        destruct (Hl v Hv) as [?| ->]; [done|by destruct Hn]. }
      destruct (py_sorted_text l Hall) as (s & -> & Hperm & _). result_simpl.
      assert (x = NaN) as ->.
      { apply elem_of_cons in Hnan as [?|?]; [done|by destruct Hn]. }
      destruct s as [|y s].
      { apply Permutation_nil_l in Hperm. subst l. by apply Exists_nil in Ht. }
      apply py_insert_TypeError.
      assert (text y) as Hy.
      { rewrite Forall_forall in Hall. apply Hall. rewrite <- Hperm. by left. }
      by destruct y.
    + exfalso. apply elem_of_cons in Hnan as [<-|?]; [|done].
      apply Exists_cons in Htext as [?|?]; done.
Qed.

(** X19: a text Country column with one missing cell stops the script at
    line 47: [sorted] compares the NaN of the missing cell with a country
    name and raises TypeError. *)
Theorem country_options_missing_cell df :
  "Country" ∈ columns df →
  Forall (λ r, text (cell r "Country") ∨ cell r "Country" = NaN) (rows df) →
  (∃ r, r ∈ rows df ∧ cell r "Country" = NaN) →
  (∃ r, r ∈ rows df ∧ text (cell r "Country")) →
  country_options df = Raise TypeError.
Proof.
  intros HC Hcells (r1 & Hr1 & Hnan) (r2 & Hr2 & Htext).
  unfold country_options. rewrite getitem_Ok by done. result_simpl.
  rewrite <- list_fmap_compose. change (snd ∘ _) with (λ r, cell r "Country").
  apply py_sorted_mixed.
  - apply Forall_forall. intros v Hv. apply (proj1 (elem_of_unique _ _)) in Hv.
    apply list_elem_of_fmap in Hv as (r & -> & Hr).
    rewrite Forall_forall in Hcells. auto.
  - apply elem_of_unique, list_elem_of_fmap. exists r1. by rewrite Hnan.
  - apply Exists_exists. exists (cell r2 "Country"). split; [|done].
    apply elem_of_unique, list_elem_of_fmap. by exists r2.
Qed.

Lemma date_span_eval df :
  "Date" ∈ columns df →
  Forall (λ r, datetime64 (cell r "Date")) (rows df) →
  date_span df
  = Ok [from_option Timestamp NaN (list_min (dates df));
        from_option Timestamp NaN (list_max (dates df))].
Proof.
  intros HD Hdt. unfold date_span. rewrite !getitem_Ok by done. result_simpl.
  rewrite timestamps_column_Ok by done. by result_simpl.
Qed.

Lemma dated_within_span df r :
  r ∈ rows df → cell r "Date" ≠ NaN → datetime64 (cell r "Date") →
  ∃ lo hi, list_min (dates df) = Some lo ∧ list_max (dates df) = Some hi ∧
           dated_within lo hi r.
Proof.
  intros Hr Hd Hdt. unfold dated_within.
  destruct (cell r "Date") as [| | |t] eqn:Ht; try done.
  assert (Hin : t ∈ dates df) by (apply elem_of_dates; eauto).
  destruct (list_min (dates df)) as [lo|] eqn:Hlo; cycle 1.
  { destruct (dates df); [by apply elem_of_nil in Hin|done]. }
  destruct (list_max (dates df)) as [hi|] eqn:Hhi; cycle 1.
  { destruct (dates df); [by apply elem_of_nil in Hin|done]. }
  exists lo, hi. do 2 (split; [done|]).
  apply list_min_Some in Hlo as [_ Hlo]. apply list_max_Some in Hhi as [_ Hhi].
  split; auto.
Qed.

(** X20: the dates the picker starts from are the least and the greatest
    date of the table (both NaT when no row is dated); every dated row lies
    between them, and over this span the filter keeps every row of the
    selected country but those whose date is missing. *)
Theorem date_span_covers df :
  ObservationTable df →
  (dates df = [] ∧ date_span df = Ok [NaN; NaN]) ∨
  ∃ lo hi, date_span df = Ok [Timestamp lo; Timestamp hi] ∧
    (∃ r, r ∈ rows df ∧ cell r "Date" = Timestamp lo) ∧
    (∃ r, r ∈ rows df ∧ cell r "Date" = Timestamp hi) ∧
    (∀ r t, r ∈ rows df → cell r "Date" = Timestamp t → lo ≤ t ≤ hi) ∧
    ∀ country,
      view df country [lo; hi]
      = Ok (mkDataFrame (columns df)
              (filter (λ r, value_eqb (cell r "Country") country = true ∧
                            cell r "Date" ≠ NaN) (rows df))).
Proof.
  intros Hdf. pose proof Hdf as (_ & HD & _ & Hdt).
  rewrite date_span_eval by done.
  destruct (dates df) as [|t ts] eqn:Hdates; [by left|]. right.
  destruct (list_min (t :: ts)) as [lo|] eqn:Hlo; [|done].
  destruct (list_max (t :: ts)) as [hi|] eqn:Hhi; [|done].
  exists lo, hi. split; [done|]. rewrite <- Hdates in Hlo, Hhi.
  pose proof Hlo as [Hlo_in Hlo_le]%list_min_Some.
  pose proof Hhi as [Hhi_in Hhi_le]%list_max_Some.
  split; [by apply elem_of_dates|]. split; [by apply elem_of_dates|].
  assert (Hbounds : ∀ r t', r ∈ rows df → cell r "Date" = Timestamp t' → lo ≤ t' ≤ hi).
  { intros r t' Hr Ht'.
    assert (t' ∈ dates df) by (apply elem_of_dates; eauto). split; auto. }
  split; [done|]. intros country. rewrite view_selected by done. do 2 f_equal.
  apply filter_ext_elem_of. intros r Hr. unfold selected, dated_within.
  rewrite Forall_forall in Hdt. specialize (Hdt r Hr).
  destruct (cell r "Date") as [| | |t'] eqn:Ht'; try done.
  - split; [tauto|]. by intros [_ ?].
  - specialize (Hbounds r t' Hr Ht'). split; [|tauto]. by intros [? _].
Qed.

(** X21: on a table whose rows all have a country name and a date, every
    country the select box offers (taken by its position among the
    options) has at least one row in the View over the span from the least
    to the greatest date. *)
Theorem selected_country_has_rows df options i lo hi :
  ObservationTable df →
  Forall (λ r, text (cell r "Country") ∧ cell r "Date" ≠ NaN) (rows df) →
  country_options df = Ok options →
  (i < length options)%nat →
  date_span df = Ok [Timestamp lo; Timestamp hi] →
  ∃ v, view df (selectbox options i) [lo; hi] = Ok v ∧ rows v ≠ [].
Proof.
  intros Hdf Hrows Hopts Hi Hspan.
  pose proof Hdf as (HC & HD & _ & Hdt).
  destruct (country_options_Ok df HC) as (options' & Hopts' & _ & Hmem).
  { eapply Forall_impl; [exact Hrows|]. by intros r [? _]. }
  assert (options' = options) as -> by congruence.
  destruct (lookup_lt_is_Some_2 options i Hi) as [c Hc].
  unfold selectbox. rewrite Hc. cbn [default].
  destruct (proj1 (Hmem c)) as (r & Hr & Hrc); [by eapply list_elem_of_lookup_2|].
  rewrite date_span_eval in Hspan by done.
  rewrite Forall_forall in Hrows, Hdt.
  destruct (Hrows r Hr) as [Htext Hdate]. specialize (Hdt r Hr).
  destruct (dated_within_span df r Hr Hdate Hdt) as (lo' & hi' & Hlo & Hhi & Hwithin).
  rewrite Hlo, Hhi in Hspan. injection Hspan as -> ->.
  eexists. split; [by apply view_selected|]. cbn [rows].
  intros Hnil. apply (filter_nil_not_elem_of _ _ r Hnil); [|done].
  split; [|done]. rewrite Hrc in Htext |- *. destruct c; try done. cbn.
  by apply bool_decide_eq_true.
Qed.

(** ** The further properties on the sample files *)

Lemma load_with_new_cases :
  load_data iso_date (disk with_new_cases) = Ok with_new_cases_table.
Proof. by_evaluation. Qed.

Lemma load_bad_date : load_data iso_date (disk bad_date) = Raise ValueError.
Proof. by_evaluation. Qed.

Lemma country_options_two_countries :
  country_options two_countries_table = Ok [Str "Chile"; Str "Peru"].
Proof. by_evaluation. Qed.

Lemma date_span_two_countries :
  date_span two_countries_table = Ok [Timestamp 18322; Timestamp 18324].
Proof. by_evaluation. Qed.

Lemma load_data_failures_witness :
  load_data iso_date (disk bad_date) = Raise ValueError ∧
  ∃ f, disk bad_date !! data_path = Some (Parsed f) ∧ "Date" ∈ header f ∧
       ¬ dates_convert iso_date f.
Proof.
  split; [exact load_bad_date|].
  destruct (load_data_failures iso_date (disk bad_date) ValueError load_bad_date)
    as [[_ [=]]|[Hu|(f & Hf & Hcases)]].
  { vm_compute in Hu. discriminate. }
  exists f. split; [done|].
  by destruct Hcases
    as [[_ [=]]|[(_ & _ & [=])|[(HD & Hconv & _)|(_ & _ & _ & _ & [[_ [=]]|(_ & _ & [=])])]]].
Defined.

Lemma load_data_keeps_New_Cases_witness :
  disk with_new_cases !! data_path = Some (Parsed with_new_cases) ∧
  "New_Cases" ∈ header with_new_cases ∧
  load_data iso_date (disk with_new_cases) = Ok with_new_cases_table ∧
  columns with_new_cases_table = header with_new_cases ∧
  index with_new_cases_table = seq 0 (length (records with_new_cases)) ∧
  ∀ i r, rows with_new_cases_table !! i = Some r →
    ∃ rec, records with_new_cases !! i = Some rec ∧ label r = i ∧
           ∀ k, k ≠ "Date" → cell r k = default NaN (rec !! k).
Proof.
  assert (H1 : disk with_new_cases !! data_path = Some (Parsed with_new_cases)) by by_evaluation.
  assert (H2 : "New_Cases" ∈ header with_new_cases) by decide_by_evaluation.
  split; [exact H1|]. split; [exact H2|]. split; [exact load_with_new_cases|].
  exact (load_data_keeps_New_Cases iso_date (disk with_new_cases) with_new_cases
           with_new_cases_table H1 H2 load_with_new_cases).
Defined.

Lemma load_data_table_witness :
  disk two_countries !! data_path = Some (Parsed two_countries) ∧
  load_data iso_date (disk two_countries) = Ok two_countries_table ∧
  "New_Cases" ∈ columns two_countries_table ∧ "Date" ∈ columns two_countries_table ∧
  Forall (λ r, datetime64 (cell r "Date")) (rows two_countries_table) ∧
  columns two_countries_table = add_column (header two_countries) "New_Cases" ∧
  ("Country" ∈ header two_countries → ObservationTable two_countries_table).
Proof.
  assert (H1 : disk two_countries !! data_path = Some (Parsed two_countries)) by by_evaluation.
  split; [exact H1|]. split; [exact load_two_countries|].
  exact (load_data_table iso_date (disk two_countries) two_countries two_countries_table
           H1 load_two_countries).
Defined.

Lemma load_data_New_Cases_numbers_witness :
  disk no_country !! data_path = Some (Parsed no_country) ∧
  ("New_Cases" ∉ header no_country) ∧
  load_data iso_date (disk no_country) = Ok no_country_table ∧
  Forall (λ r, ∃ z, cell r "New_Cases" = Num z) (rows no_country_table).
Proof.
  assert (H1 : disk no_country !! data_path = Some (Parsed no_country)) by by_evaluation.
  assert (H2 : "New_Cases" ∉ header no_country) by decide_by_evaluation.
  split; [exact H1|]. split; [exact H2|]. split; [exact load_no_country|].
  exact (load_data_New_Cases_numbers iso_date (disk no_country) no_country no_country_table
           H1 H2 load_no_country).
Defined.

Lemma load_data_New_Cases_sum_witness :
  disk two_countries !! data_path = Some (Parsed two_countries) ∧
  ("New_Cases" ∉ header two_countries) ∧ "Confirmed" ∈ header two_countries ∧
  load_data iso_date (disk two_countries) = Ok two_countries_table ∧
  Str "Peru" ≠ NaN ∧
  (λ r, cell r "Confirmed") <$>
    filter (λ r, cell r "Country" = Str "Peru") (rows two_countries_table)
  = Num <$> [2; 5; 9] ∧
  Forall (λ z, 0 ≤ z ≤ 2 ^ 53) [2; 5; 9] ∧
  foldr Z.add 0 (omap (λ r, number_of (cell r "New_Cases"))
                   (filter (λ r, cell r "Country" = Str "Peru") (rows two_countries_table)))
  = 9 - 2.
Proof.
  assert (H1 : disk two_countries !! data_path = Some (Parsed two_countries)) by by_evaluation.
  assert (H2 : "New_Cases" ∉ header two_countries) by decide_by_evaluation.
  assert (H3 : "Confirmed" ∈ header two_countries) by decide_by_evaluation.
  assert (H5 : Str "Peru" ≠ NaN) by discriminate.
  assert (H6 : (λ r, cell r "Confirmed") <$>
                 filter (λ r, cell r "Country" = Str "Peru") (rows two_countries_table)
               = Num <$> [2; 5; 9]) by by_evaluation.
  assert (H7 : Forall (λ z, 0 ≤ z ≤ 2 ^ 53) [2; 5; 9]) by decide_by_evaluation.
  do 3 (split; [assumption|]). split; [exact load_two_countries|].
  do 3 (split; [assumption|]).
  exact (load_data_New_Cases_sum iso_date (disk two_countries) two_countries
           two_countries_table (Str "Peru") [2; 5; 9] 2 9
           H1 H2 H3 load_two_countries H5 H6 H7 eq_refl eq_refl).
Defined.

Lemma load_data_New_Cases_nonnegative_witness :
  disk two_countries !! data_path = Some (Parsed two_countries) ∧
  ("New_Cases" ∉ header two_countries) ∧ "Confirmed" ∈ header two_countries ∧
  load_data iso_date (disk two_countries) = Ok two_countries_table ∧
  Str "Peru" ≠ NaN ∧
  (λ r, cell r "Confirmed") <$>
    filter (λ r, cell r "Country" = Str "Peru") (rows two_countries_table)
  = Num <$> [2; 5; 9] ∧
  Sorted Z.le [2; 5; 9] ∧
  Forall (λ r, ∃ z, cell r "New_Cases" = Num z ∧ 0 ≤ z)
         (filter (λ r, cell r "Country" = Str "Peru") (rows two_countries_table)).
Proof.
  assert (H1 : disk two_countries !! data_path = Some (Parsed two_countries)) by by_evaluation.
  assert (H2 : "New_Cases" ∉ header two_countries) by decide_by_evaluation.
  assert (H3 : "Confirmed" ∈ header two_countries) by decide_by_evaluation.
  assert (H5 : Str "Peru" ≠ NaN) by discriminate.
  assert (H6 : (λ r, cell r "Confirmed") <$>
                 filter (λ r, cell r "Country" = Str "Peru") (rows two_countries_table)
               = Num <$> [2; 5; 9]) by by_evaluation.
  assert (H7 : Sorted Z.le [2; 5; 9]) by (repeat constructor; lia).
  do 3 (split; [assumption|]). split; [exact load_two_countries|].
  do 3 (split; [assumption|]).
  exact (load_data_New_Cases_nonnegative iso_date (disk two_countries) two_countries
           two_countries_table (Str "Peru") [2; 5; 9]
           H1 H2 H3 load_two_countries H5 H6 H7).
Defined.

Lemma load_data_order_witness :
  disk two_countries !! data_path = Some (Parsed two_countries) ∧
  ("New_Cases" ∉ header two_countries) ∧ "Confirmed" ∈ header two_countries ∧
  load_data iso_date (disk two_countries) = Ok two_countries_table ∧
  StronglySorted (λ r1 r2, row_leb ["Country"; "Date"] r1 r2 = true)
                 (rows two_countries_table).
Proof.
  assert (H1 : disk two_countries !! data_path = Some (Parsed two_countries)) by by_evaluation.
  assert (H2 : "New_Cases" ∉ header two_countries) by decide_by_evaluation.
  assert (H3 : "Confirmed" ∈ header two_countries) by decide_by_evaluation.
  do 3 (split; [assumption|]). split; [exact load_two_countries|].
  exact (proj1 (load_data_order iso_date (disk two_countries) two_countries
                  two_countries_table H1 H2 H3 load_two_countries)).
Defined.

Lemma view_peru : view two_countries_table (Str "Peru") [18322; 18324] = Ok peru_view.
Proof. by_evaluation. Qed.

Lemma metrics_of_loaded_table_witness :
  disk two_countries !! data_path = Some (Parsed two_countries) ∧
  ("New_Cases" ∉ header two_countries) ∧ "Country" ∈ header two_countries ∧
  ("Confirmed" ∈ header two_countries →
   Forall (λ rec, ∃ z, default NaN (rec !! "Confirmed") = Num z) (records two_countries)) ∧
  load_data iso_date (disk two_countries) = Ok two_countries_table ∧
  view two_countries_table (Str "Peru") [18322; 18324] = Ok peru_view ∧
  rows peru_view ≠ [] ∧
  ∃ s, kpi_metrics decimal (λ _, "") peru_view = Ok s.
Proof.
  assert (H1 : disk two_countries !! data_path = Some (Parsed two_countries)) by by_evaluation.
  assert (H2 : "New_Cases" ∉ header two_countries) by decide_by_evaluation.
  assert (H3 : "Country" ∈ header two_countries) by decide_by_evaluation.
  assert (H4 : "Confirmed" ∈ header two_countries →
               Forall (λ rec, ∃ z, default NaN (rec !! "Confirmed") = Num z)
                      (records two_countries)).
  { intros _. repeat (constructor; [eexists; by_evaluation|]). constructor. }
  assert (H7 : rows peru_view ≠ []) by (vm_compute; discriminate).
  do 4 (split; [assumption|]). split; [exact load_two_countries|].
  split; [exact view_peru|]. split; [exact H7|].
  exact (metrics_of_loaded_table iso_date decimal (λ _, "") (disk two_countries) two_countries
           two_countries_table (Str "Peru") 18322 18324 peru_view
           H1 H2 H3 H4 load_two_countries view_peru H7).
Defined.

Lemma country_options_sorted_witness :
  "Country" ∈ columns two_countries_table ∧
  Forall (λ r, text (cell r "Country")) (rows two_countries_table) ∧
  ∃ options, country_options two_countries_table = Ok options ∧
    StronglySorted value_lt options ∧
    ∀ c, c ∈ options ↔ ∃ r, r ∈ rows two_countries_table ∧ cell r "Country" = c.
Proof.
  assert (H1 : "Country" ∈ columns two_countries_table) by decide_by_evaluation.
  assert (H2 : Forall (λ r, text (cell r "Country")) (rows two_countries_table))
    by decide_by_evaluation.
  split; [exact H1|]. split; [exact H2|].
  exact (country_options_sorted two_countries_table H1 H2).
Defined.

Lemma country_options_missing_cell_witness :
  "Country" ∈ columns nameless_line_table ∧
  Forall (λ r, text (cell r "Country") ∨ cell r "Country" = NaN) (rows nameless_line_table) ∧
  (∃ r, r ∈ rows nameless_line_table ∧ cell r "Country" = NaN) ∧
  (∃ r, r ∈ rows nameless_line_table ∧ text (cell r "Country")) ∧
  country_options nameless_line_table = Raise TypeError.
Proof.
  assert (H1 : "Country" ∈ columns nameless_line_table) by decide_by_evaluation.
  assert (H2 : Forall (λ r, text (cell r "Country") ∨ cell r "Country" = NaN)
                      (rows nameless_line_table)) by decide_by_evaluation.
  assert (H3 : ∃ r, r ∈ rows nameless_line_table ∧ cell r "Country" = NaN).
  { eexists. split; [right; left|]. by_evaluation. }
  assert (H4 : ∃ r, r ∈ rows nameless_line_table ∧ text (cell r "Country")).
  { eexists. split; [left|]. decide_by_evaluation. }
  do 4 (split; [assumption|]).
  exact (country_options_missing_cell nameless_line_table H1 H2 H3 H4).
Defined.

Lemma date_span_covers_witness :
  ObservationTable two_countries_table ∧
  date_span two_countries_table = Ok [Timestamp 18322; Timestamp 18324] ∧
  ((dates two_countries_table = [] ∧ date_span two_countries_table = Ok [NaN; NaN]) ∨
   ∃ lo hi, date_span two_countries_table = Ok [Timestamp lo; Timestamp hi] ∧
     (∃ r, r ∈ rows two_countries_table ∧ cell r "Date" = Timestamp lo) ∧
     (∃ r, r ∈ rows two_countries_table ∧ cell r "Date" = Timestamp hi) ∧
     (∀ r t, r ∈ rows two_countries_table → cell r "Date" = Timestamp t → lo ≤ t ≤ hi) ∧
     ∀ country,
       view two_countries_table country [lo; hi]
       = Ok (mkDataFrame (columns two_countries_table)
               (filter (λ r, value_eqb (cell r "Country") country = true ∧
                             cell r "Date" ≠ NaN) (rows two_countries_table)))).
Proof.
  split; [exact two_countries_ObservationTable|]. split; [exact date_span_two_countries|].
  exact (date_span_covers two_countries_table two_countries_ObservationTable).
Defined.

Lemma selected_country_has_rows_witness :
  ObservationTable two_countries_table ∧
  Forall (λ r, text (cell r "Country") ∧ cell r "Date" ≠ NaN) (rows two_countries_table) ∧
  country_options two_countries_table = Ok [Str "Chile"; Str "Peru"] ∧
  (0 < length [Str "Chile"; Str "Peru"])%nat ∧
  date_span two_countries_table = Ok [Timestamp 18322; Timestamp 18324] ∧
  ∃ v, view two_countries_table (selectbox [Str "Chile"; Str "Peru"] 0) [18322; 18324] = Ok v ∧
       rows v ≠ [].
Proof.
  assert (H2 : Forall (λ r, text (cell r "Country") ∧ cell r "Date" ≠ NaN)
                      (rows two_countries_table)) by decide_by_evaluation.
  assert (H4 : (0 < length [Str "Chile"; Str "Peru"])%nat) by (cbn; lia).
  split; [exact two_countries_ObservationTable|]. split; [exact H2|].
  split; [exact country_options_two_countries|]. split; [exact H4|].
  split; [exact date_span_two_countries|].
  exact (selected_country_has_rows two_countries_table [Str "Chile"; Str "Peru"] 0
           18322 18324 two_countries_ObservationTable H2 country_options_two_countries
           H4 date_span_two_countries).
Defined.

(** ** Rows without a country name *)

Lemma grouped_diff_missing_key last xs :
  Forall2 (λ x p, x.1.2 = NaN → p.2 = NaN) xs (grouped_diff last xs).
Proof.
  revert last. induction xs as [|[[lbl k] x] xs IH]; intros last; [constructor|].
  destruct k; cbn; constructor; auto; by cbn.
Qed.

Lemma new_cases_column_missing_key (l : list Row) i r v :
  l !! i = Some r → new_cases_column l !! i = Some v →
  cell r "Country" = NaN → v = Num 0.
Proof.
  intros Hr Hv Hc. unfold new_cases_column, fillna, series_map in Hv.
  rewrite <- list_fmap_compose in Hv.
  apply list_lookup_fmap_Some_1 in Hv as (p & -> & Hp).
  pose proof (grouped_diff_missing_key ∅ (keyed "Country" "Confirmed" l)) as H.
  assert (Hx : keyed "Country" "Confirmed" l !! i
               = Some (label r, cell r "Country", number_of (cell r "Confirmed")))
    by (unfold keyed; by rewrite list_lookup_fmap, Hr).
  pose proof (Forall2_lookup_lr _ _ _ _ _ _ H Hx Hp Hc) as Hnan.
  cbn. by rewrite Hnan.
Qed.

Lemma view_without_Country df country date_range :
  "Country" ∉ columns df → view df country date_range = Raise (KeyError "Country").
Proof.
  intros HC. unfold view. rewrite (getitem_KeyError df "Country" HC). reflexivity.
Qed.

Section NamelessRows.

Variable parse_datetime : string → option Z.

(** X22: a row whose Country is missing belongs to no group: the New_Cases
    the loader computes for it is 0, and no selection of the filter shows
    it. *)
Theorem load_data_missing_country fs f df r :
  fs !! data_path = Some (Parsed f) →
  "New_Cases" ∉ header f → "Confirmed" ∈ header f →
  load_data parse_datetime fs = Ok df →
  r ∈ rows df → cell r "Country" = NaN →
  cell r "New_Cases" = Num 0 ∧
  ∀ country date_range v, view df country date_range = Ok v → r ∉ rows v.
Proof.
  intros Hf HN HC Hload Hr Hc. split.
  - destruct (load_data_computed parse_datetime fs f df Hf HN HC Hload) as (l & _ & Hrows).
    rewrite Hrows in Hr. apply list_elem_of_lookup in Hr as [i Hi].
    apply lookup_zip_with_Some in Hi as (r0 & v & -> & Hr0 & Hv).
    rewrite cell_set_cell_ne in Hc by done. rewrite cell_set_cell_eq.
    by eapply new_cases_column_missing_key.
  - intros country date_range v Hv Hin.
    assert (Hobs : ObservationTable df).
    { apply (load_data_ObservationTable parse_datetime fs df Hload).
      destruct (decide ("Country" ∈ columns df)) as [|HCo]; [done|].
      by rewrite (view_without_Country df country date_range HCo) in Hv. }
    destruct date_range as [|lower [|upper rest]].
    + pose proof (view_date_range_length_aux df country [] Hobs) as H. cbn in H. congruence.
    + pose proof (view_date_range_length_aux df country [lower] Hobs) as H. cbn in H. congruence.
    + rewrite view_cons_cons, view_selected in Hv by done. injection Hv as <-.
      cbn [rows] in Hin. apply list_elem_of_filter in Hin as [[He _] _].
      rewrite Hc in He. done.
Qed.

End NamelessRows.

Lemma load_nameless_line :
  load_data iso_date (disk nameless_line) = Ok nameless_line_table.
Proof. by_evaluation. Qed.

Lemma load_data_missing_country_witness :
  disk nameless_line !! data_path = Some (Parsed nameless_line) ∧
  ("New_Cases" ∉ header nameless_line) ∧ "Confirmed" ∈ header nameless_line ∧
  load_data iso_date (disk nameless_line) = Ok nameless_line_table ∧
  nameless_row ∈ rows nameless_line_table ∧ cell nameless_row "Country" = NaN ∧
  cell nameless_row "New_Cases" = Num 0 ∧
  ∀ country date_range v,
    view nameless_line_table country date_range = Ok v → nameless_row ∉ rows v.
Proof.
  assert (H1 : disk nameless_line !! data_path = Some (Parsed nameless_line)) by by_evaluation.
  assert (H2 : "New_Cases" ∉ header nameless_line) by decide_by_evaluation.
  assert (H3 : "Confirmed" ∈ header nameless_line) by decide_by_evaluation.
  assert (H5 : nameless_row ∈ rows nameless_line_table) by (right; left).
  assert (H6 : cell nameless_row "Country" = NaN) by by_evaluation.
  do 3 (split; [assumption|]). split; [exact load_nameless_line|].
  do 2 (split; [assumption|]).
  exact (load_data_missing_country iso_date (disk nameless_line) nameless_line
           nameless_line_table nameless_row H1 H2 H3 load_nameless_line H5 H6).
Defined.
